(** * Ventoy Flasher: a shallow embedding of [backend.py] and [gui.py]

    The development follows the two source modules.  [backend.py] holds the
    class [FlashUtility] (external commands, download, extraction, hashing,
    cleanup); [gui.py] holds [VentoyFlasherGUI], whose slots drive the backend
    and which owns the log pane that the backend writes to through its
    [log_callback].  [application.py] is the single-file variant of the same
    two classes (the bodies of the functions embedded here are the same up to
    the wording of the log messages of the two revalidation passes).

    Python text is modelled by [string], read as a sequence of code points
    below 256; file contents are [list byte]; the file system is a finite map
    from paths to nodes; everything outside the process (HTTP origins, the
    shell, archive decoders, the user answering a dialog) is an [Env] record
    of oracles indexed by the number of external interactions made so far. *)

From Stdlib Require Import ZArith List Ascii String Bool Lia.
From Stdlib.Strings Require Import Byte.
From stdpp Require Import base option list strings pretty gmap fin_maps.

Import ListNotations.
Open Scope string_scope.
Open Scope Z_scope.

(** ** Python string operations used by the sources *)

Module PyStr.

(** [str.isspace] on code points below 256. *)
Definition is_space (c : ascii) : bool :=
  let n := nat_of_ascii c in
  ((9 <=? n) && (n <=? 13) || (28 <=? n) && (n <=? 32)
   || (n =? 133) || (n =? 160))%nat.

(** [str.lower] on code points below 256. *)
Definition lower_char (c : ascii) : ascii :=
  let n := nat_of_ascii c in
  if ((65 <=? n) && (n <=? 90)
      || (192 <=? n) && (n <=? 222) && negb (n =? 215))%nat
  then ascii_of_nat (n + 32) else c.

Fixpoint lower (s : string) : string :=
  match s with
  | EmptyString => EmptyString
  | String c r => String (lower_char c) (lower r)
  end.

Fixpoint lstrip (s : string) : string :=
  match s with
  | EmptyString => EmptyString
  | String c r => if is_space c then lstrip r else s
  end.

(** Removes trailing white space: a character is kept when something that
    is kept follows it or when it is not white space. *)
Fixpoint rstrip (s : string) : string :=
  match s with
  | EmptyString => EmptyString
  | String c r =>
      match rstrip r with
      | EmptyString => if is_space c then EmptyString else String c EmptyString
      | r' => String c r'
      end
  end.

(** [s.strip()] *)
Definition strip (s : string) : string := rstrip (lstrip s).

(** [s.split()] without arguments: the maximal runs of non-space
    characters, in order.  [cur] is the run being read, reversed. *)
Fixpoint split_aux (cur : list ascii) (s : string) : list string :=
  match s with
  | EmptyString =>
      match cur with
      | [] => []
      | _ => [string_of_list_ascii (rev cur)]
      end
  | String c r =>
      if is_space c then
        match cur with
        | [] => split_aux [] r
        | _ => string_of_list_ascii (rev cur) :: split_aux [] r
        end
      else split_aux (c :: cur) r
  end.

Definition split (s : string) : list string := split_aux [] s.

(** [s.startswith(p)] *)
Fixpoint startswith (s p : string) : bool :=
  match p, s with
  | EmptyString, _ => true
  | String _ _, EmptyString => false
  | String a p', String b s' => Ascii.eqb a b && startswith s' p'
  end.

(** [p in s] for strings. *)
Fixpoint contains (p s : string) : bool :=
  startswith s p ||
  match s with
  | EmptyString => false
  | String _ r => contains p r
  end.

(** [s.endswith(p)] *)
Fixpoint endswith (s p : string) : bool :=
  String.eqb s p ||
  match s with
  | EmptyString => false
  | String _ r => endswith r p
  end.

(** [posixpath.basename]: what follows the last slash. *)
Fixpoint basename (p : string) : string :=
  match p with
  | EmptyString => EmptyString
  | String c r =>
      if contains "/" r then basename r
      else if Ascii.eqb c "/" then r else p
  end.

(** [posixpath.dirname]: what precedes the last slash, with trailing
    slashes removed unless the result is made of slashes only. *)
Fixpoint head_upto_last_slash (p : string) : string :=
  match p with
  | EmptyString => EmptyString
  | String c r =>
      if contains "/" r then String c (head_upto_last_slash r)
      else if Ascii.eqb c "/" then "/" else EmptyString
  end.

Fixpoint all_slashes (p : string) : bool :=
  match p with
  | EmptyString => true
  | String c r => Ascii.eqb c "/" && all_slashes r
  end.

Fixpoint rstrip_slashes (p : string) : string :=
  match p with
  | EmptyString => EmptyString
  | String c r =>
      match rstrip_slashes r with
      | EmptyString => if Ascii.eqb c "/" then EmptyString else String c EmptyString
      | r' => String c r'
      end
  end.

Definition dirname (p : string) : string :=
  let h := head_upto_last_slash p in
  if all_slashes h then h else rstrip_slashes h.

(** [posixpath.join(a, b)] *)
Definition path_join (a b : string) : string :=
  if startswith b "/" then b
  else if String.eqb a EmptyString || endswith a "/" then a ++ b
  else a ++ "/" ++ b.

End PyStr.

(** ** SHA-256, as the hash object [hashlib.sha256()] computes it

    [hashlib] is a library of the interpreter; its hash object is modelled by
    the FIPS 180-4 algorithm with the buffering an incremental implementation
    has: [update] absorbs every complete 64-byte block and keeps the rest
    pending, [hexdigest] pads what is pending and prints the eight words. *)

Module Sha256.

Local Open Scope list_scope.

Definition mask32 : Z := 0xFFFFFFFF.
Definition add32 (x y : Z) : Z := Z.land (x + y) mask32.
Definition rotr (n x : Z) : Z :=
  Z.land (Z.lor (Z.shiftr x n) (Z.shiftl x (32 - n))) mask32.
Definition shr (n x : Z) : Z := Z.shiftr x n.
Definition not32 (x : Z) : Z := Z.lxor x mask32.

Definition Ch (x y z : Z) : Z := Z.lxor (Z.land x y) (Z.land (not32 x) z).
Definition Maj (x y z : Z) : Z :=
  Z.lxor (Z.lxor (Z.land x y) (Z.land x z)) (Z.land y z).
Definition Sigma0 (x : Z) : Z := Z.lxor (Z.lxor (rotr 2 x) (rotr 13 x)) (rotr 22 x).
Definition Sigma1 (x : Z) : Z := Z.lxor (Z.lxor (rotr 6 x) (rotr 11 x)) (rotr 25 x).
Definition sigma0 (x : Z) : Z := Z.lxor (Z.lxor (rotr 7 x) (rotr 18 x)) (shr 3 x).
Definition sigma1 (x : Z) : Z := Z.lxor (Z.lxor (rotr 17 x) (rotr 19 x)) (shr 10 x).

(** The round constants of FIPS 180-4, 4.2.2, written in decimal. *)
Definition K : list Z :=
  [
    1116352408; 1899447441; 3049323471; 3921009573;
    961987163; 1508970993; 2453635748; 2870763221;
    3624381080; 310598401; 607225278; 1426881987;
    1925078388; 2162078206; 2614888103; 3248222580;
    3835390401; 4022224774; 264347078; 604807628;
    770255983; 1249150122; 1555081692; 1996064986;
    2554220882; 2821834349; 2952996808; 3210313671;
    3336571891; 3584528711; 113926993; 338241895;
    666307205; 773529912; 1294757372; 1396182291;
    1695183700; 1986661051; 2177026350; 2456956037;
    2730485921; 2820302411; 3259730800; 3345764771;
    3516065817; 3600352804; 4094571909; 275423344;
    430227734; 506948616; 659060556; 883997877;
    958139571; 1322822218; 1537002063; 1747873779;
    1955562222; 2024104815; 2227730452; 2361852424;
    2428436474; 2756734187; 3204031479; 3329325298 ].

(** The initial hash value of FIPS 180-4, 5.3.3, written in decimal. *)
Definition H0 : list Z :=
  [
    1779033703; 3144134277; 1013904242; 2773480762;
    1359893119; 2600822924; 528734635; 1541459225 ].

Definition byteZ (b : byte) : Z := Z.of_N (Byte.to_N b).

Definition Zbyte (z : Z) : byte :=
  match Byte.of_N (Z.to_N (Z.land z 0xFF)) with
  | Some b => b
  | None => x00
  end.

(** Big-endian 32-bit words of a block. *)
Fixpoint words_of (bs : list byte) : list Z :=
  match bs with
  | b0 :: b1 :: b2 :: b3 :: r =>
      (Z.shiftl (byteZ b0) 24 + Z.shiftl (byteZ b1) 16
       + Z.shiftl (byteZ b2) 8 + byteZ b3) :: words_of r
  | _ => []
  end.

Definition wd (w : list Z) (i : nat) : Z := nth i w 0.

(** The message schedule: [n] more words after the ones in [w]. *)
Fixpoint schedule (n : nat) (w : list Z) : list Z :=
  match n with
  | O => w
  | S n' =>
      let t := length w in
      let x := add32 (add32 (sigma1 (wd w (t - 2))) (wd w (t - 7)))
                     (add32 (sigma0 (wd w (t - 15))) (wd w (t - 16))) in
      schedule n' (w ++ [x])
  end.

Record vars := Vars { va : Z; vb : Z; vc : Z; vd : Z; ve : Z; vf : Z; vg : Z; vh : Z }.

Definition round (v : vars) (kw : Z * Z) : vars :=
  let t1 := add32 (add32 (add32 (vh v) (Sigma1 (ve v)))
                         (add32 (Ch (ve v) (vf v) (vg v)) (fst kw))) (snd kw) in
  let t2 := add32 (Sigma0 (va v)) (Maj (va v) (vb v) (vc v)) in
  Vars (add32 t1 t2) (va v) (vb v) (vc v) (add32 (vd v) t1) (ve v) (vf v) (vg v).

Definition vars_of (h : list Z) : vars :=
  Vars (wd h 0) (wd h 1) (wd h 2) (wd h 3) (wd h 4) (wd h 5) (wd h 6) (wd h 7).

(** One application of the compression function to a 64-byte block. *)
Definition compress (h : list Z) (block : list byte) : list Z :=
  let w := schedule 48 (words_of block) in
  let v := fold_left round (combine K w) (vars_of h) in
  [ add32 (wd h 0) (va v); add32 (wd h 1) (vb v);
    add32 (wd h 2) (vc v); add32 (wd h 3) (vd v);
    add32 (wd h 4) (ve v); add32 (wd h 5) (vf v);
    add32 (wd h 6) (vg v); add32 (wd h 7) (vh v) ].

(** Absorbs the complete blocks at the front of [data]; returns the chaining
    value and the bytes left over.  [fuel] bounds the number of blocks. *)
Fixpoint absorb (fuel : nat) (h : list Z) (data : list byte) : list Z * list byte :=
  match fuel with
  | O => (h, data)
  | S fuel' =>
      if (64 <=? length data)%nat
      then absorb fuel' (compress h (take 64 data)) (drop 64 data)
      else (h, data)
  end.

(** The hash object: chaining value, pending bytes, bytes seen so far. *)
Record t := Hasher { chain : list Z; pending : list byte; seen : Z }.

(** [hashlib.sha256()] *)
Definition new : t := Hasher H0 [] 0.

(** [h.update(data)] *)
Definition update (s : t) (data : list byte) : t :=
  let d := pending s ++ data in
  let '(h, r) := absorb (length d) (chain s) d in
  Hasher h r (seen s + Z.of_nat (length data)).

(** The padding of FIPS 180-4, 5.1.1, for a message of [n] bytes of which
    [r] are pending: 0x80, zeros up to 56 modulo 64, the bit length. *)
Definition padding (r : list byte) (n : Z) : list byte :=
  let k := Z.to_nat ((55 - Z.of_nat (length r)) mod 64) in
  let bits := 8 * n in
  x80 :: repeat x00 k
    ++ map (fun i => Zbyte (Z.shiftr bits (8 * (7 - Z.of_nat i)))) (seq 0 8).

Definition digest_words (s : t) : list Z :=
  let d := pending s ++ padding (pending s) (seen s) in
  fst (absorb (length d) (chain s) d).

Definition hex_digit (z : Z) : ascii :=
  if z <? 10 then ascii_of_nat (Z.to_nat (48 + z)) else ascii_of_nat (Z.to_nat (87 + z)).

Definition hex_word (w : Z) : string :=
  string_of_list_ascii
    (map (fun i => hex_digit (Z.land (Z.shiftr w (4 * (7 - Z.of_nat i))) 0xF)) (seq 0 8)).

(** [h.hexdigest()] *)
Definition hexdigest (s : t) : string :=
  fold_right (fun w acc => String.append (hex_word w) acc) EmptyString (digest_words s).

(** The digest of a whole message, as one call of [update]. *)
Definition sha256_hex (msg : list byte) : string := hexdigest (update new msg).

End Sha256.

Definition bytes_of_string (s : string) : list byte := map byte_of_ascii (list_ascii_of_string s).

(** ** Constants of [backend.py] *)

Definition LOG_DEBUG : Z := 10.
Definition LOG_INFO : Z := 20.
Definition LOG_WARNING : Z := 30.
Definition LOG_ERROR : Z := 40.

(** An entry of [PREDEFINED_OS]: every entry of the source carries both keys. *)
Record os_info := OsInfo { url : string; hash : string }.

(** The dictionary is iterated in insertion order ([validate_iso] stops at the
    first matching name), so it is an association list with distinct keys. *)
Definition PREDEFINED_OS_initial : list (string * os_info) :=
  [ ("ParrotOS Home Edition",
     OsInfo "https://cdimage.parrot.sh/parrot/iso/ParrotSecurity-4.11_amd64.iso"
            "dummyhash_parrot");
    ("NetBSD 9.3",
     OsInfo "https://cdn.netbsd.org/pub/NetBSD/NetBSD-9.3/NetBSD-9.3-amd64.iso"
            "dummyhash_netbsd");
    ("Ubuntu Server 22.04",
     OsInfo "https://releases.ubuntu.com/22.04/ubuntu-22.04-live-server-amd64.iso"
            "dummyhash_ubuntu_server_22");
    ("Debian 11 (Netinst)",
     OsInfo "https://cdimage.debian.org/debian-cd/current/amd64/iso-cd/debian-11.7.0-amd64-netinst.iso"
            "dummyhash_debian");
    ("Ubuntu 22.04 Desktop",
     OsInfo "https://releases.ubuntu.com/22.04/ubuntu-22.04-desktop-amd64.iso"
            "dummyhash_ubuntu_desktop_22");
    ("Ubuntu Jammy Jellyfish",
     OsInfo "https://releases.ubuntu.com/22.04/ubuntu-22.04-desktop-amd64.iso"
            "dummyhash_ubuntu_jammy");
    ("Fedora Workstation 37",
     OsInfo "https://download.fedoraproject.org/pub/fedora/linux/releases/37/Workstation/x86_64/iso/Fedora-Workstation-Live-x86_64-37-1.6.iso"
            "dummyhash_fedora");
    ("OpenSUSE Leap 15.4",
     OsInfo "https://download.opensuse.org/distribution/leap/15.4/iso/openSUSE-Leap-15.4-DVD-x86_64.iso"
            "dummyhash_opensuse");
    ("Arch Linux",
     OsInfo "https://mirror.rackspace.com/archlinux/iso/latest/archlinux-x86_64.iso"
            "dummyhash_arch");
    ("AlmaLinux 9",
     OsInfo "https://repo.almalinux.org/almalinux/9/isos/x86_64/AlmaLinux-9.0-x86_64-dvd1.iso"
            "dummyhash_almalinux");
    ("Pop!_OS 22.04",
     OsInfo "https://pop-iso.sfo2.cdn.digitaloceanspaces.com/22.04/Pop_OS_22.04_amd64_intel_60.iso"
            "dummyhash_popos");
    ("Puppy Linux 9.5",
     OsInfo "https://distro.ibiblio.org/puppylinux/puppy-9.5/puppy-9.5_2019-08-14.iso"
            "dummyhash_puppy");
    ("Linux Mint 21",
     OsInfo "https://mirrors.edge.kernel.org/linuxmint/stable/21/linuxmint-21-cinnamon-64bit.iso"
            "dummyhash_mint");
    ("Tiny Core Linux 12.1",
     OsInfo "http://tinycorelinux.net/12.x/x86/release/TinyCorePure64-12.1.iso"
            "dummyhash_tinycore");
    ("Kali Linux 2022.4",
     OsInfo "https://cdimage.kali.org/kali-2022.4/kali-linux-2022.4-installer-amd64.iso"
            "dummyhash_kali");
    ("Ubuntu 20.04 LTS Desktop",
     OsInfo "https://releases.ubuntu.com/20.04/ubuntu-20.04.5-desktop-amd64.iso"
            "dummyhash_ubuntu20_desktop");
    ("Ubuntu 20.04 LTS Server",
     OsInfo "https://releases.ubuntu.com/20.04/ubuntu-20.04-live-server-amd64.iso"
            "dummyhash_ubuntu20_server");
    ("Ubuntu Minimal 20.04",
     OsInfo "https://cdimage.ubuntu.com/ubuntu-minimal/releases/20.04/release/ubuntu-minimal-20.04.5-amd64.iso"
            "dummyhash_ubuntu_minimal") ].

(** [VENTOY_URLS.get(os_type)] *)
Definition VENTOY_URLS (os_type : string) : option string :=
  if String.eqb os_type "Linux" then
    Some "https://github.com/ventoy/Ventoy/releases/download/v1.0.90/ventoy-1.0.90-linux.tar.gz"
  else if String.eqb os_type "Windows" then
    Some "https://github.com/ventoy/Ventoy/releases/download/v1.0.90/ventoy-1.0.90-windows.zip"
  else None.

(** ** Exceptions *)

Inductive exn_class :=
| IndexError
| KeyError
| OSError               (* FileNotFoundError, PermissionError, ... from file operations *)
| CalledProcessError    (* subprocess.run(..., check=True), non-zero exit status *)
| ConnectionError       (* requests.ConnectionError *)
| Timeout               (* requests.Timeout *)
| HTTPError             (* requests.HTTPError, from raise_for_status *)
| RequestException      (* any other requests.RequestException *)
| TransportError        (* urllib3 errors raised while reading response.raw *)
| BadArchive.           (* tarfile.ReadError, zipfile.BadZipFile, ... *)

(** [str_e] is what [str(e)] prints. *)
Record exn := Exn { class_of : exn_class; str_e : string }.

(** [isinstance(e, requests.RequestException)] *)
Definition is_RequestException (e : exn) : bool :=
  match class_of e with
  | ConnectionError | Timeout | HTTPError | RequestException => true
  | _ => false
  end.

(** [isinstance(e, subprocess.CalledProcessError)] *)
Definition is_CalledProcessError (e : exn) : bool :=
  match class_of e with
  | CalledProcessError => true
  | _ => false
  end.

(** ** The world outside the interpreter *)

Inductive node := File (content : list byte) | Dir.

(** What the process asks of its environment, in the order it asks. *)
Inductive Event :=
| Shell (command : string)      (* subprocess.run(command, shell=True, check=True) *)
| Lsblk                         (* subprocess.run(["lsblk", "-o", ...]) *)
| HttpGet (target : string)     (* requests.get(url, stream=True) *)
| HttpHead (target : string)    (* requests.head(url, allow_redirects=True, timeout=5) *)
| Rmtree (path : string)        (* shutil.rmtree(path) *)
| Dialog (title : string).      (* a QMessageBox with Yes and No *)

Inductive ShellOutcome :=
| Completed                            (* exit status 0 *)
| NonZeroExit (str : string)           (* CalledProcessError *)
| SpawnFailed (str : string).          (* the shell could not be started *)

Inductive LsblkOutcome :=
| LsblkStdout (out : string)
| LsblkRaised (str : string).

(** A response carries its status, the text of the [HTTPError] that
    [raise_for_status] would raise, the bytes [response.raw] delivers and,
    when the stream breaks after them, the text of the transport error. *)
Inductive GetOutcome :=
| GetRaised (e : exn)
| GetResponse (status_code : Z) (http_error : string)
              (raw : list byte) (broken : option string).

Inductive HeadOutcome :=
| HeadRaised (e : exn)
| HeadStatus (status_code : Z).

(** What an archive decoder extracts before it stops: the members, with
    their paths relative to the target, and the error it stops on, if any. *)
Record Decoded := { members : list (string * node); failure : option string }.

(** A failing [rmtree]: the error text and the entries already removed. *)
Record RmFailure := { rm_error : string; rm_done : string -> bool }.

(** The oracles.  The first argument of a time-dependent oracle is the
    number of events that precede the request. *)
Record Env := {
  env_shell : nat -> string -> ShellOutcome;
  env_lsblk : nat -> LsblkOutcome;
  env_get : nat -> string -> GetOutcome;
  env_head : nat -> string -> HeadOutcome;
  env_rmtree : nat -> string -> option RmFailure;
  env_reply : nat -> string -> bool;       (* true: the user answers Yes *)
  env_targz : list byte -> Decoded;        (* tarfile.open(p, "r:gz").extractall *)
  env_zip : list byte -> Decoded;          (* zipfile.ZipFile(p, "r").extractall *)
  env_platform : string;                   (* platform.system() *)
  env_mkdtemp : string;                    (* the path tempfile.mkdtemp returns *)
}.

(** ** Program state *)

(** The only callable the repository ever passes as [log_callback] is the
    bound method [VentoyFlasherGUI.log_message] of the one window. *)
Inductive callback := log_message_of_window.

Record FlashUtility := {
  os_type : string;
  log_callback : option callback;
  temp_dir : string;
}.

(** The window, reduced to what its slots read and write.  A text widget is
    the list of the lines appended to it; a combo box or line edit is its
    current text; a radio button is its checked state. *)
Record VentoyFlasherGUI := {
  log_level : Z;
  flash_util : FlashUtility;
  log_output : list string;
  status_pane : list string;
  selected_iso_path : string;
  dd_mode_radio : bool;
  ventoy_mode_radio : bool;
  usb_device_combo : string;
  ventoy_mount_input : string;
  distro_list : list string;
  reformat_combo : string;
  usb_details_output : string;
}.

Record World := {
  fs : gmap string node;                       (* the file system *)
  events : list Event;                         (* oldest first *)
  stdout : list string;                        (* lines printed *)
  PREDEFINED_OS : list (string * os_info);     (* the module-level dictionary *)
  window : VentoyFlasherGUI;
}.

Definition set_fs (f : gmap string node) (w : World) : World :=
  {| fs := f; events := events w; stdout := stdout w;
     PREDEFINED_OS := PREDEFINED_OS w; window := window w |}.

Definition add_event (e : Event) (w : World) : World :=
  {| fs := fs w; events := (events w ++ [e])%list; stdout := stdout w;
     PREDEFINED_OS := PREDEFINED_OS w; window := window w |}.

Definition add_stdout (line : string) (w : World) : World :=
  {| fs := fs w; events := events w; stdout := (stdout w ++ [line])%list;
     PREDEFINED_OS := PREDEFINED_OS w; window := window w |}.

Definition set_PREDEFINED_OS (d : list (string * os_info)) (w : World) : World :=
  {| fs := fs w; events := events w; stdout := stdout w;
     PREDEFINED_OS := d; window := window w |}.

Definition set_window (g : VentoyFlasherGUI) (w : World) : World :=
  {| fs := fs w; events := events w; stdout := stdout w;
     PREDEFINED_OS := PREDEFINED_OS w; window := g |}.

Definition add_log_output (line : string) (g : VentoyFlasherGUI) : VentoyFlasherGUI :=
  {| log_level := log_level g; flash_util := flash_util g;
     log_output := (log_output g ++ [line])%list; status_pane := status_pane g;
     selected_iso_path := selected_iso_path g; dd_mode_radio := dd_mode_radio g;
     ventoy_mode_radio := ventoy_mode_radio g; usb_device_combo := usb_device_combo g;
     ventoy_mount_input := ventoy_mount_input g; distro_list := distro_list g;
     reformat_combo := reformat_combo g; usb_details_output := usb_details_output g |}.

Definition add_status_pane (line : string) (g : VentoyFlasherGUI) : VentoyFlasherGUI :=
  {| log_level := log_level g; flash_util := flash_util g;
     log_output := log_output g; status_pane := (status_pane g ++ [line])%list;
     selected_iso_path := selected_iso_path g; dd_mode_radio := dd_mode_radio g;
     ventoy_mode_radio := ventoy_mode_radio g; usb_device_combo := usb_device_combo g;
     ventoy_mount_input := ventoy_mount_input g; distro_list := distro_list g;
     reformat_combo := reformat_combo g; usb_details_output := usb_details_output g |}.

Definition set_selected_iso_path (p : string) (g : VentoyFlasherGUI) : VentoyFlasherGUI :=
  {| log_level := log_level g; flash_util := flash_util g;
     log_output := log_output g; status_pane := status_pane g;
     selected_iso_path := p; dd_mode_radio := dd_mode_radio g;
     ventoy_mode_radio := ventoy_mode_radio g; usb_device_combo := usb_device_combo g;
     ventoy_mount_input := ventoy_mount_input g; distro_list := distro_list g;
     reformat_combo := reformat_combo g; usb_details_output := usb_details_output g |}.

Definition set_distro_list (l : list string) (g : VentoyFlasherGUI) : VentoyFlasherGUI :=
  {| log_level := log_level g; flash_util := flash_util g;
     log_output := log_output g; status_pane := status_pane g;
     selected_iso_path := selected_iso_path g; dd_mode_radio := dd_mode_radio g;
     ventoy_mode_radio := ventoy_mode_radio g; usb_device_combo := usb_device_combo g;
     ventoy_mount_input := ventoy_mount_input g; distro_list := l;
     reformat_combo := reformat_combo g; usb_details_output := usb_details_output g |}.

Definition set_usb_details_output (s : string) (g : VentoyFlasherGUI) : VentoyFlasherGUI :=
  {| log_level := log_level g; flash_util := flash_util g;
     log_output := log_output g; status_pane := status_pane g;
     selected_iso_path := selected_iso_path g; dd_mode_radio := dd_mode_radio g;
     ventoy_mode_radio := ventoy_mode_radio g; usb_device_combo := usb_device_combo g;
     ventoy_mount_input := ventoy_mount_input g; distro_list := distro_list g;
     reformat_combo := reformat_combo g; usb_details_output := s |}.

Definition set_log_level_field (l : Z) (g : VentoyFlasherGUI) : VentoyFlasherGUI :=
  {| log_level := l; flash_util := flash_util g;
     log_output := log_output g; status_pane := status_pane g;
     selected_iso_path := selected_iso_path g; dd_mode_radio := dd_mode_radio g;
     ventoy_mode_radio := ventoy_mode_radio g; usb_device_combo := usb_device_combo g;
     ventoy_mount_input := ventoy_mount_input g; distro_list := distro_list g;
     reformat_combo := reformat_combo g; usb_details_output := usb_details_output g |}.

(** ** The monad of the embedding: state and exceptions

    A computation runs on a world and either returns or raises; what it did
    to the world before raising stays done, as in Python. *)

Inductive Res (A : Type) := Ret (a : A) | Raise (e : exn).
Arguments Ret {A} a.
Arguments Raise {A} e.

Definition M (A : Type) : Type := World -> Res A * World.

#[global] Instance M_ret : MRet M := fun A a w => (Ret a, w).

#[global] Instance M_bind : MBind M := fun A B k m w =>
  match m w with
  | (Ret a, w') => k a w'
  | (Raise e, w') => (Raise e, w')
  end.

Definition raise {A} (e : exn) : M A := fun w => (Raise e, w).

Definition get_world : M World := fun w => (Ret w, w).

Definition modify (f : World -> World) : M unit := fun w => (Ret tt, f w).

(** [try: body  except ...: handler].  [handlers e] is the body of the first
    clause that matches [e], or [None] when no clause does; an exception
    raised by a handler is not caught by the same statement. *)
Definition try_except {A} (body : M A) (handlers : exn -> option (M A)) : M A :=
  fun w =>
    match body w with
    | (Ret a, w') => (Ret a, w')
    | (Raise e, w') =>
        match handlers e with
        | Some h => h w'
        | None => (Raise e, w')
        end
    end.

(** [except Exception as ex:] catches every exception of the model. *)
Definition except_Exception {A} (h : exn -> M A) : exn -> option (M A) :=
  fun e => Some (h e).

(** The time an oracle is asked at. *)
Definition now (w : World) : nat := length (events w).

(** ** File operations *)

Definition is_root (p : string) : bool :=
  negb (String.eqb p EmptyString) && PyStr.all_slashes p.

(** The node at a path; the root directory always exists. *)
Definition node_at (f : gmap string node) (p : string) : option node :=
  if is_root p then Some Dir else f !! p.

(** [os.path.exists(p)] *)
Definition path_exists (f : gmap string node) (p : string) : bool :=
  match node_at f p with
  | Some _ => true
  | None => false
  end.

(** A directory an entry can be created in: a relative name without a
    directory part lives in the current directory. *)
Definition parent_ok (f : gmap string node) (p : string) : bool :=
  let d := PyStr.dirname p in
  String.eqb d EmptyString ||
  match node_at f d with
  | Some Dir => true
  | _ => false
  end.

Definition no_such_file (p : string) : exn :=
  Exn OSError ("[Errno 2] No such file or directory: '" ++ p ++ "'").

Definition is_a_directory (p : string) : exn :=
  Exn OSError ("[Errno 21] Is a directory: '" ++ p ++ "'").

Definition not_a_directory (p : string) : exn :=
  Exn OSError ("[Errno 20] Not a directory: '" ++ p ++ "'").

Definition file_exists (p : string) : exn :=
  Exn OSError ("[Errno 17] File exists: '" ++ p ++ "'").

(** [open(p, "rb")] followed by reads: the bytes of the file. *)
Definition open_rb (p : string) : M (list byte) :=
  fun w =>
    match node_at (fs w) p with
    | Some (File bs) => (Ret bs, w)
    | Some Dir => (Raise (is_a_directory p), w)
    | None => (Raise (no_such_file p), w)
    end.

(** [open(p, "wb")]: creates or truncates the file. *)
Definition open_wb (p : string) : M unit :=
  fun w =>
    match node_at (fs w) p with
    | Some Dir => (Raise (is_a_directory p), w)
    | _ =>
        if parent_ok (fs w) p
        then (Ret tt, set_fs (<[p := File []]> (fs w)) w)
        else (Raise (no_such_file p), w)
    end.

(** [f.write(bs)] on a file opened by [open_wb]. *)
Definition write (p : string) (bs : list byte) : M unit :=
  modify (fun w =>
    match fs w !! p with
    | Some (File old) => set_fs (<[p := File (old ++ bs)%list]> (fs w)) w
    | _ => set_fs (<[p := File bs]> (fs w)) w
    end).

(** [k] is [p] or lies below it. *)
Definition under (p k : string) : bool :=
  String.eqb k p || PyStr.startswith k (p ++ "/").

(** [shutil.rmtree(p)]: on success nothing at or below [p] is left; a
    failure leaves [p] and whatever had not been removed yet. *)
Definition rmtree (env : Env) (p : string) : M unit :=
  fun w =>
    let w1 := add_event (Rmtree p) w in
    match node_at (fs w) p with
    | None => (Raise (no_such_file p), w1)
    | Some (File _) => (Raise (not_a_directory p), w1)
    | Some Dir =>
        match env_rmtree env (now w) p with
        | Some fl =>
            (Raise (Exn OSError (rm_error fl)),
             set_fs (filter (fun kv => negb (under p kv.1 && negb (String.eqb kv.1 p)
                                             && rm_done fl kv.1) = true) (fs w)) w1)
        | None =>
            (Ret tt, set_fs (filter (fun kv => under p kv.1 = false) (fs w)) w1)
        end
    end.

(** [os.makedirs(p, exist_ok=True)]; [None] stands for the [OSError] raised
    when [p] or one of its ancestors is a regular file. *)
Fixpoint makedirs_fs (fuel : nat) (p : string) (f : gmap string node)
  : option (gmap string node) :=
  match fuel with
  | O => None
  | S fuel' =>
      let head := PyStr.dirname p in
      let made :=
        if negb (String.eqb head EmptyString) && negb (String.eqb (PyStr.basename p) EmptyString)
           && negb (path_exists f head)
        then makedirs_fs fuel' head f
        else Some f in
      match made with
      | None => None
      | Some f1 =>
          match node_at f1 p with
          | Some Dir => Some f1
          | Some (File _) => None
          | None => if parent_ok f1 p then Some (<[p := Dir]> f1) else None
          end
      end
  end.

Definition makedirs (p : string) : M unit :=
  fun w =>
    match makedirs_fs (S (String.length p)) p (fs w) with
    | Some f => (Ret tt, set_fs f w)
    | None => (Raise (file_exists p), w)
    end.

(** [shutil.copy2(src, dst)] *)
Definition copy2 (src dst : string) : M unit :=
  bs ← open_rb src;
  w ← get_world;
  let dst' := match node_at (fs w) dst with
              | Some Dir => PyStr.path_join dst (PyStr.basename src)
              | _ => dst
              end in
  open_wb dst';;
  write dst' bs.

(** [print(message)] *)
Definition print (message : string) : M unit := modify (add_stdout message).

(** The character [chr(34)], as a string. *)
Definition dquote : string := String (ascii_of_nat 34) EmptyString.

(** ** Requests to the environment *)

(** [subprocess.run(command, shell=True, check=True)] *)
Definition subprocess_run (env : Env) (command : string) : M unit :=
  fun w =>
    let w1 := add_event (Shell command) w in
    match env_shell env (now w) command with
    | Completed => (Ret tt, w1)
    | NonZeroExit s => (Raise (Exn CalledProcessError s), w1)
    | SpawnFailed s => (Raise (Exn OSError s), w1)
    end.

(** [subprocess.run(["lsblk", "-o", ...], capture_output=True, text=True,
    check=True).stdout] *)
Definition subprocess_lsblk (env : Env) : M string :=
  fun w =>
    let w1 := add_event Lsblk w in
    match env_lsblk env (now w) with
    | LsblkStdout out => (Ret out, w1)
    | LsblkRaised s => (Raise (Exn CalledProcessError s), w1)
    end.

(** The response object, as far as [download_file] uses it. *)
Record Response := {
  status_code : Z;
  http_error : string;
  raw : list byte;
  broken : option string;
}.

(** [requests.get(url, stream=True)] *)
Definition requests_get (env : Env) (target : string) : M Response :=
  fun w =>
    let w1 := add_event (HttpGet target) w in
    match env_get env (now w) target with
    | GetRaised e => (Raise e, w1)
    | GetResponse c h r b =>
        (Ret {| status_code := c; http_error := h; raw := r; broken := b |}, w1)
    end.

(** [response.raise_for_status()] *)
Definition raise_for_status (r : Response) : M unit :=
  if (400 <=? status_code r) && (status_code r <? 600)
  then raise (Exn HTTPError (http_error r))
  else mret tt.

(** [shutil.copyfileobj(response.raw, f)]: what arrives is written; a
    stream that breaks raises the transport's own exception. *)
Definition copyfileobj (r : Response) (dest_path : string) : M unit :=
  write dest_path (raw r);;
  match broken r with
  | Some s => raise (Exn TransportError s)
  | None => mret tt
  end.

(** [requests.head(url, allow_redirects=True, timeout=5).status_code] *)
Definition requests_head (env : Env) (target : string) : M Z :=
  fun w =>
    let w1 := add_event (HttpHead target) w in
    match env_head env (now w) target with
    | HeadRaised e => (Raise e, w1)
    | HeadStatus c => (Ret c, w1)
    end.

(** A [QMessageBox] with the buttons Yes and No; [true] is Yes. *)
Definition message_box (env : Env) (title : string) : M bool :=
  fun w => (Ret (env_reply env (now w) title), add_event (Dialog title) w).

(** Writes the members an archive decoder produced below [extract_to], then
    raises if the decoder stopped on an error. *)
Definition extractall (d : Decoded) (extract_to : string) : M unit :=
  modify (fun w =>
    set_fs (fold_left (fun f m => <[PyStr.path_join extract_to m.1 := m.2]> f)
                      (members d) (fs w)) w);;
  match failure d with
  | Some s => raise (Exn BadArchive s)
  | None => mret tt
  end.

(** ** [VentoyFlasherGUI.log_message], the log callback *)

(** [{LOG_DEBUG: "DEBUG", ...}.get(level, "INFO")] *)
Definition level_name (level : Z) : string :=
  if level =? LOG_DEBUG then "DEBUG"
  else if level =? LOG_INFO then "INFO"
  else if level =? LOG_WARNING then "WARNING"
  else if level =? LOG_ERROR then "ERROR"
  else "INFO".

(** [f"[{level_name}] {message}"] *)
Definition log_line (level : Z) (message : string) : string :=
  "[" ++ level_name level ++ "] " ++ message.

Definition log_message (message : string) (level : Z) : M unit :=
  fun w =>
    if log_level (window w) <=? level
    then (Ret tt, set_window (add_log_output (log_line level message) (window w)) w)
    else (Ret tt, w).

Definition call (cb : callback) : string -> Z -> M unit :=
  match cb with
  | log_message_of_window => log_message
  end.

(** ** [backend.py]: class [FlashUtility] *)

Module Backend.

Definition log (self : FlashUtility) (message : string) (level : Z) : M unit :=
  match log_callback self with
  | Some cb => call cb message level
  | None => print message
  end.

(** [__init__(self, log_callback)] *)
Definition init (env : Env) (cb : option callback) : M FlashUtility :=
  let self := {| os_type := env_platform env; log_callback := cb;
                 temp_dir := env_mkdtemp env |} in
  modify (fun w => set_fs (<[temp_dir self := Dir]> (fs w)) w);;
  log self ("Temporary directory created at " ++ temp_dir self) LOG_DEBUG;;
  mret self.

Definition run_dd_command (env : Env) (self : FlashUtility)
           (iso_path usb_device : string) : M unit :=
  try_except
    (if String.eqb (os_type self) "Linux" then
       let command := "sudo dd if=" ++ iso_path ++ " of=" ++ usb_device
                      ++ " bs=4M status=progress && sync" in
       log self ("Running dd command: " ++ command) LOG_INFO;;
       subprocess_run env command;;
       log self "Flashing complete using dd." LOG_INFO
     else if String.eqb (os_type self) "Windows" then
       log self "dd command is not natively supported on Windows. Please install a dd equivalent."
           LOG_WARNING
     else
       log self "Unsupported OS for dd flashing." LOG_ERROR)
    (fun e =>
       if is_CalledProcessError e
       then Some (log self ("Error during flashing: " ++ str_e e) LOG_ERROR)
       else Some (log self ("Unexpected error: " ++ str_e e) LOG_ERROR)).

(** Returns the path of the downloaded file, or [None] (Python's [None]). *)
Definition download_file (env : Env) (self : FlashUtility)
           (target dest_filename : string) : M (option string) :=
  let dest_path := PyStr.path_join (temp_dir self) dest_filename in
  log self ("Downloading from " ++ target ++ " to " ++ dest_path) LOG_INFO;;
  try_except
    (response ← requests_get env target;
     raise_for_status response;;
     open_wb dest_path;;
     copyfileobj response dest_path;;
     log self ("Download complete: " ++ dest_path) LOG_INFO;;
     mret (Some dest_path))
    (fun e =>
       if is_RequestException e
       then Some (log self ("Error downloading file: " ++ str_e e) LOG_ERROR;;
                  mret None)
       else None).

Definition extract_archive (env : Env) (self : FlashUtility)
           (archive_path extract_to : string) : M bool :=
  log self ("Extracting " ++ archive_path ++ " to " ++ extract_to) LOG_INFO;;
  try_except
    (if PyStr.endswith archive_path ".tar.gz" then
       bs ← open_rb archive_path;
       extractall (env_targz env bs) extract_to;;
       log self "Extraction complete." LOG_INFO;;
       mret true
     else if PyStr.endswith archive_path ".zip" then
       bs ← open_rb archive_path;
       extractall (env_zip env bs) extract_to;;
       log self "Extraction complete." LOG_INFO;;
       mret true
     else
       log self "Unsupported archive format." LOG_WARNING;;
       mret false)
    (except_Exception (fun ex =>
       log self ("Extraction error: " ++ str_e ex) LOG_ERROR;;
       mret false)).

Definition install_ventoy (env : Env) (self : FlashUtility)
           (usb_device : string) : M unit :=
  try_except
    (match VENTOY_URLS (os_type self) with
     | None => log self "No Ventoy download available for this OS." LOG_ERROR
     | Some ventoy_url =>
         let archive_filename := PyStr.basename ventoy_url in
         downloaded ← download_file env self ventoy_url archive_filename;
         (* [if not ventoy_archive]: [None] and the empty string are false *)
         match (if downloaded is Some EmptyString then None else downloaded) with
         | None => log self "Ventoy download failed." LOG_ERROR
         | Some ventoy_archive =>
             let ventoy_extract_path :=
               PyStr.path_join (temp_dir self) "ventoy_extracted" in
             makedirs ventoy_extract_path;;
             ok ← extract_archive env self ventoy_archive ventoy_extract_path;
             if negb ok then log self "Ventoy extraction failed." LOG_ERROR
             else if String.eqb (os_type self) "Linux" then
               let ventoy_script :=
                 PyStr.path_join ventoy_extract_path "Ventoy2Disk.sh" in
               w ← get_world;
               if negb (path_exists (fs w) ventoy_script)
               then log self "Ventoy installation script not found." LOG_ERROR
               else
                 let command := "sudo sh " ++ ventoy_script ++ " -i "
                                ++ usb_device ++ " -I" in
                 log self ("Installing Ventoy with command: " ++ command) LOG_INFO;;
                 subprocess_run env command;;
                 log self "Ventoy installation complete." LOG_INFO
             else if String.eqb (os_type self) "Windows" then
               let ventoy_exe :=
                 PyStr.path_join ventoy_extract_path "Ventoy2Disk.exe" in
               w ← get_world;
               if negb (path_exists (fs w) ventoy_exe)
               then log self "Ventoy installation executable not found." LOG_ERROR
               else
                 let command := dquote ++ ventoy_exe ++ dquote ++ " -i "
                                ++ usb_device ++ " -I" in
                 log self ("Installing Ventoy with command: " ++ command) LOG_INFO;;
                 subprocess_run env command;;
                 log self "Ventoy installation complete on Windows." LOG_INFO
             else
               log self "Unsupported OS for Ventoy installation." LOG_ERROR
         end
     end)
    (fun e =>
       if is_CalledProcessError e
       then Some (log self ("Error during Ventoy installation: " ++ str_e e) LOG_ERROR)
       else Some (log self ("Unexpected error during Ventoy installation: " ++ str_e e)
                      LOG_ERROR)).

Definition copy_iso_to_ventoy (self : FlashUtility)
           (iso_path ventoy_mount_point : string) : M unit :=
  try_except
    (w ← get_world;
     if negb (path_exists (fs w) ventoy_mount_point)
     then log self "Ventoy mount point does not exist." LOG_ERROR
     else
       let dest_path := PyStr.path_join ventoy_mount_point (PyStr.basename iso_path) in
       log self ("Copying ISO from " ++ iso_path ++ " to " ++ dest_path) LOG_INFO;;
       copy2 iso_path dest_path;;
       log self "ISO file successfully copied to Ventoy drive." LOG_INFO)
    (except_Exception (fun ex =>
       log self ("Error copying ISO file: " ++ str_e ex) LOG_ERROR)).

Definition reformat_usb (env : Env) (self : FlashUtility)
           (usb_device scheme : string) : M unit :=
  try_except
    (if String.eqb (os_type self) "Linux" then
       let run command :=
         log self ("Reformatting USB drive with command: " ++ command) LOG_INFO;;
         subprocess_run env command;;
         log self "USB drive reformatted successfully." LOG_INFO in
       if String.eqb (PyStr.lower scheme) "gpt"
       then run ("sudo parted " ++ usb_device ++ " mklabel gpt")
       else if String.eqb (PyStr.lower scheme) "mbr"
       then run ("sudo parted " ++ usb_device ++ " mklabel msdos")
       else log self "Unknown partition scheme." LOG_ERROR
     else if String.eqb (os_type self) "Windows" then
       log self "Reformatting USB drive is not implemented for Windows." LOG_WARNING
     else
       log self "Unsupported OS for reformatting." LOG_ERROR)
    (fun e =>
       if is_CalledProcessError e
       then Some (log self ("Error during reformatting: " ++ str_e e) LOG_ERROR)
       else Some (log self ("Unexpected error: " ++ str_e e) LOG_ERROR)).

Definition get_usb_details (env : Env) (self : FlashUtility)
           (usb_device : string) : M string :=
  try_except
    (if String.eqb (os_type self) "Linux" then
       out ← subprocess_lsblk env;
       let details := PyStr.strip out in
       mret details
     else if String.eqb (os_type self) "Windows" then
       mret "USB details not implemented for Windows."
     else
       mret "Unsupported OS.")
    (except_Exception (fun ex =>
       mret ("Error retrieving USB details: " ++ str_e ex))).

(** The size of the blocks [compute_sha256] reads. *)
Definition block_size : nat := 4096.

(** [for chunk in iter(lambda: f.read(4096), b""): sha256_hash.update(chunk)]
    on a file of which [rest] is still to be read; [update] is the method of
    the hash object, called once for each chunk read.  Every round but the
    last consumes at least one byte, so [S (length rest)] rounds suffice. *)
Fixpoint read_loop {T : Type} (update : T -> list byte -> T)
         (fuel : nat) (rest : list byte) (sha256_hash : T) : T :=
  match fuel with
  | O => sha256_hash
  | S fuel' =>
      match take block_size rest with
      | [] => sha256_hash
      | chunk => read_loop update fuel' (drop block_size rest) (update sha256_hash chunk)
      end
  end.

(** Returns the hexadecimal digest, or [None] (Python's [None]) on error. *)
Definition compute_sha256 (self : FlashUtility) (file_path : string)
  : M (option string) :=
  let sha256_hash := Sha256.new in
  try_except
    (content ← open_rb file_path;
     mret (Some (Sha256.hexdigest
                   (read_loop Sha256.update (S (length content)) content
                              sha256_hash))))
    (except_Exception (fun ex =>
       log self ("Error computing hash: " ++ str_e ex) LOG_ERROR;;
       mret None)).

Definition cleanup (env : Env) (self : FlashUtility) : M unit :=
  try_except
    (w ← get_world;
     if path_exists (fs w) (temp_dir self) then
       rmtree env (temp_dir self);;
       log self "Cleaned up temporary files." LOG_DEBUG
     else mret tt)
    (except_Exception (fun ex =>
       log self ("Error during cleanup: " ++ str_e ex) LOG_ERROR)).

End Backend.

(** ** [gui.py]: class [VentoyFlasherGUI]

    The methods act on the one window of the world; [self.flash_util] is the
    backend object the window holds. *)

Module Gui.

(** [str(n)] for an integer, as an f-string prints it. *)
Definition str_int (n : Z) : string := pretty n.

(** [PREDEFINED_OS.pop(os_name, None)]: removes the key if present. *)
Fixpoint dict_remove (k : string) (d : list (string * os_info))
  : list (string * os_info) :=
  match d with
  | [] => []
  | (k', v) :: r => if String.eqb k' k then r else (k', v) :: dict_remove k r
  end.

(** [key in d] *)
Definition dict_has (k : string) (d : list (string * os_info)) : bool :=
  existsb (fun kv => String.eqb kv.1 k) d.

(** [PREDEFINED_OS.get(os_name)] *)
Fixpoint dict_get (k : string) (d : list (string * os_info)) : option os_info :=
  match d with
  | [] => None
  | (k', v) :: r => if String.eqb k' k then Some v else dict_get k r
  end.

(** [PREDEFINED_OS.pop(os_name, None)] *)
Definition pop_default (os_name : string) : M unit :=
  modify (fun w => set_PREDEFINED_OS (dict_remove os_name (PREDEFINED_OS w)) w).

(** [PREDEFINED_OS.pop(os_name)]: raises [KeyError] on a missing key. *)
Definition pop (os_name : string) : M unit :=
  fun w =>
    if dict_has os_name (PREDEFINED_OS w)
    then (Ret tt, set_PREDEFINED_OS (dict_remove os_name (PREDEFINED_OS w)) w)
    else (Raise (Exn KeyError ("'" ++ os_name ++ "'")), w).

(** The loop over [range(self.distro_list.count())] that takes the first
    item whose text is [os_name] out of the list widget. *)
Fixpoint take_item (os_name : string) (items : list string) : list string :=
  match items with
  | [] => []
  | x :: r => if String.eqb x os_name then r else x :: take_item os_name r
  end.

Definition remove_from_distro_list (os_name : string) : M unit :=
  modify (fun w =>
    set_window (set_distro_list (take_item os_name (distro_list (window w)))
                                (window w)) w).

Definition set_log_level (level : Z) : M unit :=
  modify (fun w => set_window (set_log_level_field level (window w)) w);;
  log_message ("Logging level set to " ++ level_name level ++ ".") LOG_INFO.

(** The body of the loop of [update_iso_links] for one entry of the
    snapshot [list(PREDEFINED_OS.items())]. *)
Definition update_iso_link (env : Env) (entry : string * os_info) : M unit :=
  let os_name := entry.1 in
  let target := url entry.2 in
  try_except
    (status ← requests_head env target;
     if negb (status =? 200) then
       log_message ("Link for " ++ os_name ++ " returned status " ++ str_int status
                    ++ ". Removing option.") LOG_WARNING;;
       pop os_name;;
       remove_from_distro_list os_name
     else mret tt)
    (except_Exception (fun ex =>
       log_message ("Error validating link for " ++ os_name ++ ": " ++ str_e ex
                    ++ ". Removing option.") LOG_ERROR;;
       pop os_name;;
       remove_from_distro_list os_name)).

Fixpoint for_each {A} (body : A -> M unit) (l : list A) : M unit :=
  match l with
  | [] => mret tt
  | x :: r => body x;; for_each body r
  end.

Definition update_iso_links (env : Env) : M unit :=
  log_message "Updating ISO links..." LOG_INFO;;
  w ← get_world;
  for_each (update_iso_link env) (PREDEFINED_OS w);;
  log_message "ISO links update complete." LOG_INFO.

(** The first loop of [validate_os_links]: the names to remove. *)
Fixpoint collect_unreachable (env : Env) (items : list (string * os_info))
         (to_remove : list string) : M (list string) :=
  match items with
  | [] => mret to_remove
  | (os_name, info) :: rest =>
      to_remove' ←
        try_except
          (status ← requests_head env (url info);
           if negb (status =? 200) then
             log_message ("Warning: URL for " ++ os_name ++ " returned status "
                          ++ str_int status ++ ". Removing option.") LOG_WARNING;;
             mret (to_remove ++ [os_name])%list
           else mret to_remove)
          (except_Exception (fun ex =>
             log_message ("Error validating URL for " ++ os_name ++ ": " ++ str_e ex
                          ++ ". Removing option.") LOG_ERROR;;
             mret (to_remove ++ [os_name])%list));
      collect_unreachable env rest to_remove'
  end.

Definition validate_os_links (env : Env) : M unit :=
  w ← get_world;
  to_remove ← collect_unreachable env (PREDEFINED_OS w) [];
  for_each (fun os_name => pop_default os_name;; remove_from_distro_list os_name)
           to_remove.

Definition select_distro (env : Env) (os_name : string) : M unit :=
  w ← get_world;
  match dict_get os_name (PREDEFINED_OS w) with
  | None => mret tt
  | Some info =>
      log_message ("Downloading " ++ os_name ++ " ISO from " ++ url info ++ "...")
                  LOG_INFO;;
      downloaded ← Backend.download_file env (flash_util (window w)) (url info)
                                         (os_name ++ ".iso");
      (* [if iso_path]: [None] and the empty string are false *)
      match (if downloaded is Some EmptyString then None else downloaded) with
      | Some iso_path =>
          modify (fun w => set_window (set_selected_iso_path iso_path (window w)) w);;
          log_message (os_name ++ " ISO downloaded and selected: " ++ iso_path)
                      LOG_INFO
      | None => log_message ("Failed to download " ++ os_name ++ " ISO.") LOG_ERROR
      end
  end.

(** [self.usb_device_combo.currentText().strip().split()[0]] *)
Definition first_token (text : string) : M string :=
  match PyStr.split (PyStr.strip text) with
  | [] => raise (Exn IndexError "list index out of range")
  | x :: _ => mret x
  end.

Definition validate_operation (target : string) : M unit :=
  try_except
    (log_message ("Validating operation on target: " ++ target
                  ++ " ... (not fully implemented)") LOG_DEBUG)
    (except_Exception (fun ex =>
       log_message ("Validation error: " ++ str_e ex) LOG_ERROR)).

Definition flash_usb (env : Env) : M unit :=
  w ← get_world;
  let self := window w in
  if String.eqb (selected_iso_path self) EmptyString then
    log_message "Please select an ISO file first." LOG_WARNING
  else if dd_mode_radio self then
    usb_device ← first_token (usb_device_combo self);
    if String.eqb usb_device EmptyString then
      log_message "Please select the USB device from the dropdown." LOG_WARNING
    else
      log_message "Starting dd flashing process..." LOG_INFO;;
      Backend.run_dd_command env (flash_util self) (selected_iso_path self) usb_device;;
      validate_operation usb_device
  else if ventoy_mode_radio self then
    let ventoy_mount := PyStr.strip (ventoy_mount_input self) in
    if String.eqb ventoy_mount EmptyString then
      log_message "Please specify the Ventoy USB mount point (e.g., E:\ or /mnt/ventoy)."
                  LOG_WARNING
    else
      log_message "Copying ISO file to Ventoy drive..." LOG_INFO;;
      Backend.copy_iso_to_ventoy (flash_util self) (selected_iso_path self) ventoy_mount;;
      validate_operation ventoy_mount
  else
    log_message "Unknown flashing mode selected." LOG_ERROR.

Definition install_ventoy (env : Env) : M unit :=
  w ← get_world;
  let self := window w in
  if dd_mode_radio self then
    log_message "Ventoy installation is only available in Ventoy mode. Please select Ventoy Mode."
                LOG_WARNING
  else
    let ventoy_target := PyStr.strip (ventoy_mount_input self) in
    if String.eqb ventoy_target EmptyString then
      log_message "Please specify the Ventoy USB mount point or device identifier."
                  LOG_WARNING
    else
      log_message "Starting Ventoy installation..." LOG_INFO;;
      Backend.install_ventoy env (flash_util self) ventoy_target.

Definition reformat_usb (env : Env) : M unit :=
  w ← get_world;
  let self := window w in
  usb_device ← first_token (usb_device_combo self);
  if String.eqb usb_device EmptyString then
    log_message "Please select a USB device to reformat." LOG_WARNING
  else
    let scheme := reformat_combo self in
    reply ← message_box env "Warning: Reformat USB";
    if reply : bool then Backend.reformat_usb env (flash_util self) usb_device scheme
    else log_message "Reformatting canceled." LOG_INFO.

Definition get_usb_details (env : Env) : M unit :=
  w ← get_world;
  let self := window w in
  usb_device ← first_token (usb_device_combo self);
  if String.eqb usb_device EmptyString then
    log_message "Please select a USB device first." LOG_WARNING
  else
    details ← Backend.get_usb_details env (flash_util self) usb_device;
    modify (fun w => set_window (set_usb_details_output details (window w)) w).

(** The loop of [validate_iso] over [PREDEFINED_OS.items()], up to its
    [break]; returns [found]. *)
Fixpoint validate_against (items : list (string * os_info))
         (iso_name computed_hash : string) : M bool :=
  match items with
  | [] => mret false
  | (os_name, info) :: rest =>
      if PyStr.contains (PyStr.lower os_name) (PyStr.lower iso_name) then
        let expected_hash := hash info in
        (if String.eqb computed_hash expected_hash then
           log_message ("ISO validation passed for " ++ os_name ++ ".") LOG_INFO
         else
           log_message ("WARNING: ISO hash for " ++ os_name
                        ++ " does not match expected value!") LOG_WARNING;;
           modify (fun w =>
             set_window
               (add_status_pane ("WARNING: " ++ os_name ++ " ISO hash mismatch. Expected: "
                                 ++ expected_hash ++ ", Got: " ++ computed_hash)
                                (window w)) w));;
        mret true
      else validate_against rest iso_name computed_hash
  end.

Definition validate_iso : M unit :=
  w ← get_world;
  let self := window w in
  if String.eqb (selected_iso_path self) EmptyString then
    log_message "Please select an ISO file first." LOG_WARNING
  else
    computed_hash ← Backend.compute_sha256 (flash_util self) (selected_iso_path self);
    match computed_hash with
    | None => log_message "Failed to compute ISO hash." LOG_ERROR
    | Some computed_hash =>
        if String.eqb computed_hash EmptyString then
          log_message "Failed to compute ISO hash." LOG_ERROR
        else
          let iso_name := PyStr.basename (selected_iso_path self) in
          w ← get_world;
          found ← validate_against (PREDEFINED_OS w) iso_name computed_hash;
          if negb found then
            log_message "No expected hash available for this ISO. Please verify manually."
                        LOG_WARNING
          else mret tt
    end.

(** Returns [true] when the event is accepted (the window closes) and
    [false] when it is ignored. *)
Definition closeEvent (env : Env) : M bool :=
  reply ← message_box env "Exit Confirmation";
  if reply : bool then
    w ← get_world;
    Backend.cleanup env (flash_util (window w));;
    mret true
  else mret false.

End Gui.

(** ** What a call of [log] leaves behind *)

(** The line [log_message] shows for a message, if it shows one. *)
Definition shown (message : string) (level : Z) (g : VentoyFlasherGUI) : VentoyFlasherGUI :=
  if log_level g <=? level
  then add_log_output (log_line level message) g
  else g.

(** The world after [self.log(message, level)]: the message goes to the log
    pane of the window, filtered by the window's level, or to standard
    output when the backend has no callback. *)
Definition logged (self : FlashUtility) (message : string) (level : Z) (w : World) : World :=
  match log_callback self with
  | Some _ => set_window (shown message level (window w)) w
  | None => add_stdout message w
  end.


(** ** Concrete environments and worlds, used by the examples *)

(** An environment in which commands succeed, the network is down and the
    decoders reject what they are given. *)
Definition env_offline : Env := {|
  env_shell := fun _ _ => Completed;
  env_lsblk := fun _ => LsblkStdout "NAME FSTYPE SIZE TYPE MOUNTPOINT LABEL MODEL";
  env_get := fun _ _ => GetRaised (Exn ConnectionError "Connection refused");
  env_head := fun _ _ => HeadRaised (Exn ConnectionError "Connection refused");
  env_rmtree := fun _ _ => None;
  env_reply := fun _ _ => true;
  env_targz := fun _ => {| members := []; failure := Some "not a gzip file" |};
  env_zip := fun _ => {| members := []; failure := Some "File is not a zip file" |};
  env_platform := "Linux";
  env_mkdtemp := "/tmp/ventoy_k3x9";
|}.

Definition with_shell (o : ShellOutcome) (env : Env) : Env := {|
  env_shell := fun _ _ => o;
  env_lsblk := env_lsblk env; env_get := env_get env; env_head := env_head env;
  env_rmtree := env_rmtree env; env_reply := env_reply env;
  env_targz := env_targz env; env_zip := env_zip env;
  env_platform := env_platform env; env_mkdtemp := env_mkdtemp env;
|}.

Definition with_get (o : GetOutcome) (env : Env) : Env := {|
  env_shell := env_shell env;
  env_lsblk := env_lsblk env; env_get := fun _ _ => o; env_head := env_head env;
  env_rmtree := env_rmtree env; env_reply := env_reply env;
  env_targz := env_targz env; env_zip := env_zip env;
  env_platform := env_platform env; env_mkdtemp := env_mkdtemp env;
|}.

Definition with_head (o : nat -> string -> HeadOutcome) (env : Env) : Env := {|
  env_shell := env_shell env;
  env_lsblk := env_lsblk env; env_get := env_get env; env_head := o;
  env_rmtree := env_rmtree env; env_reply := env_reply env;
  env_targz := env_targz env; env_zip := env_zip env;
  env_platform := env_platform env; env_mkdtemp := env_mkdtemp env;
|}.

Definition with_rmtree (o : option RmFailure) (env : Env) : Env := {|
  env_shell := env_shell env;
  env_lsblk := env_lsblk env; env_get := env_get env; env_head := env_head env;
  env_rmtree := fun _ _ => o; env_reply := env_reply env;
  env_targz := env_targz env; env_zip := env_zip env;
  env_platform := env_platform env; env_mkdtemp := env_mkdtemp env;
|}.

(** A backend object on the given platform, writing its log to the window. *)
Definition util_on (platform : string) : FlashUtility :=
  {| os_type := platform; log_callback := Some log_message_of_window;
     temp_dir := "/tmp/ventoy_k3x9" |}.

(** A window in dd mode with a device chosen and a downloaded image selected. *)
Definition window_example : VentoyFlasherGUI := {|
  log_level := LOG_INFO;
  flash_util := util_on "Linux";
  log_output := [];
  status_pane := [];
  selected_iso_path := "/tmp/ventoy_k3x9/Arch Linux.iso";
  dd_mode_radio := true;
  ventoy_mode_radio := false;
  usb_device_combo := "/dev/sdb - SanDisk (8G)";
  ventoy_mount_input := EmptyString;
  distro_list := map fst PREDEFINED_OS_initial;
  reformat_combo := "GPT";
  usb_details_output := EmptyString;
|}.

Definition fs_example : gmap string node :=
  <["/tmp/ventoy_k3x9/Arch Linux.iso" := File (bytes_of_string "abc")]>
    (<["/tmp/ventoy_k3x9" := Dir]> (<["/tmp" := Dir]> ∅)).

Definition world_example : World := {|
  fs := fs_example;
  events := [];
  stdout := [];
  PREDEFINED_OS := PREDEFINED_OS_initial;
  window := window_example;
|}.


(** ** Notions the statements use *)

(** The message and the level a primitive logs on a platform it does not
    support: a warning with its own text on Windows, an error elsewhere. *)
Definition unsupported_note (on_windows otherwise platform : string) : string * Z :=
  if String.eqb platform "Windows" then (on_windows, LOG_WARNING)
  else (otherwise, LOG_ERROR).

(** The archive names [extract_archive] recognizes. *)
Definition recognized (archive_path : string) : bool :=
  PyStr.endswith archive_path ".tar.gz" || PyStr.endswith archive_path ".zip".

(** The decoder [extract_archive] gives the file to. *)
Definition decoder (env : Env) (archive_path : string) : list byte -> Decoded :=
  if PyStr.endswith archive_path ".tar.gz" then env_targz env else env_zip env.

(** The text of the exception the extraction of [archive_path] stops on, if
    it fails: the archive cannot be opened, or its decoder reports an error
    (a corrupt archive, a truncated stream). *)
Definition extraction_error (env : Env) (w : World) (archive_path : string)
  : option string :=
  match node_at (fs w) archive_path with
  | None => Some (str_e (no_such_file archive_path))
  | Some Dir => Some (str_e (is_a_directory archive_path))
  | Some (File bs) => failure (decoder env archive_path bs)
  end.

(** The world once the members decoded before the error have been written. *)
Definition partly_extracted (env : Env) (archive_path extract_to : string) (w : World)
  : World :=
  match node_at (fs w) archive_path with
  | Some (File bs) =>
      set_fs (fold_left (fun f m => <[PyStr.path_join extract_to m.1 := m.2]> f)
                        (members (decoder env archive_path bs)) (fs w)) w
  | _ => w
  end.

(** The failures [download_file] turns into [None]: [requests.get] raised an
    exception that is a [requests.RequestException] (a connection error, a
    timeout, ...), or the status is one for which [raise_for_status] raises
    (400 to 599).  The value is the text of the exception caught; [None]
    stands for every other outcome, among them a status below 400 that is
    not a success (304, 204, ...) and a stream that breaks while the body is
    read. *)
Definition refused (o : GetOutcome) : option string :=
  match o with
  | GetRaised e => if is_RequestException e then Some (str_e e) else None
  | GetResponse c h _ _ => if (400 <=? c) && (c <? 600) then Some h else None
  end.


(** A corrupt archive in the staging directory. *)
Definition world_corrupt_archive : World :=
  set_fs (<["/tmp/ventoy_k3x9/ventoy-1.0.90-linux.tar.gz"
            := File (bytes_of_string "truncated")]> fs_example) world_example.

(** The chunks the loop of [compute_sha256] reads from a file of which
    [rest] is still to be read, in order. *)
Fixpoint chunks_read (fuel : nat) (rest : list byte) : list (list byte) :=
  match fuel with
  | O => []
  | S fuel' =>
      match take Backend.block_size rest with
      | [] => []
      | chunk => chunk :: chunks_read fuel' (drop Backend.block_size rest)
      end
  end.

(** The blocks a file with the given content is read in. *)
Definition blocks (content : list byte) : list (list byte) :=
  chunks_read (S (length content)) content.

(** The complete blocks at the front of [d] absorbed, with enough fuel. *)
Definition absorb_all (h : list Z) (d : list byte) : list Z * list byte :=
  Sha256.absorb (length d) h d.

(** An environment in which the removal of the staging directory is denied
    before anything has been removed. *)
Definition env_rmtree_denied : Env :=
  with_rmtree
    (Some {| rm_error := "[Errno 13] Permission denied: 'Arch Linux.iso'";
             rm_done := fun _ => false |})
    env_offline.

(** A text that is empty or made of white space only. *)
Definition blank (text : string) : bool :=
  forallb PyStr.is_space (list_ascii_of_string text).

(** The world after the window has shown (or filtered out) a log line. *)
Definition noted (message : string) (level : Z) (w : World) : World :=
  set_window (shown message level (window w)) w.



(** The outcome of the hash verification of the selected image: what
    [validate_iso] finds, as a value. *)
Inductive Verdict :=
| NoSelection                       (* no image selected *)
| Unreadable                        (* no digest could be computed *)
| NoExpectedValue                   (* no catalog name occurs in the file name *)
| Match (os_name : string)
| Mismatch (os_name expected_hash computed_hash : string).

(** The comparison against the first catalog entry whose name, in lower
    case, occurs in the lower-cased file name. *)
Fixpoint compare_against (items : list (string * os_info))
         (iso_name computed_hash : string) : Verdict :=
  match items with
  | [] => NoExpectedValue
  | (os_name, info) :: rest =>
      if PyStr.contains (PyStr.lower os_name) (PyStr.lower iso_name) then
        if String.eqb computed_hash (hash info) then Match os_name
        else Mismatch os_name (hash info) computed_hash
      else compare_against rest iso_name computed_hash
  end.

Definition verification (w : World) : Verdict :=
  let iso_path := selected_iso_path (window w) in
  if String.eqb iso_path EmptyString then NoSelection
  else
    match node_at (fs w) iso_path with
    | Some (File content) =>
        if String.eqb (Sha256.sha256_hex content) EmptyString then Unreadable
        else compare_against (PREDEFINED_OS w) (PyStr.basename iso_path)
                             (Sha256.sha256_hex content)
    | _ => Unreadable
    end.

(** The command line [run_dd_command] builds. *)
Definition dd_command (iso_path usb_device : string) : string :=
  "sudo dd if=" ++ iso_path ++ " of=" ++ usb_device ++ " bs=4M status=progress && sync".

(** The commands a flash operation issues, as a function of the window:
    the selected image, the mode, the device text and the host, and nothing
    else. *)
Definition flash_commands (g : VentoyFlasherGUI) : list Event :=
  if String.eqb (selected_iso_path g) EmptyString then []
  else if dd_mode_radio g then
    match PyStr.split (PyStr.strip (usb_device_combo g)) with
    | [] => []
    | usb_device :: _ =>
        if String.eqb (os_type (flash_util g)) "Linux"
        then [Shell (dd_command (selected_iso_path g) usb_device)]
        else []
    end
  else [].

(** The world [validate_iso] leaves after a mismatch: a warning in the log
    pane (when the level lets it through) and a line in the status pane. *)
Definition mismatch_reported (os_name expected_hash computed_hash : string) (w : World)
  : World :=
  set_window
    (add_status_pane ("WARNING: " ++ os_name ++ " ISO hash mismatch. Expected: "
                      ++ expected_hash ++ ", Got: " ++ computed_hash)
       (shown ("WARNING: ISO hash for " ++ os_name ++ " does not match expected value!")
              LOG_WARNING (window w)))
    w.

(** A computation that asks nothing of the environment. *)
Definition quiet {A} (m : M A) : Prop := forall w, events (snd (m w)) = events w.

(** The verdict of one URL check: the origin counts as reachable exactly
    when the HEAD request answers with status 200; any other status and any
    exception count as unreachable. *)
Definition url_check (o : HeadOutcome) : bool :=
  match o with
  | HeadStatus c => c =? 200
  | HeadRaised _ => false
  end.

(** The entries a revalidation pass keeps, in order, when the check of the
    first entry is the request made at time [t]. *)
Fixpoint reachable_entries (env : Env) (t : nat) (items : list (string * os_info))
  : list (string * os_info) :=
  match items with
  | [] => []
  | (os_name, info) :: rest =>
      if url_check (env_head env t (url info))
      then (os_name, info) :: reachable_entries env (S t) rest
      else reachable_entries env (S t) rest
  end.

(** The names a pass finds unreachable, in order. *)
Fixpoint unreachable_names (env : Env) (t : nat) (items : list (string * os_info))
  : list string :=
  match items with
  | [] => []
  | (os_name, info) :: rest =>
      if url_check (env_head env t (url info))
      then unreachable_names env (S t) rest
      else os_name :: unreachable_names env (S t) rest
  end.

(** An environment in which only the Arch Linux mirror answers 200. *)
Definition env_only_arch : Env :=
  with_head
    (fun _ target =>
       if String.eqb target "https://mirror.rackspace.com/archlinux/iso/latest/archlinux-x86_64.iso"
       then HeadStatus 200
       else if String.eqb target "https://cdn.netbsd.org/pub/NetBSD/NetBSD-9.3/NetBSD-9.3-amd64.iso"
       then HeadStatus 404
       else HeadRaised (Exn ConnectionError "Connection refused"))
    env_offline.

(** What the device-detail query returns and leaves behind, written as a
    function of the host and of the listing of all block devices: no device
    string occurs in it. *)
Definition listing_details (env : Env) (self : FlashUtility) (w : World)
  : Res string * World :=
  if String.eqb (os_type self) "Linux" then
    match env_lsblk env (now w) with
    | LsblkStdout out => (Ret (PyStr.strip out), add_event Lsblk w)
    | LsblkRaised s => (Ret ("Error retrieving USB details: " ++ s), add_event Lsblk w)
    end
  else if String.eqb (os_type self) "Windows"
  then (Ret "USB details not implemented for Windows.", w)
  else (Ret "Unsupported OS.", w).

(** ** Notions the further properties use *)

(** A computation that leaves a component of the world as it found it,
    whether it returns or raises. *)
Definition keeps {X A : Type} (f : World -> X) (m : M A) : Prop :=
  forall w, f (snd (m w)) = f w.

(** A component of the world that logging does not touch. *)
Definition log_blind {X : Type} (f : World -> X) : Prop :=
  forall w line,
    f (set_window (add_log_output line (window w)) w) = f w
    /\ f (add_stdout line w) = f w.

(** A component of the world that a request to the environment does not
    touch. *)
Definition event_blind {X : Type} (f : World -> X) : Prop :=
  forall w e, f (add_event e w) = f w.

(** The commands the backend's [reformat_usb] builds on Linux. *)
Definition parted_commands (usb_device scheme : string) : list Event :=
  if String.eqb (PyStr.lower scheme) "gpt"
  then [Shell ("sudo parted " ++ usb_device ++ " mklabel gpt")]
  else if String.eqb (PyStr.lower scheme) "mbr"
  then [Shell ("sudo parted " ++ usb_device ++ " mklabel msdos")]
  else [].

(** The selected image, as a component of the world. *)
Definition selection (w : World) : string := selected_iso_path (window w).

(** A computation that returns in every world: no exception leaves it. *)
Definition returns {A : Type} (m : M A) : Prop :=
  forall w, exists a, fst (m w) = Ret a.

(** A component of the world that a change of the file system does not
    touch. *)
Definition fs_blind {X : Type} (f : World -> X) : Prop :=
  forall w g, f (set_fs g w) = f w.

(** The exception a slot raises on a device text without a token. *)
Definition index_error : exn := Exn IndexError "list index out of range".

(** A text without white space. *)
Definition spaceless (text : string) : bool :=
  forallb (fun c => negb (PyStr.is_space c)) (list_ascii_of_string text).

(** A text that is empty or starts with white space: what may follow a
    word. *)
Definition breaks_word (text : string) : bool :=
  match text with
  | EmptyString => true
  | String c _ => PyStr.is_space c
  end.

(** The device combo box holds no token: its text is empty or white space. *)
Definition no_token (w : World) : bool :=
  match PyStr.split (PyStr.strip (usb_device_combo (window w))) with
  | [] => true
  | _ => false
  end.

(** A path [open(p, "wb")] can create or truncate: it is not a directory and
    the directory it lies in exists. *)
Definition can_create (f : gmap string node) (p : string) : bool :=
  parent_ok f p &&
  match node_at f p with
  | Some Dir => false
  | _ => true
  end.

(** A response whose status [raise_for_status] accepts. *)
Definition accepted_status (c : Z) : bool := negb ((400 <=? c) && (c <? 600)).

(** A lower-case hexadecimal digit. *)
Definition is_hex (c : ascii) : bool :=
  let n := nat_of_ascii c in
  ((48 <=? n) && (n <=? 57) || (97 <=? n) && (n <=? 102))%nat.

Definition all_hex (s : string) : bool := forallb is_hex (list_ascii_of_string s).

(** An expected hash no digest can equal: it holds a character that is not
    a hexadecimal digit. *)
Definition placeholder (entry : string * os_info) : bool := negb (all_hex (hash entry.2)).

(** The world [validate_iso] leaves, for each verdict: one log line, after
    the backend's own error line when the image cannot be read, and the
    status line of a mismatch. *)
Definition validated (w : World) : World :=
  let self := flash_util (window w) in
  let iso_path := selected_iso_path (window w) in
  match verification w with
  | NoSelection => noted "Please select an ISO file first." LOG_WARNING w
  | Unreadable =>
      noted "Failed to compute ISO hash." LOG_ERROR
        match node_at (fs w) iso_path with
        | Some (File _) => w
        | Some Dir =>
            logged self ("Error computing hash: " ++ str_e (is_a_directory iso_path))
                   LOG_ERROR w
        | None =>
            logged self ("Error computing hash: " ++ str_e (no_such_file iso_path))
                   LOG_ERROR w
        end
  | NoExpectedValue =>
      noted "No expected hash available for this ISO. Please verify manually."
            LOG_WARNING w
  | Match os_name => noted ("ISO validation passed for " ++ os_name ++ ".") LOG_INFO w
  | Mismatch os_name expected_hash computed_hash =>
      mismatch_reported os_name expected_hash computed_hash w
  end.



(** Nothing lies at or below [p]. *)
Definition vacant (f : gmap string node) (p : string) : bool :=
  forallb (fun kv => negb (under p kv.1)) (map_to_list f).

(** The requests of a revalidation pass over a catalog: one HEAD request for
    each entry, in the order of the entries. *)
Definition head_requests (items : list (string * os_info)) : list Event :=
  map (fun kv => HttpHead (url kv.2)) items.

(** * Properties *)

(** ** Test vectors and examples *)

Example split_device_entry :
  PyStr.split (PyStr.strip "  /dev/sdb - SanDisk (8G) ") = ["/dev/sdb"; "-"; "SanDisk"; "(8G)"].
Proof. reflexivity. Qed.

Example split_blank : PyStr.split (PyStr.strip "   ") = [].
Proof. reflexivity. Qed.

Example basename_iso : PyStr.basename "/tmp/ventoy_ab12/Arch Linux.iso" = "Arch Linux.iso".
Proof. reflexivity. Qed.

Example dirname_iso : PyStr.dirname "/tmp/ventoy_ab12/Arch Linux.iso" = "/tmp/ventoy_ab12".
Proof. reflexivity. Qed.

Example join_tmp : PyStr.path_join "/tmp/ventoy_ab12" "x.iso" = "/tmp/ventoy_ab12/x.iso".
Proof. reflexivity. Qed.

Example endswith_targz : PyStr.endswith "ventoy-1.0.90-linux.tar.gz" ".tar.gz" = true.
Proof. reflexivity. Qed.

Example lower_contains :
  PyStr.contains (PyStr.lower "Arch Linux") (PyStr.lower "Arch Linux.iso") = true.
Proof. reflexivity. Qed.

Example sha256_empty :
  Sha256.sha256_hex [] = "e3b0c44298fc1c149afbf4c8996fb92427ae41e4649b934ca495991b7852b855".
Proof. vm_compute. reflexivity. Qed.

Example sha256_abc :
  Sha256.sha256_hex (bytes_of_string "abc")
  = "ba7816bf8f01cfea414140de5dae2223b00361a396177a9cb410ff61f20015ad".
Proof. vm_compute. reflexivity. Qed.

Example sha256_two_blocks :
  Sha256.sha256_hex
    (bytes_of_string "abcdbcdecdefdefgefghfghighijhijkijkljklmklmnlmnomnopnopq")
  = "248d6a61d20638b8e5c026930c3e6039a33ce45964ff2167f6ecedd419db06c1".
Proof. vm_compute. reflexivity. Qed.

Example sha256_incremental :
  Sha256.hexdigest (Sha256.update (Sha256.update Sha256.new (bytes_of_string "a"))
                                  (bytes_of_string "bc"))
  = "ba7816bf8f01cfea414140de5dae2223b00361a396177a9cb410ff61f20015ad".
Proof. vm_compute. reflexivity. Qed.

(** ** Running computations *)

Lemma bind_run {A B} (m : M A) (k : A -> M B) (w : World) :
  (m ≫= k) w = match m w with
               | (Ret a, w') => k a w'
               | (Raise e, w') => (Raise e, w')
               end.
Proof. reflexivity. Qed.

Lemma bind_ret_run {A B} (m : M A) (k : A -> M B) (w w' : World) (a : A) :
  m w = (Ret a, w') -> (m ≫= k) w = k a w'.
Proof. intros H. rewrite bind_run, H. reflexivity. Qed.

Lemma bind_raise_run {A B} (m : M A) (k : A -> M B) (w w' : World) (e : exn) :
  m w = (Raise e, w') -> (m ≫= k) w = (Raise e, w').
Proof. intros H. rewrite bind_run, H. reflexivity. Qed.

Lemma try_ret_run {A} (m : M A) (h : exn -> option (M A)) (w w' : World) (a : A) :
  m w = (Ret a, w') -> try_except m h w = (Ret a, w').
Proof. intros H. unfold try_except. rewrite H. reflexivity. Qed.

Lemma try_raise_run {A} (m : M A) (h : exn -> option (M A)) (w w' : World) (e : exn) :
  m w = (Raise e, w') ->
  try_except m h w = match h e with
                     | Some k => k w'
                     | None => (Raise e, w')
                     end.
Proof. intros H. unfold try_except. rewrite H. reflexivity. Qed.

(** ** Facts about [log] *)

Lemma set_window_id (w : World) : set_window (window w) w = w.
Proof. destruct w; reflexivity. Qed.

Lemma log_message_run (message : string) (level : Z) (w : World) :
  log_message message level w = (Ret tt, set_window (shown message level (window w)) w).
Proof.
  unfold log_message, shown.
  destruct (log_level (window w) <=? level); [reflexivity|].
  now rewrite set_window_id.
Qed.

Lemma log_run (self : FlashUtility) (message : string) (level : Z) (w : World) :
  Backend.log self message level w = (Ret tt, logged self message level w).
Proof.
  unfold Backend.log, logged.
  destruct (log_callback self) as [[]|]; [apply log_message_run | reflexivity].
Qed.

Lemma logged_fs self m l w : fs (logged self m l w) = fs w.
Proof. unfold logged. now destruct (log_callback self). Qed.

Lemma logged_events self m l w : events (logged self m l w) = events w.
Proof. unfold logged. now destruct (log_callback self). Qed.

Lemma logged_PREDEFINED_OS self m l w :
  PREDEFINED_OS (logged self m l w) = PREDEFINED_OS w.
Proof. unfold logged. now destruct (log_callback self). Qed.

Lemma logged_now self m l w : now (logged self m l w) = now w.
Proof. unfold now. now rewrite logged_events. Qed.

(** With the window's level at or below the message's, the line is in the pane. *)
Lemma logged_window_shown (self : FlashUtility) (message : string) (level : Z) (w : World) :
  log_callback self = Some log_message_of_window ->
  log_level (window w) <= level ->
  log_output (window (logged self message level w))
  = (log_output (window w) ++ [log_line level message])%list.
Proof.
  intros Hcb Hle. unfold logged, shown. rewrite Hcb. cbn.
  destruct (Z.leb_spec (log_level (window w)) level); [reflexivity | lia].
Qed.

Lemma logged_console (self : FlashUtility) (message : string) (level : Z) (w : World) :
  log_callback self = None ->
  stdout (logged self message level w) = (stdout w ++ [message])%list.
Proof. intros Hcb. unfold logged. now rewrite Hcb. Qed.

Example flash_example :
  events (snd (Gui.flash_usb env_offline world_example))
  = [Shell "sudo dd if=/tmp/ventoy_k3x9/Arch Linux.iso of=/dev/sdb bs=4M status=progress && sync"]
  /\ log_output (window (snd (Gui.flash_usb env_offline world_example)))
     = ["[INFO] Starting dd flashing process...";
        "[INFO] Running dd command: sudo dd if=/tmp/ventoy_k3x9/Arch Linux.iso of=/dev/sdb bs=4M status=progress && sync";
        "[INFO] Flashing complete using dd."].
Proof. split; vm_compute; reflexivity. Qed.

Example validate_example :
  log_output (window (snd (Gui.validate_iso world_example)))
  = ["[WARNING] WARNING: ISO hash for Arch Linux does not match expected value!"]
  /\ status_pane (window (snd (Gui.validate_iso world_example)))
     = ["WARNING: Arch Linux ISO hash mismatch. Expected: dummyhash_arch, Got: ba7816bf8f01cfea414140de5dae2223b00361a396177a9cb410ff61f20015ad"].
Proof. split; vm_compute; reflexivity. Qed.

(** ** Exception handling *)

(** A [try] whose clauses catch everything and only log returns [None]. *)
Lemma try_logs_returns (self : FlashUtility) (body : M unit)
      (h : exn -> option (M unit)) (w : World) :
  (forall e, exists m l, h e = Some (Backend.log self m l)) ->
  fst (try_except body h w) = Ret tt.
Proof.
  intros Hh. unfold try_except.
  destruct (body w) as [[[]|e] w'] eqn:Hb; [reflexivity|].
  destruct (Hh e) as (m & l & ->). now rewrite log_run.
Qed.

Lemma run_dd_command_returns_None env self iso dev w :
  fst (Backend.run_dd_command env self iso dev w) = Ret tt.
Proof.
  apply (try_logs_returns self). intros e.
  destruct (is_CalledProcessError e); eauto.
Qed.

Lemma reformat_usb_returns_None env self dev scheme w :
  fst (Backend.reformat_usb env self dev scheme w) = Ret tt.
Proof.
  apply (try_logs_returns self). intros e.
  destruct (is_CalledProcessError e); eauto.
Qed.

Lemma install_ventoy_returns_None env self dev w :
  fst (Backend.install_ventoy env self dev w) = Ret tt.
Proof.
  apply (try_logs_returns self). intros e.
  destruct (is_CalledProcessError e); eauto.
Qed.

(** ** The device-detail query (C10) *)

(** C10.  [get_usb_details] never reads its [usb_device] argument: what it
    returns and the world it leaves are a function of the host and of the
    global [lsblk] listing alone, so queried with any two device strings in
    the same world and environment it gives the same text (on Linux the
    stripped listing of every block device, or the text of the error). *)
Theorem get_usb_details_ignores_device
        (env : Env) (self : FlashUtility) (d1 d2 : string) (w : World) :
  Backend.get_usb_details env self d1 w = listing_details env self w
  /\ Backend.get_usb_details env self d1 w = Backend.get_usb_details env self d2 w.
Proof.
  split; [|reflexivity].
  unfold Backend.get_usb_details, listing_details.
  destruct (String.eqb (os_type self) "Linux").
  - unfold try_except, except_Exception, subprocess_lsblk. rewrite bind_run.
    now destruct (env_lsblk env (now w)).
  - now destruct (String.eqb (os_type self) "Windows").
Qed.

(** The two devices of a host get the same details. *)
Example get_usb_details_two_devices :
  Backend.get_usb_details env_offline (util_on "Linux") "/dev/sda" world_example
  = Backend.get_usb_details env_offline (util_on "Linux") "/dev/sdb" world_example
  /\ fst (Backend.get_usb_details env_offline (util_on "Linux") "/dev/sdb" world_example)
     = Ret "NAME FSTYPE SIZE TYPE MOUNTPOINT LABEL MODEL".
Proof. vm_compute. split; reflexivity. Qed.

(** ** Primitives on a platform that does not support them (C8) *)

(** C8, as amended.  On a host other than Linux the raw write and the
    reformat run no command, log one message (a warning on Windows, an error
    elsewhere) and return [None]; so does the loader install on a host that
    is neither Linux nor Windows.  [None] is also what the three primitives
    return in every other case, whatever the host and whatever the command
    did: the unsupported case is told apart by the logged message only. *)
Theorem unsupported_platform_logs_and_returns_None
        (env : Env) (self : FlashUtility) (iso dev scheme : string) (w : World) :
  os_type self <> "Linux" ->
  let dd := unsupported_note
              "dd command is not natively supported on Windows. Please install a dd equivalent."
              "Unsupported OS for dd flashing." (os_type self) in
  let rf := unsupported_note
              "Reformatting USB drive is not implemented for Windows."
              "Unsupported OS for reformatting." (os_type self) in
  Backend.run_dd_command env self iso dev w = (Ret tt, logged self dd.1 dd.2 w)
  /\ Backend.reformat_usb env self dev scheme w = (Ret tt, logged self rf.1 rf.2 w)
  /\ (os_type self <> "Windows" ->
      Backend.install_ventoy env self dev w
      = (Ret tt, logged self "No Ventoy download available for this OS." LOG_ERROR w))
  /\ (forall env' self' w',
        fst (Backend.run_dd_command env' self' iso dev w') = Ret tt
        /\ fst (Backend.reformat_usb env' self' dev scheme w') = Ret tt
        /\ fst (Backend.install_ventoy env' self' dev w') = Ret tt).
Proof.
  intros HL. apply String.eqb_neq in HL. cbn zeta.
  unfold unsupported_note.
  split; [|split; [|split]].
  - unfold Backend.run_dd_command. rewrite HL.
    destruct (String.eqb (os_type self) "Windows");
      (erewrite try_ret_run; [reflexivity | apply log_run]).
  - unfold Backend.reformat_usb. rewrite HL.
    destruct (String.eqb (os_type self) "Windows");
      (erewrite try_ret_run; [reflexivity | apply log_run]).
  - intros HW. apply String.eqb_neq in HW.
    unfold Backend.install_ventoy, VENTOY_URLS. rewrite HL, HW.
    erewrite try_ret_run; [reflexivity | apply log_run].
  - intros env' self' w'.
    auto using run_dd_command_returns_None, reformat_usb_returns_None,
      install_ventoy_returns_None.
Qed.

Lemma unsupported_platform_logs_and_returns_None_witness :
  os_type (util_on "Windows") <> "Linux" /\
  Backend.run_dd_command env_offline (util_on "Windows") "/tmp/x.iso" "/dev/sdb" world_example
  = (Ret tt,
     logged (util_on "Windows")
            "dd command is not natively supported on Windows. Please install a dd equivalent."
            LOG_WARNING world_example).
Proof.
  split; [discriminate|].
  apply (unsupported_platform_logs_and_returns_None
           env_offline (util_on "Windows") "/tmp/x.iso" "/dev/sdb" "GPT" world_example).
  discriminate.
Defined.

(** C8, as stated, fails: what [run_dd_command] returns on Windows or on an
    unknown host is what it returns on Linux when [dd] succeeds and when
    [dd] exits with an error; the same holds for [reformat_usb]. *)
Lemma unsupported_platform_not_distinct :
  let on_windows := Backend.run_dd_command env_offline (util_on "Windows")
                      "/tmp/x.iso" "/dev/sdb" world_example in
  let on_other := Backend.run_dd_command env_offline (util_on "Darwin")
                      "/tmp/x.iso" "/dev/sdb" world_example in
  let success := Backend.run_dd_command env_offline (util_on "Linux")
                      "/tmp/x.iso" "/dev/sdb" world_example in
  let error := Backend.run_dd_command
                      (with_shell (NonZeroExit "Command returned non-zero exit status 1.")
                                  env_offline)
                      (util_on "Linux") "/tmp/x.iso" "/dev/sdb" world_example in
  fst on_windows = fst success /\ fst on_windows = fst error
  /\ fst on_other = fst success /\ fst on_other = fst error
  /\ fst (Backend.reformat_usb env_offline (util_on "Windows") "/dev/sdb" "GPT" world_example)
     = fst (Backend.reformat_usb env_offline (util_on "Linux") "/dev/sdb" "GPT" world_example).
Proof. vm_compute. repeat split. Qed.

(** ** Archive extraction (C5, C6) *)

Lemma extractall_run (d : Decoded) (extract_to : string) (w : World) :
  extractall d extract_to w
  = (match failure d with
     | Some s => Raise (Exn BadArchive s)
     | None => Ret tt
     end,
     set_fs (fold_left (fun f m => <[PyStr.path_join extract_to m.1 := m.2]> f)
                       (members d) (fs w)) w).
Proof. unfold extractall. rewrite bind_run. cbn [modify]. now destruct (failure d). Qed.

(** C5.  On a path that ends in neither [.tar.gz] nor [.zip],
    [extract_archive] logs that it starts, logs "Unsupported archive format."
    at WARNING and returns [False]: it raises nothing, reads no file (so the
    content of the file plays no part) and changes neither the file system
    nor the list of external requests. *)
Theorem extract_archive_unsupported_suffix
        (env : Env) (self : FlashUtility) (archive_path extract_to : string) (w : World) :
  PyStr.endswith archive_path ".tar.gz" = false ->
  PyStr.endswith archive_path ".zip" = false ->
  let w' := logged self "Unsupported archive format." LOG_WARNING
              (logged self ("Extracting " ++ archive_path ++ " to " ++ extract_to) LOG_INFO w) in
  Backend.extract_archive env self archive_path extract_to w = (Ret false, w')
  /\ fs w' = fs w /\ events w' = events w.
Proof.
  intros Ht Hz. cbn zeta. split.
  - unfold Backend.extract_archive. rewrite Ht, Hz.
    erewrite bind_ret_run by apply log_run.
    apply try_ret_run.
    erewrite bind_ret_run by apply log_run. reflexivity.
  - now rewrite !logged_fs, !logged_events.
Qed.

Lemma extract_archive_unsupported_suffix_witness :
  PyStr.endswith "/tmp/ventoy_k3x9/Arch Linux.iso" ".tar.gz" = false /\
  PyStr.endswith "/tmp/ventoy_k3x9/Arch Linux.iso" ".zip" = false /\
  fst (Backend.extract_archive env_offline (util_on "Linux")
         "/tmp/ventoy_k3x9/Arch Linux.iso" "/tmp/ventoy_k3x9/out" world_example) = Ret false.
Proof.
  split; [reflexivity|]. split; [reflexivity|].
  destruct (extract_archive_unsupported_suffix env_offline (util_on "Linux")
         "/tmp/ventoy_k3x9/Arch Linux.iso" "/tmp/ventoy_k3x9/out" world_example
         eq_refl eq_refl) as [H _].
  rewrite H. reflexivity.
Defined.

(** With the window's level at WARNING or below, the warning is in the pane. *)
Example extract_archive_unsupported_suffix_log :
  log_output (window (snd (Backend.extract_archive env_offline (util_on "Linux")
         "/tmp/ventoy_k3x9/Arch Linux.iso" "/tmp/ventoy_k3x9/out" world_example)))
  = ["[INFO] Extracting /tmp/ventoy_k3x9/Arch Linux.iso to /tmp/ventoy_k3x9/out";
     "[WARNING] Unsupported archive format."].
Proof. vm_compute. reflexivity. Qed.

(** C6, as amended.  When the extraction of an archive with a recognized
    suffix fails (the file cannot be opened, or its decoder stops on an
    error), [extract_archive] logs "Extraction error: ..." at ERROR and
    returns [False]; the members decoded before the error stay extracted. *)
Theorem extract_archive_failure_returns_False
        (env : Env) (self : FlashUtility) (archive_path extract_to s : string) (w : World) :
  recognized archive_path = true ->
  extraction_error env w archive_path = Some s ->
  Backend.extract_archive env self archive_path extract_to w
  = (Ret false,
     logged self ("Extraction error: " ++ s) LOG_ERROR
       (partly_extracted env archive_path extract_to
          (logged self ("Extracting " ++ archive_path ++ " to " ++ extract_to) LOG_INFO w))).
Proof.
  intros Hrec Herr.
  unfold Backend.extract_archive.
  erewrite bind_ret_run by apply log_run.
  set (w1 := logged self _ LOG_INFO w).
  assert (Hfs : fs w1 = fs w) by apply logged_fs.
  unfold extraction_error in Herr. rewrite <- Hfs in Herr.
  unfold partly_extracted, decoder in *.
  assert (Hbody : forall (dec : list byte -> Decoded),
    match node_at (fs w1) archive_path with
    | Some (File bs) => failure (dec bs)
    | Some Dir => Some (str_e (is_a_directory archive_path))
    | None => Some (str_e (no_such_file archive_path))
    end = Some s ->
    try_except
      (bs ← open_rb archive_path;
       extractall (dec bs) extract_to;;
       Backend.log self "Extraction complete." LOG_INFO;;
       mret true)
      (except_Exception (fun ex =>
         Backend.log self ("Extraction error: " ++ str_e ex) LOG_ERROR;;
         mret false)) w1
    = (Ret false,
       logged self ("Extraction error: " ++ s) LOG_ERROR
         match node_at (fs w1) archive_path with
         | Some (File bs) =>
             set_fs (fold_left (fun f m => <[PyStr.path_join extract_to m.1 := m.2]> f)
                               (members (dec bs)) (fs w1)) w1
         | _ => w1
         end)).
  { intros dec Hd. unfold try_except, except_Exception.
    rewrite bind_run. unfold open_rb.
    destruct (node_at (fs w1) archive_path) as [[bs|]|].
    - rewrite bind_run, extractall_run, Hd, bind_run, log_run. reflexivity.
    - injection Hd as <-. rewrite bind_run, log_run. reflexivity.
    - injection Hd as <-. rewrite bind_run, log_run. reflexivity. }
  unfold recognized in Hrec.
  destruct (PyStr.endswith archive_path ".tar.gz").
  - now apply Hbody.
  - cbn in Hrec. rewrite Hrec. now apply Hbody.
Qed.

Lemma extract_archive_failure_returns_False_witness :
  recognized "/tmp/ventoy_k3x9/ventoy-1.0.90-linux.tar.gz" = true /\
  extraction_error env_offline world_corrupt_archive
    "/tmp/ventoy_k3x9/ventoy-1.0.90-linux.tar.gz" = Some "not a gzip file" /\
  fst (Backend.extract_archive env_offline (util_on "Linux")
         "/tmp/ventoy_k3x9/ventoy-1.0.90-linux.tar.gz" "/tmp/ventoy_k3x9/ventoy_extracted"
         world_corrupt_archive) = Ret false.
Proof.
  split; [reflexivity|]. split; [reflexivity|].
  rewrite (extract_archive_failure_returns_False env_offline (util_on "Linux")
             "/tmp/ventoy_k3x9/ventoy-1.0.90-linux.tar.gz" "/tmp/ventoy_k3x9/ventoy_extracted"
             "not a gzip file" world_corrupt_archive eq_refl eq_refl).
  reflexivity.
Defined.

(** C6, as stated, fails: on a corrupt [.tar.gz] whose decoder reports an
    error, [extract_archive] raises nothing; it returns [False], the value it
    also returns for an unsupported suffix. *)
Lemma extract_archive_corrupt_does_not_raise :
  let r := Backend.extract_archive env_offline (util_on "Linux")
             "/tmp/ventoy_k3x9/ventoy-1.0.90-linux.tar.gz" "/tmp/ventoy_k3x9/ventoy_extracted"
             world_corrupt_archive in
  recognized "/tmp/ventoy_k3x9/ventoy-1.0.90-linux.tar.gz" = true
  /\ extraction_error env_offline world_corrupt_archive
       "/tmp/ventoy_k3x9/ventoy-1.0.90-linux.tar.gz" = Some "not a gzip file"
  /\ fst r = Ret false
  /\ (forall e, fst r <> Raise e)
  /\ log_output (window (snd r))
     = ["[INFO] Extracting /tmp/ventoy_k3x9/ventoy-1.0.90-linux.tar.gz to /tmp/ventoy_k3x9/ventoy_extracted";
        "[ERROR] Extraction error: not a gzip file"].
Proof.
  cbn zeta.
  assert (H : fst (Backend.extract_archive env_offline (util_on "Linux")
             "/tmp/ventoy_k3x9/ventoy-1.0.90-linux.tar.gz" "/tmp/ventoy_k3x9/ventoy_extracted"
             world_corrupt_archive) = Ret false) by (vm_compute; reflexivity).
  split; [reflexivity|]. split; [vm_compute; reflexivity|].
  split; [exact H|]. split; [intros e; rewrite H; discriminate|].
  vm_compute; reflexivity.
Qed.

(** ** Download (C7) *)

Lemma can_create_not_root (f : gmap string node) (p : string) :
  can_create f p = true -> is_root p = false.
Proof.
  unfold can_create, node_at. destruct (is_root p); [|reflexivity].
  now rewrite andb_false_r.
Qed.

Lemma open_wb_run (p : string) (w : World) :
  can_create (fs w) p = true ->
  open_wb p w = (Ret tt, set_fs (<[p := File []]> (fs w)) w).
Proof.
  unfold can_create, open_wb. intros H. apply andb_true_iff in H as [Hp Hn].
  rewrite Hp. now destruct (node_at (fs w) p) as [[]|].
Qed.

Lemma open_wb_refused (p : string) (w : World) :
  can_create (fs w) p = false ->
  exists e, open_wb p w = (Raise e, w) /\ class_of e = OSError.
Proof.
  unfold can_create, open_wb. intros H.
  destruct (node_at (fs w) p) as [[]|]; destruct (parent_ok (fs w) p);
    try discriminate; eexists; split; reflexivity.
Qed.

Lemma write_fresh_run (p : string) (bs : list byte) (f : gmap string node) (w : World) :
  write p bs (set_fs (<[p := File []]> f) w) = (Ret tt, set_fs (<[p := File bs]> f) w).
Proof.
  unfold write, modify, set_fs. cbn [fs]. rewrite lookup_insert_eq.
  cbn [app events stdout PREDEFINED_OS window]. now rewrite insert_insert_eq.
Qed.

(** What [download_file] returns and leaves behind, for each answer to its
    one request. *)
Lemma download_file_cases
      (env : Env) (self : FlashUtility) (target dest_filename : string) (w : World) :
  let dest_path := PyStr.path_join (temp_dir self) dest_filename in
  let asked := add_event (HttpGet target)
                 (logged self ("Downloading from " ++ target ++ " to " ++ dest_path)
                         LOG_INFO w) in
  exists w',
    Backend.download_file env self target dest_filename w
    = (match env_get env (now w) target with
       | GetRaised e => if is_RequestException e then Ret None else Raise e
       | GetResponse c h bytes b =>
           if (400 <=? c) && (c <? 600) then Ret None
           else if can_create (fs w) dest_path then
             match b with
             | None => Ret (Some dest_path)
             | Some s => Raise (Exn TransportError s)
             end
           else Raise match node_at (fs w) dest_path with
                      | Some Dir => is_a_directory dest_path
                      | _ => no_such_file dest_path
                      end
       end, w')
    /\ w' = match refused (env_get env (now w) target) with
            | Some s => logged self ("Error downloading file: " ++ s) LOG_ERROR asked
            | None =>
                match env_get env (now w) target with
                | GetRaised _ => asked
                | GetResponse _ _ bytes b =>
                    if can_create (fs w) dest_path then
                      let stored := set_fs (<[dest_path := File bytes]> (fs w)) asked in
                      match b with
                      | None => logged self ("Download complete: " ++ dest_path) LOG_INFO
                                       stored
                      | Some _ => stored
                      end
                    else asked
                end
            end.
Proof.
  cbn zeta. unfold Backend.download_file, refused.
  erewrite bind_ret_run by apply log_run.
  set (dest := PyStr.path_join (temp_dir self) dest_filename) in *.
  set (w1 := logged self _ LOG_INFO w).
  assert (Hn : now w1 = now w) by apply logged_now.
  assert (Hfs : fs w1 = fs w) by apply logged_fs.
  unfold try_except. rewrite bind_run. unfold requests_get. rewrite Hn.
  destruct (env_get env (now w) target) as [e|c h bytes b].
  - destruct (is_RequestException e).
    + rewrite bind_run, log_run. eexists. split; reflexivity.
    + eexists. split; reflexivity.
  - rewrite bind_run. unfold raise_for_status. cbn [status_code http_error].
    destruct ((400 <=? c) && (c <? 600)).
    + cbn [raise is_RequestException class_of str_e]. rewrite bind_run, log_run.
      eexists. split; reflexivity.
    + cbn [mret M_ret]. rewrite bind_run.
      destruct (can_create (fs w) dest) eqn:Hcan.
      * rewrite open_wb_run by (cbn [fs add_event]; now rewrite Hfs).
        rewrite bind_run. unfold copyfileobj. rewrite bind_run, write_fresh_run.
        cbn [fs add_event broken]. rewrite Hfs.
        destruct b as [s|].
        -- cbn [raise is_RequestException class_of]. eexists. split; reflexivity.
        -- cbn [mret M_ret]. rewrite bind_run, log_run. eexists. split; reflexivity.
      * unfold open_wb. cbn [fs add_event]. rewrite Hfs.
        unfold can_create in Hcan.
        destruct (node_at (fs w) dest) as [[content|]|]; destruct (parent_ok (fs w) dest);
          try discriminate; cbn [is_RequestException class_of no_such_file is_a_directory];
          eexists; split; reflexivity.
Qed.



(** A status of 404 is such a failure. *)
Example download_file_404 :
  let env := with_get (GetResponse 404 "404 Client Error: Not Found for url" [] None)
                      env_offline in
  let r := Backend.download_file env (util_on "Linux") "https://example.org/x.iso"
                                 "x.iso" world_example in
  fst r = Ret None
  /\ events (snd r) = [HttpGet "https://example.org/x.iso"]
  /\ fs (snd r) = fs world_example.
Proof. vm_compute. repeat split. Qed.


(** A stream that breaks after the response has arrived is not caught by
    [except requests.RequestException]: the exception leaves
    [download_file], which returns no path then either, after one request;
    the bytes received stay in the destination file. *)
Lemma download_file_stream_breaks
      (env : Env) (self : FlashUtility) (target dest_filename h s : string)
      (c : Z) (r : list byte) (w : World) :
  env_get env (now w) target = GetResponse c h r (Some s) ->
  (400 <=? c) && (c <? 600) = false ->
  node_at (fs w) (PyStr.path_join (temp_dir self) dest_filename) = None ->
  parent_ok (fs w) (PyStr.path_join (temp_dir self) dest_filename) = true ->
  exists w',
    Backend.download_file env self target dest_filename w
    = (Raise (Exn TransportError s), w')
    /\ events w' = (events w ++ [HttpGet target])%list
    /\ fs w' !! PyStr.path_join (temp_dir self) dest_filename = Some (File r).
Proof.
  intros Hg Hc Hnode Hp. unfold Backend.download_file.
  erewrite bind_ret_run by apply log_run.
  set (dest := PyStr.path_join (temp_dir self) dest_filename) in *.
  set (w1 := logged self _ LOG_INFO w).
  assert (Hn : now w1 = now w) by apply logged_now.
  assert (Hfs : fs w1 = fs w) by apply logged_fs.
  assert (Hev : events w1 = events w) by apply logged_events.
  unfold try_except. rewrite bind_run. unfold requests_get. rewrite Hn, Hg.
  rewrite bind_run. unfold raise_for_status. cbn [status_code]. rewrite Hc.
  cbn [mret M_ret]. rewrite bind_run. unfold open_wb. cbn [fs add_event].
  rewrite Hfs, Hnode, Hp.
  rewrite bind_run. unfold copyfileobj. rewrite bind_run. unfold write.
  cbn [modify raw broken fs set_fs]. rewrite lookup_insert_eq.
  cbn [raise is_RequestException class_of].
  eexists. split; [reflexivity|]. cbn [events fs set_fs add_event].
  split; [now rewrite <- Hev|]. cbn. now rewrite lookup_insert_eq.
Qed.

(** ** Hashing (C4) *)

Section Hashing.

Local Open Scope nat_scope.
Local Open Scope list_scope.

Lemma absorb_fuel (n m : nat) (h : list Z) (d : list byte) :
  length d <= n -> length d <= m -> Sha256.absorb n h d = Sha256.absorb m h d.
Proof.
  revert m h d. induction n as [|n IH]; intros m h d Hn Hm.
  - destruct d; [|cbn in Hn; lia]. destruct m; reflexivity.
  - cbn [Sha256.absorb]. destruct (Nat.leb_spec 64 (length d)) as [H64|H64].
    + destruct m as [|m]; [lia|]. cbn [Sha256.absorb].
      destruct (Nat.leb_spec 64 (length d)); [|lia].
      apply IH; rewrite length_drop; lia.
    + destruct m as [|m]; [reflexivity|]. cbn [Sha256.absorb].
      destruct (Nat.leb_spec 64 (length d)); [lia|reflexivity].
Qed.


Lemma absorb_all_short h d : length d < 64 -> absorb_all h d = (h, d).
Proof.
  intros H. unfold absorb_all. destruct (length d) eqn:E; [reflexivity|].
  cbn [Sha256.absorb]. rewrite E.
  destruct (Nat.leb_spec 64 (S n)); [lia|reflexivity].
Qed.

Lemma absorb_all_block h d :
  64 <= length d ->
  absorb_all h d = absorb_all (Sha256.compress h (take 64 d)) (drop 64 d).
Proof.
  intros H. unfold absorb_all. destruct (length d) eqn:E; [lia|].
  cbn [Sha256.absorb]. rewrite E.
  destruct (Nat.leb_spec 64 (S n)); [|lia].
  apply absorb_fuel; rewrite length_drop; lia.
Qed.

Lemma absorb_all_app h x y :
  absorb_all h (x ++ y)
  = absorb_all (fst (absorb_all h x)) (snd (absorb_all h x) ++ y).
Proof.
  remember (length x) as n eqn:Hn. revert h x Hn.
  induction n as [n IH] using lt_wf_ind. intros h x Hn.
  destruct (Nat.lt_ge_cases (length x) 64) as [Hs|Hl].
  - now rewrite (absorb_all_short h x Hs).
  - rewrite (absorb_all_block h x Hl).
    rewrite (absorb_all_block h (x ++ y)) by (rewrite length_app; lia).
    rewrite take_app_le, drop_app_le by lia.
    apply (IH (length (drop 64 x))); [rewrite length_drop; lia | reflexivity].
Qed.

Lemma update_unfold s data :
  Sha256.update s data
  = Sha256.Hasher (fst (absorb_all (Sha256.chain s) (Sha256.pending s ++ data)))
                  (snd (absorb_all (Sha256.chain s) (Sha256.pending s ++ data)))
                  (Sha256.seen s + Z.of_nat (length data))%Z.
Proof.
  unfold Sha256.update, absorb_all.
  now destruct (Sha256.absorb _ _ _).
Qed.

Lemma update_app s a b :
  Sha256.update (Sha256.update s a) b = Sha256.update s (a ++ b).
Proof.
  rewrite !update_unfold. cbn [Sha256.chain Sha256.pending Sha256.seen].
  rewrite app_assoc, <- absorb_all_app. f_equal.
  rewrite length_app. lia.
Qed.


Lemma block_size_pos : 0 < Backend.block_size.
Proof. unfold Backend.block_size. lia. Qed.

#[local] Opaque Backend.block_size.

(** The loop hands the chunks it reads to the hash object, whatever that
    object is: one call of [update] for each chunk, in the order read. *)
Lemma read_loop_chunks {T : Type} (update : T -> list byte -> T)
      (fuel : nat) (rest : list byte) (h : T) :
  Backend.read_loop update fuel rest h = fold_left update (chunks_read fuel rest) h.
Proof.
  revert rest h. induction fuel as [|fuel IH]; intros rest h; [reflexivity|].
  cbn [Backend.read_loop chunks_read].
  destruct (take Backend.block_size rest) as [|b l]; [reflexivity|].
  cbn [fold_left]. apply IH.
Qed.

Lemma take_nil_inv {A} (n : nat) (l : list A) : 0 < n -> take n l = [] -> l = [].
Proof. intros Hn. destruct n; [lia|]. now destruct l. Qed.

Lemma chunks_read_nil (fuel : nat) : chunks_read fuel [] = [].
Proof. destruct fuel; [reflexivity|]. cbn [chunks_read]. now rewrite take_nil. Qed.



Lemma chunks_read_update (fuel : nat) (rest : list byte) (h : Sha256.t) :
  length rest < fuel -> rest <> [] ->
  fold_left Sha256.update (chunks_read fuel rest) h = Sha256.update h rest.
Proof.
  revert rest h. induction fuel as [|fuel IH]; intros rest h H Hne; [lia|].
  cbn [chunks_read].
  destruct (take Backend.block_size rest) as [|b l] eqn:E.
  - exfalso. apply Hne. eapply take_nil_inv; [apply block_size_pos | exact E].
  - cbn [fold_left]. rewrite <- E.
    destruct (drop Backend.block_size rest) as [|b' l'] eqn:D.
    + rewrite chunks_read_nil. cbn [fold_left].
      rewrite <- (take_drop Backend.block_size rest) at 2. rewrite D. now rewrite app_nil_r.
    + rewrite <- D. rewrite IH.
      * rewrite update_app. now rewrite take_drop.
      * rewrite length_drop. pose proof block_size_pos.
        assert (length rest <> 0) by (destruct rest; [now rewrite take_nil in E | cbn; lia]).
        lia.
      * rewrite D. discriminate.
Qed.

Lemma blocks_update (content : list byte) :
  fold_left Sha256.update (blocks content) Sha256.new = Sha256.update Sha256.new content.
Proof.
  destruct content as [|b l] eqn:E; [reflexivity|].
  rewrite <- E. apply chunks_read_update; [lia | subst; discriminate].
Qed.

Lemma compute_sha256_blocks_run
      (content : list byte) (self : FlashUtility) (file_path : string) (w : World) :
  node_at (fs w) file_path = Some (File content) ->
  Backend.compute_sha256 self file_path w
  = (Ret (Some (Sha256.hexdigest (fold_left Sha256.update (blocks content) Sha256.new))), w).
Proof.
  intros H0. unfold Backend.compute_sha256.
  apply try_ret_run. rewrite bind_run. unfold open_rb. rewrite H0.
  cbn [mret M_ret]. now rewrite read_loop_chunks.
Qed.

Lemma compute_sha256_run
      (content : list byte) (self : FlashUtility) (file_path : string) (w : World) :
  node_at (fs w) file_path = Some (File content) ->
  Backend.compute_sha256 self file_path w = (Ret (Some (Sha256.sha256_hex content)), w).
Proof.
  intros H0. rewrite (compute_sha256_blocks_run content) by assumption.
  unfold Sha256.sha256_hex. now rewrite blocks_update.
Qed.



End Hashing.


(** The chunks the loop hands to a hash object that only records them: a
    file of 5000 bytes arrives as 4096 bytes and then 904, not in one
    piece. *)
Example read_loop_records_two_chunks :
  map length
      (Backend.read_loop (fun seen chunk => seen ++ [chunk])%list (S 5000)
                         (repeat "a"%byte 5000) [])
  = [4096; 904]%nat.
Proof. vm_compute. reflexivity. Qed.

Example compute_sha256_abc :
  fst (Backend.compute_sha256 (util_on "Linux") "/tmp/ventoy_k3x9/Arch Linux.iso"
                              world_example)
  = Ret (Some "ba7816bf8f01cfea414140de5dae2223b00361a396177a9cb410ff61f20015ad").
Proof. vm_compute. reflexivity. Qed.

(** Padding boundaries: 55, 56 and 64 bytes. *)
Example sha256_padding_boundaries :
  Sha256.sha256_hex (repeat "a"%byte 55)
  = "9f4390f8d30c2dd92ec9f095b65e2b9ae9b0a925a5258e241c9f1e910f734318"
  /\ Sha256.sha256_hex (repeat "a"%byte 56)
     = "b35439a4ac6f0948b6d6f9e3c6af0f5f590ce20f1bde7090ef7970686ec6738a"
  /\ Sha256.sha256_hex (repeat "a"%byte 64)
     = "ffe054fe7ae0cb6dc65c3af9b61d5209f439851db43d0ba5997337df154668eb".
Proof. vm_compute. repeat split. Qed.

(** A file of 5000 bytes is read in a block of 4096 and one of 904. *)
Example blocks_5000 :
  map length (blocks (repeat "a"%byte 5000)) = [4096; 904]%nat
  /\ Sha256.hexdigest (fold_left Sha256.update (blocks (repeat "a"%byte 5000)) Sha256.new)
     = "c526c6222044dab5674de9c4ac7f4566ebb5e4d8bf9d8ea34c9cc8a7cc3c869c".
Proof. vm_compute. repeat split. Qed.

(** A missing file gives [None] and an ERROR line, not a digest. *)
Example compute_sha256_missing :
  fst (Backend.compute_sha256 (util_on "Linux") "/tmp/ventoy_k3x9/none.iso" world_example)
  = Ret None.
Proof. vm_compute. reflexivity. Qed.

(** ** Cleanup on shutdown (C3) *)

Lemma rmtree_ok_run (env : Env) (p : string) (w : World) :
  node_at (fs w) p = Some Dir ->
  env_rmtree env (now w) p = None ->
  rmtree env p w
  = (Ret tt, set_fs (filter (fun kv => under p kv.1 = false) (fs w)) (add_event (Rmtree p) w)).
Proof. intros Hd Ho. unfold rmtree. now rewrite Hd, Ho. Qed.

Lemma rmtree_failed_run (env : Env) (p : string) (fl : RmFailure) (w : World) :
  node_at (fs w) p = Some Dir ->
  env_rmtree env (now w) p = Some fl ->
  rmtree env p w
  = (Raise (Exn OSError (rm_error fl)),
     set_fs (filter (fun kv => negb (under p kv.1 && negb (String.eqb kv.1 p)
                                     && rm_done fl kv.1) = true) (fs w))
            (add_event (Rmtree p) w)).
Proof. intros Hd Ho. unfold rmtree. now rewrite Hd, Ho. Qed.

Lemma path_exists_dir (f : gmap string node) (p : string) :
  node_at f p = Some Dir -> path_exists f p = true.
Proof. intros H. unfold path_exists. now rewrite H. Qed.

Lemma node_at_filter_keeps (f : gmap string node) (p : string) (P : string -> bool) :
  node_at f p = Some Dir -> P p = true ->
  node_at (filter (fun kv => P kv.1 = true) f) p = Some Dir.
Proof.
  unfold node_at. destruct (is_root p); [easy|].
  intros H HP. apply map_lookup_filter_Some. split; [exact H | exact HP].
Qed.

(** C3, as amended.  When the user confirms the close and the staging
    directory exists, [closeEvent] accepts the event after [cleanup]: if the
    removal succeeds, nothing at or below [temp_dir] is left and every other
    path is as before; if the removal fails, the directory is still there,
    the error is logged at ERROR and the window closes all the same. *)
Theorem closeEvent_cleans_up (env : Env) (w : World) :
  let self := flash_util (window w) in
  env_reply env (now w) "Exit Confirmation" = true ->
  node_at (fs w) (temp_dir self) = Some Dir ->
  exists w',
    Gui.closeEvent env w = (Ret true, w')
    /\ match env_rmtree env (S (now w)) (temp_dir self) with
       | None =>
           (forall k, under (temp_dir self) k = true -> fs w' !! k = None)
           /\ (forall k, under (temp_dir self) k = false -> fs w' !! k = fs w !! k)
       | Some fl =>
           node_at (fs w') (temp_dir self) = Some Dir
           /\ exists f,
               w' = logged self ("Error during cleanup: " ++ rm_error fl) LOG_ERROR
                      (set_fs f (add_event (Rmtree (temp_dir self))
                                   (add_event (Dialog "Exit Confirmation") w)))
       end.
Proof.
  cbn zeta. intros Hreply Hdir.
  set (self := flash_util (window w)) in *.
  set (td := temp_dir self) in *.
  unfold Gui.closeEvent. rewrite bind_run. unfold message_box. rewrite Hreply.
  rewrite bind_run. cbn [get_world].
  set (w1 := add_event (Dialog "Exit Confirmation") w).
  assert (Hnow : now w1 = S (now w)).
  { unfold now, w1. cbn. rewrite length_app. cbn. lia. }
  change (window w1) with (window w). fold self.
  rewrite bind_run.
  unfold Backend.cleanup, try_except. rewrite bind_run. cbn [get_world].
  change (fs w1) with (fs w). fold td.
  rewrite (path_exists_dir _ _ Hdir). rewrite bind_run.
  destruct (env_rmtree env (S (now w)) td) as [fl|] eqn:Ho.
  - rewrite (rmtree_failed_run env td fl w1) by (rewrite ?Hnow; assumption).
    unfold except_Exception. cbn [str_e]. rewrite log_run.
    eexists. split; [reflexivity|].
    rewrite logged_fs. cbn [fs set_fs]. split.
    + apply (node_at_filter_keeps (fs w) td
               (fun k => negb (under td k && negb (String.eqb k td) && rm_done fl k)));
        [exact Hdir|].
      rewrite String.eqb_refl. cbn. now rewrite andb_false_r.
    + eexists. reflexivity.
  - rewrite (rmtree_ok_run env td w1) by (rewrite ?Hnow; assumption).
    rewrite log_run.
    eexists. split; [reflexivity|].
    rewrite logged_fs. cbn [fs set_fs]. split.
    + intros k Hk. apply map_lookup_filter_None. right. intros x _. cbn. now rewrite Hk.
    + intros k Hk. destruct (fs w !! k) as [x|] eqn:E.
      * apply map_lookup_filter_Some. split; [exact E | exact Hk].
      * apply map_lookup_filter_None. now left.
Qed.

Lemma closeEvent_cleans_up_witness :
  env_reply env_offline (now world_example) "Exit Confirmation" = true /\
  node_at (fs world_example) (temp_dir (flash_util (window world_example))) = Some Dir /\
  exists w', Gui.closeEvent env_offline world_example = (Ret true, w')
             /\ fs w' !! "/tmp/ventoy_k3x9/Arch Linux.iso" = None.
Proof.
  split; [reflexivity|]. split; [reflexivity|].
  destruct (closeEvent_cleans_up env_offline world_example eq_refl eq_refl)
    as (w' & Hrun & Hgone).
  exists w'. split; [exact Hrun|].
  cbn in Hgone. destruct Hgone as [Hgone _]. now apply Hgone.
Defined.

(** When the user declines, the window stays open and nothing is removed. *)
Lemma closeEvent_declined (env : Env) (w : World) :
  env_reply env (now w) "Exit Confirmation" = false ->
  Gui.closeEvent env w = (Ret false, add_event (Dialog "Exit Confirmation") w).
Proof.
  intros H. unfold Gui.closeEvent. rewrite bind_run. unfold message_box. now rewrite H.
Qed.

(** C3, as stated, fails: when the removal of the staging directory is
    denied, the shutdown goes through ([closeEvent] accepts the event) and
    the directory and the image downloaded into it are still on disk. *)
Lemma closeEvent_leaves_temp_dir_when_removal_fails :
  let r := Gui.closeEvent env_rmtree_denied world_example in
  fst r = Ret true
  /\ fs (snd r) !! temp_dir (flash_util (window world_example)) = Some Dir
  /\ fs (snd r) !! "/tmp/ventoy_k3x9/Arch Linux.iso" = Some (File (bytes_of_string "abc"))
  /\ log_output (window (snd r))
     = ["[ERROR] Error during cleanup: [Errno 13] Permission denied: 'Arch Linux.iso'"].
Proof. vm_compute. repeat split. Qed.

(** ** A flash started without a device (C2) *)




Lemma log_message_noted (message : string) (level : Z) (w : World) :
  log_message message level w = (Ret tt, noted message level w).
Proof. apply log_message_run. Qed.


Lemma string_of_list_ascii_nil (l : list ascii) :
  string_of_list_ascii l = EmptyString -> l = [].
Proof. now destruct l. Qed.

Lemma split_aux_nonempty (s : string) (cur : list ascii) :
  Forall (fun t => t <> EmptyString) (PyStr.split_aux cur s).
Proof.
  revert cur. induction s as [|c r IH]; intros cur; cbn [PyStr.split_aux].
  - destruct cur as [|a cur]; constructor; [|constructor].
    intros H. apply string_of_list_ascii_nil in H.
    cbn in H. now destruct (rev cur).
  - destruct (PyStr.is_space c); [|apply IH].
    destruct cur as [|a cur]; [apply IH|]. constructor; [|apply IH].
    intros H. apply string_of_list_ascii_nil in H.
    cbn in H. now destruct (rev cur).
Qed.

(** The token [first_token] returns is never empty. *)
Lemma first_token_nonempty (text d : string) (w w' : World) :
  Gui.first_token text w = (Ret d, w') -> String.eqb d EmptyString = false.
Proof.
  unfold Gui.first_token.
  pose proof (split_aux_nonempty (PyStr.strip text) []) as H. fold (PyStr.split (PyStr.strip text)) in H.
  destruct (PyStr.split (PyStr.strip text)) as [|x l]; [discriminate|].
  intros [= <- <-]. apply String.eqb_neq. now inversion H.
Qed.


(** ** Hash verification and the flash operation (C1) *)

(** *** Computations that ask nothing of the environment *)

Lemma quiet_ret {A} (a : A) : quiet (mret a : M A).
Proof. intros w. reflexivity. Qed.

Lemma quiet_raise {A} (e : exn) : quiet (raise e : M A).
Proof. intros w. reflexivity. Qed.

Lemma quiet_bind {A B} (m : M A) (k : A -> M B) :
  quiet m -> (forall a, quiet (k a)) -> quiet (m ≫= k).
Proof.
  intros Hm Hk w. rewrite bind_run. specialize (Hm w).
  destruct (m w) as [[a|e] w1]; cbn [snd] in *; [|exact Hm].
  now rewrite Hk.
Qed.

Lemma quiet_try {A} (body : M A) (handlers : exn -> option (M A)) :
  quiet body -> (forall e h, handlers e = Some h -> quiet h) ->
  quiet (try_except body handlers).
Proof.
  intros Hb Hh w. unfold try_except. specialize (Hb w).
  destruct (body w) as [[a|e] w1]; cbn [snd] in *; [exact Hb|].
  destruct (handlers e) as [h|] eqn:E; [|exact Hb].
  now rewrite (Hh e h E).
Qed.

Lemma quiet_get_world : quiet get_world.
Proof. intros w. reflexivity. Qed.

Lemma quiet_modify (f : World -> World) :
  (forall w, events (f w) = events w) -> quiet (modify f).
Proof. intros H w. apply H. Qed.

Lemma quiet_log_message (message : string) (level : Z) : quiet (log_message message level).
Proof. intros w. rewrite log_message_run. reflexivity. Qed.

Lemma quiet_log (self : FlashUtility) (message : string) (level : Z) :
  quiet (Backend.log self message level).
Proof. intros w. rewrite log_run. apply logged_events. Qed.

Lemma quiet_open_rb (p : string) : quiet (open_rb p).
Proof. intros w. unfold open_rb. now destruct (node_at (fs w) p) as [[]|]. Qed.

Lemma quiet_open_wb (p : string) : quiet (open_wb p).
Proof.
  intros w. unfold open_wb.
  destruct (node_at (fs w) p) as [[]|]; try reflexivity;
    now destruct (parent_ok (fs w) p).
Qed.

Lemma quiet_write (p : string) (bs : list byte) : quiet (write p bs).
Proof.
  apply quiet_modify. intros w. now destruct (fs w !! p) as [[]|].
Qed.

Lemma quiet_copy2 (src dst : string) : quiet (copy2 src dst).
Proof.
  unfold copy2. apply quiet_bind; [apply quiet_open_rb|]. intros bs.
  apply quiet_bind; [apply quiet_get_world|]. intros w0.
  apply quiet_bind; [apply quiet_open_wb|]. intros _. apply quiet_write.
Qed.

Lemma quiet_copy_iso_to_ventoy (self : FlashUtility) (iso_path mount : string) :
  quiet (Backend.copy_iso_to_ventoy self iso_path mount).
Proof.
  unfold Backend.copy_iso_to_ventoy. apply quiet_try.
  - apply quiet_bind; [apply quiet_get_world|]. intros w0.
    destruct (negb _); [apply quiet_log|].
    apply quiet_bind; [apply quiet_log|]. intros _.
    apply quiet_bind; [apply quiet_copy2|]. intros _. apply quiet_log.
  - intros e h [= <-]. apply quiet_log.
Qed.

Lemma quiet_validate_operation (target : string) : quiet (Gui.validate_operation target).
Proof.
  unfold Gui.validate_operation. apply quiet_try; [apply quiet_log_message|].
  intros e h [= <-]. apply quiet_log_message.
Qed.

Lemma quiet_compute_sha256 (self : FlashUtility) (p : string) :
  quiet (Backend.compute_sha256 self p).
Proof.
  unfold Backend.compute_sha256. apply quiet_try.
  - apply quiet_bind; [apply quiet_open_rb|]. intros bs. apply quiet_ret.
  - intros e h [= <-]. apply quiet_bind; [apply quiet_log|]. intros _. apply quiet_ret.
Qed.

(** *** The commands of the raw write *)

Lemma run_dd_command_events (env : Env) (self : FlashUtility) (iso dev : string) (w : World) :
  events (snd (Backend.run_dd_command env self iso dev w))
  = (events w ++ if String.eqb (os_type self) "Linux" then [Shell (dd_command iso dev)] else [])%list.
Proof.
  unfold Backend.run_dd_command.
  destruct (String.eqb (os_type self) "Linux").
  - unfold try_except. rewrite bind_run, log_run, bind_run. unfold subprocess_run.
    fold (dd_command iso dev).
    destruct (env_shell env _ _); cbv beta iota;
      cbn [is_CalledProcessError class_of]; rewrite log_run; cbn [snd];
      rewrite logged_events; cbn [events add_event];
      now rewrite logged_events.
  - rewrite app_nil_r.
    assert (Hq : quiet (try_except
                 (if String.eqb (os_type self) "Windows"
                  then Backend.log self "dd command is not natively supported on Windows. Please install a dd equivalent." LOG_WARNING
                  else Backend.log self "Unsupported OS for dd flashing." LOG_ERROR)
                 (fun e => if is_CalledProcessError e
                           then Some (Backend.log self ("Error during flashing: " ++ str_e e) LOG_ERROR)
                           else Some (Backend.log self ("Unexpected error: " ++ str_e e) LOG_ERROR)))).
    { apply quiet_try.
      - destruct (String.eqb _ _); apply quiet_log.
      - intros e h. destruct (is_CalledProcessError e); intros [= <-]; apply quiet_log. }
    apply Hq.
Qed.

Lemma flash_usb_events (env : Env) (w : World) :
  events (snd (Gui.flash_usb env w)) = (events w ++ flash_commands (window w))%list.
Proof.
  unfold Gui.flash_usb, flash_commands. rewrite bind_run. cbn [get_world].
  destruct (String.eqb (selected_iso_path (window w)) EmptyString).
  { rewrite quiet_log_message. now rewrite app_nil_r. }
  destruct (dd_mode_radio (window w)).
  - rewrite bind_run.
    destruct (Gui.first_token (usb_device_combo (window w)) w) as [[dev|e] w1] eqn:Hft.
    + pose proof (first_token_nonempty _ _ _ _ Hft) as Hne.
      unfold Gui.first_token in Hft.
      destruct (PyStr.split (PyStr.strip (usb_device_combo (window w)))) as [|x l];
        [discriminate|].
      injection Hft as <- <-. rewrite Hne.
      rewrite bind_run, log_message_run, bind_run.
      pose proof (run_dd_command_returns_None env (flash_util (window w))
                    (selected_iso_path (window w)) x
                    (set_window (shown "Starting dd flashing process..." LOG_INFO (window w)) w))
        as Hr.
      pose proof (run_dd_command_events env (flash_util (window w))
                    (selected_iso_path (window w)) x
                    (set_window (shown "Starting dd flashing process..." LOG_INFO (window w)) w))
        as He.
      destruct (Backend.run_dd_command _ _ _ _ _) as [r w2]. cbn [fst snd] in *. subst r.
      rewrite quiet_validate_operation. exact He.
    + unfold Gui.first_token in Hft.
      destruct (PyStr.split (PyStr.strip (usb_device_combo (window w)))) as [|x l];
        [|discriminate].
      injection Hft as <- <-. now rewrite app_nil_r.
  - rewrite app_nil_r.
    destruct (ventoy_mode_radio (window w)); [|apply quiet_log_message].
    destruct (String.eqb _ EmptyString); [apply quiet_log_message|].
    apply (quiet_bind (log_message _ _)); [apply quiet_log_message|]. intros _.
    apply (quiet_bind (Backend.copy_iso_to_ventoy _ _ _));
      [apply quiet_copy_iso_to_ventoy|]. intros _.
    apply quiet_validate_operation.
Qed.

(** *** Verification *)

Lemma validate_against_run (items : list (string * os_info))
      (iso_name computed_hash : string) (w : World) :
  Gui.validate_against items iso_name computed_hash w
  = match compare_against items iso_name computed_hash with
    | Match os_name =>
        (Ret true, noted ("ISO validation passed for " ++ os_name ++ ".") LOG_INFO w)
    | Mismatch os_name expected_hash computed =>
        (Ret true, mismatch_reported os_name expected_hash computed w)
    | _ => (Ret false, w)
    end.
Proof.
  induction items as [|[os_name info] rest IH]; [reflexivity|].
  cbn [Gui.validate_against compare_against].
  destruct (PyStr.contains _ _); [|exact IH].
  destruct (String.eqb computed_hash (hash info)).
  - rewrite bind_run, log_message_run. reflexivity.
  - rewrite bind_run, bind_run, log_message_run. reflexivity.
Qed.

Lemma compare_against_verdict (items : list (string * os_info)) (iso_name computed : string) :
  match compare_against items iso_name computed with
  | NoSelection | Unreadable => False
  | _ => True
  end.
Proof.
  induction items as [|[os_name info] rest IH]; [exact I|].
  cbn [compare_against]. destruct (PyStr.contains _ _); [|exact IH].
  now destruct (String.eqb _ _).
Qed.

Lemma validate_iso_mismatch (w : World) (os_name expected_hash computed_hash : string) :
  verification w = Mismatch os_name expected_hash computed_hash ->
  Gui.validate_iso w = (Ret tt, mismatch_reported os_name expected_hash computed_hash w).
Proof.
  unfold verification, Gui.validate_iso. rewrite bind_run. cbn [get_world].
  destruct (String.eqb (selected_iso_path (window w)) EmptyString); [discriminate|].
  destruct (node_at (fs w) (selected_iso_path (window w))) as [[content|]|] eqn:Hn;
    try discriminate.
  rewrite bind_run, (compute_sha256_run content) by assumption.
  destruct (String.eqb (Sha256.sha256_hex content) EmptyString); [discriminate|].
  intros Hv. rewrite bind_run. cbn [get_world]. rewrite bind_run, validate_against_run, Hv.
  reflexivity.
Qed.

(** C1, as amended.  When the verification of the selected image yields a
    mismatch, [validate_iso] reports it (a WARNING in the log pane, a line in
    the status pane) and does nothing else: it runs no command, changes no
    file, keeps the selection and records no verdict.  A flash operation does
    not consult the verification: before and after it, [flash_usb] issues
    exactly the commands the selection, the mode, the device text and the
    host determine; in dd mode on Linux with a device token that is the [dd]
    write of the mismatching image. *)
Theorem mismatch_is_reported_and_does_not_gate
        (env : Env) (w : World) (os_name expected_hash computed_hash : string) :
  verification w = Mismatch os_name expected_hash computed_hash ->
  let w1 := mismatch_reported os_name expected_hash computed_hash w in
  Gui.validate_iso w = (Ret tt, w1)
  /\ events w1 = events w
  /\ fs w1 = fs w
  /\ PREDEFINED_OS w1 = PREDEFINED_OS w
  /\ selected_iso_path (window w1) = selected_iso_path (window w)
  /\ events (snd (Gui.flash_usb env w)) = (events w ++ flash_commands (window w))%list
  /\ events (snd (Gui.flash_usb env w1)) = (events w ++ flash_commands (window w))%list
  /\ (forall usb_device rest,
        dd_mode_radio (window w) = true ->
        os_type (flash_util (window w)) = "Linux" ->
        PyStr.split (PyStr.strip (usb_device_combo (window w))) = usb_device :: rest ->
        flash_commands (window w)
        = [Shell (dd_command (selected_iso_path (window w)) usb_device)]).
Proof.
  intros Hv. cbn zeta.
  assert (Hw : flash_commands (window (mismatch_reported os_name expected_hash computed_hash w))
               = flash_commands (window w)).
  { unfold mismatch_reported, shown, flash_commands.
    now destruct (log_level (window w) <=? LOG_WARNING). }
  assert (Hsel : String.eqb (selected_iso_path (window w)) EmptyString = false).
  { unfold verification in Hv.
    now destruct (String.eqb (selected_iso_path (window w)) EmptyString). }
  repeat split.
  - now apply validate_iso_mismatch.
  - unfold mismatch_reported, shown. now destruct (log_level (window w) <=? LOG_WARNING).
  - apply flash_usb_events.
  - rewrite flash_usb_events, Hw. reflexivity.
  - intros usb_device rest Hdd HL Hs. unfold flash_commands.
    now rewrite Hsel, Hdd, Hs, HL.
Qed.

Lemma mismatch_is_reported_and_does_not_gate_witness :
  verification world_example
  = Mismatch "Arch Linux" "dummyhash_arch"
             "ba7816bf8f01cfea414140de5dae2223b00361a396177a9cb410ff61f20015ad" /\
  events (snd (Gui.flash_usb env_offline
                 (mismatch_reported "Arch Linux" "dummyhash_arch"
                    "ba7816bf8f01cfea414140de5dae2223b00361a396177a9cb410ff61f20015ad"
                    world_example)))
  = (events world_example ++ flash_commands (window world_example))%list.
Proof.
  assert (Hv : verification world_example
               = Mismatch "Arch Linux" "dummyhash_arch"
                   "ba7816bf8f01cfea414140de5dae2223b00361a396177a9cb410ff61f20015ad")
    by (vm_compute; reflexivity).
  split; [exact Hv|].
  apply (mismatch_is_reported_and_does_not_gate env_offline world_example _ _ _ Hv).
Defined.

(** C1, as stated, fails: the image selected in [world_example] does not
    match the digest the catalog expects; [validate_iso] says so, and the
    flash that follows runs the [dd] command on the device all the same,
    whether [dd] then succeeds or not. *)
Lemma mismatch_does_not_stop_the_write :
  let w1 := snd (Gui.validate_iso world_example) in
  verification world_example
  = Mismatch "Arch Linux" "dummyhash_arch"
             "ba7816bf8f01cfea414140de5dae2223b00361a396177a9cb410ff61f20015ad"
  /\ status_pane (window w1)
     = ["WARNING: Arch Linux ISO hash mismatch. Expected: dummyhash_arch, Got: ba7816bf8f01cfea414140de5dae2223b00361a396177a9cb410ff61f20015ad"]
  /\ fst (Gui.flash_usb env_offline w1) = Ret tt
  /\ events (snd (Gui.flash_usb env_offline w1))
     = [Shell "sudo dd if=/tmp/ventoy_k3x9/Arch Linux.iso of=/dev/sdb bs=4M status=progress && sync"]
  /\ log_output (window (snd (Gui.flash_usb env_offline w1)))
     = ["[WARNING] WARNING: ISO hash for Arch Linux does not match expected value!";
        "[INFO] Starting dd flashing process...";
        "[INFO] Running dd command: sudo dd if=/tmp/ventoy_k3x9/Arch Linux.iso of=/dev/sdb bs=4M status=progress && sync";
        "[INFO] Flashing complete using dd."]
  /\ events (snd (Gui.flash_usb
                    (with_shell (NonZeroExit "Command returned non-zero exit status 1.")
                                env_offline) w1))
     = [Shell "sudo dd if=/tmp/ventoy_k3x9/Arch Linux.iso of=/dev/sdb bs=4M status=progress && sync"].
Proof. vm_compute. repeat split. Qed.

(** ** Revalidation of the catalog (C9) *)

Section Catalog.

Local Open Scope nat_scope.
Local Open Scope list_scope.

Variable env : Env.

Lemma NoDup_middle {A} (l l' : list A) (a : A) :
  NoDup (l ++ a :: l') -> NoDup (l ++ l') /\ ~ In a l.
Proof.
  rewrite !NoDup_app, NoDup_cons. intros (H1 & H2 & H3 & H4). split.
  - split; [exact H1|]. split; [|exact H4].
    intros x Hx Hx'. apply (H2 x Hx). now right.
  - intros Hin. apply (H2 a); [now apply list_elem_of_In | now left].
Qed.

Lemma dict_remove_middle (k : string) (v : os_info) (kept rest : list (string * os_info)) :
  ~ In k (map fst kept) ->
  Gui.dict_remove k (kept ++ (k, v) :: rest) = kept ++ rest.
Proof.
  induction kept as [|[k' v'] kept IH]; intros Hn; cbn [Gui.dict_remove app].
  - now rewrite String.eqb_refl.
  - cbn in Hn. destruct (String.eqb_spec k' k) as [->|_]; [tauto|].
    f_equal. apply IH. tauto.
Qed.

Lemma dict_has_middle (k : string) (v : os_info) (kept rest : list (string * os_info)) :
  Gui.dict_has k (kept ++ (k, v) :: rest) = true.
Proof.
  unfold Gui.dict_has. rewrite existsb_app. cbn. rewrite String.eqb_refl.
  now rewrite orb_true_r.
Qed.





Lemma requests_head_run (target : string) (w : World) :
  requests_head env target w
  = (match env_head env (now w) target with
     | HeadRaised e => Raise e
     | HeadStatus c => Ret c
     end, add_event (HttpHead target) w).
Proof. unfold requests_head. now destruct (env_head env (now w) target). Qed.

Lemma now_add_event (e : Event) (w : World) : now (add_event e w) = S (now w).
Proof. unfold now. cbn. rewrite length_app. cbn. lia. Qed.

(** One round of the first loop of [validate_os_links]. *)
Lemma collect_unreachable_run (items : list (string * os_info)) (acc : list string) (w : World) :
  exists w',
    Gui.collect_unreachable env items acc w
    = (Ret (acc ++ unreachable_names env (now w) items), w')
    /\ PREDEFINED_OS w' = PREDEFINED_OS w
    /\ fs w' = fs w.
Proof.
  revert acc w. induction items as [|[os_name info] rest IH]; intros acc w.
  - exists w. cbn. now rewrite app_nil_r.
  - cbn [Gui.collect_unreachable unreachable_names].
    rewrite bind_run. unfold try_except at 1. rewrite bind_run, requests_head_run.
    set (w1 := add_event (HttpHead (url info)) w).
    assert (Hn : forall m l, now (noted m l w1) = S (now w)).
    { intros m l. unfold noted, w1. apply now_add_event. }
    unfold url_check.
    destruct (env_head env (now w) (url info)) as [e|c].
    + unfold except_Exception. rewrite bind_run, log_message_noted.
      cbn [mret M_ret].
      destruct (IH (acc ++ [os_name]) (noted ("Error validating URL for " ++ os_name ++ ": " ++ str_e e ++ ". Removing option.")%string LOG_ERROR w1))
        as (w' & Hrun & Hd & Hf).
      exists w'. rewrite Hrun, Hn, <- app_assoc. auto.
    + destruct (c =? 200)%Z; cbn [negb].
      * cbn [mret M_ret].
        destruct (IH acc w1) as (w' & Hrun & Hd & Hf).
        exists w'. rewrite Hrun. unfold w1 at 1. rewrite now_add_event. auto.
      * rewrite bind_run, log_message_noted. cbn [mret M_ret].
        destruct (IH (acc ++ [os_name]) (noted ("Warning: URL for " ++ os_name ++ " returned status " ++ Gui.str_int c ++ ". Removing option.")%string LOG_WARNING w1))
          as (w' & Hrun & Hd & Hf).
        exists w'. rewrite Hrun, Hn, <- app_assoc. auto.
Qed.

(** The second loop of [validate_os_links]. *)
Lemma remove_names_run (names : list string) (w : World) :
  exists w',
    Gui.for_each (fun os_name => Gui.pop_default os_name;; Gui.remove_from_distro_list os_name)
                 names w = (Ret tt, w')
    /\ PREDEFINED_OS w' = fold_left (fun d k => Gui.dict_remove k d) names (PREDEFINED_OS w)
    /\ fs w' = fs w
    /\ events w' = events w.
Proof.
  revert w. induction names as [|k names IH]; intros w.
  - exists w. auto.
  - cbn [Gui.for_each fold_left]. rewrite bind_run, bind_run.
    cbn [Gui.pop_default Gui.remove_from_distro_list modify].
    match goal with |- context [Gui.for_each _ names ?w0] => destruct (IH w0) as (w' & Hrun & Hd & Hf & He) end.
    exists w'. rewrite Hrun. auto.
Qed.


(** One round of the loop of [update_iso_links]. *)
Lemma update_iso_link_run (os_name : string) (info : os_info) (w : World) :
  Gui.dict_has os_name (PREDEFINED_OS w) = true ->
  exists w',
    Gui.update_iso_link env (os_name, info) w = (Ret tt, w')
    /\ PREDEFINED_OS w'
       = (if url_check (env_head env (now w) (url info)) then PREDEFINED_OS w
          else Gui.dict_remove os_name (PREDEFINED_OS w))
    /\ now w' = S (now w)
    /\ fs w' = fs w.
Proof.
  intros Hhas. unfold Gui.update_iso_link. cbn [fst snd].
  unfold try_except. rewrite bind_run, requests_head_run.
  set (w1 := add_event (HttpHead (url info)) w).
  assert (Hpop : forall m l,
    (Gui.pop os_name;; Gui.remove_from_distro_list os_name) (noted m l w1)
    = (Ret tt,
       set_window (set_distro_list (Gui.take_item os_name (distro_list (window (noted m l w1))))
                                   (window (noted m l w1)))
                  (set_PREDEFINED_OS (Gui.dict_remove os_name (PREDEFINED_OS w)) (noted m l w1)))).
  { intros m l. rewrite bind_run. unfold Gui.pop.
    replace (PREDEFINED_OS (noted m l w1)) with (PREDEFINED_OS w) by reflexivity.
    rewrite Hhas. reflexivity. }
  unfold url_check.
  destruct (env_head env (now w) (url info)) as [e|c].
  - unfold except_Exception. rewrite bind_run, log_message_noted, Hpop.
    eexists. split; [reflexivity|]. cbn. repeat split. apply now_add_event.
  - destruct (c =? 200)%Z; cbn [negb].
    + exists w1. repeat split. apply now_add_event.
    + rewrite bind_run, log_message_noted, Hpop.
      eexists. split; [reflexivity|]. cbn. repeat split. apply now_add_event.
Qed.

Lemma update_iso_links_loop (rest kept : list (string * os_info)) (w : World) :
  PREDEFINED_OS w = kept ++ rest ->
  NoDup (map fst (kept ++ rest)) ->
  exists w',
    Gui.for_each (Gui.update_iso_link env) rest w = (Ret tt, w')
    /\ PREDEFINED_OS w' = kept ++ reachable_entries env (now w) rest
    /\ fs w' = fs w.
Proof.
  revert kept w. induction rest as [|[os_name info] rest IH]; intros kept w Hd Hnd.
  - exists w. auto.
  - cbn [Gui.for_each reachable_entries]. rewrite bind_run.
    destruct (update_iso_link_run os_name info w) as (w1 & Hrun & Hd1 & Hn1 & Hf1).
    { rewrite Hd. apply dict_has_middle. }
    rewrite Hrun. rewrite Hd in Hd1.
    destruct (url_check (env_head env (now w) (url info))).
    + destruct (IH (kept ++ [(os_name, info)]) w1) as (w' & Hrun' & Hd' & Hf').
      * now rewrite Hd1, <- app_assoc.
      * now rewrite <- app_assoc.
      * exists w'. rewrite Hrun', Hd', Hn1, <- app_assoc, Hf', Hf1. auto.
    + pose proof Hnd as Hnd'. rewrite map_app in Hnd'. cbn [map fst] in Hnd'.
      apply NoDup_middle in Hnd' as [Hnd' Hin].
      rewrite dict_remove_middle in Hd1 by exact Hin.
      destruct (IH kept w1) as (w' & Hrun' & Hd' & Hf').
      * exact Hd1.
      * now rewrite map_app.
      * exists w'. rewrite Hrun', Hd', Hn1, Hf', Hf1. auto.
Qed.



End Catalog.


Lemma initial_catalog_keys_distinct : NoDup (map fst PREDEFINED_OS_initial).
Proof. apply (bool_decide_unpack _). vm_compute. exact I. Qed.


Example revalidation_example :
  PREDEFINED_OS (snd (Gui.update_iso_links env_only_arch world_example))
  = [("Arch Linux",
      OsInfo "https://mirror.rackspace.com/archlinux/iso/latest/archlinux-x86_64.iso"
             "dummyhash_arch")]
  /\ distro_list (window (snd (Gui.update_iso_links env_only_arch world_example)))
     = ["Arch Linux"]
  /\ length (events (snd (Gui.update_iso_links env_only_arch world_example))) = 18%nat.
Proof. vm_compute. repeat split. Qed.

(** * Further properties *)

(** ** Components a computation keeps *)

Lemma keeps_ret {X A} (f : World -> X) (a : A) : keeps f (mret a : M A).
Proof. intros w. reflexivity. Qed.

Lemma keeps_raise {X A} (f : World -> X) (e : exn) : keeps f (raise e : M A).
Proof. intros w. reflexivity. Qed.

Lemma keeps_get_world {X} (f : World -> X) : keeps f get_world.
Proof. intros w. reflexivity. Qed.

Lemma keeps_bind {X A B} (f : World -> X) (m : M A) (k : A -> M B) :
  keeps f m -> (forall a, keeps f (k a)) -> keeps f (m ≫= k).
Proof.
  intros Hm Hk w. rewrite bind_run. specialize (Hm w).
  destruct (m w) as [[a|e] w1]; cbn [snd] in *; [|exact Hm].
  now rewrite Hk.
Qed.

Lemma keeps_try {X A} (f : World -> X) (body : M A) (handlers : exn -> option (M A)) :
  keeps f body -> (forall e h, handlers e = Some h -> keeps f h) ->
  keeps f (try_except body handlers).
Proof.
  intros Hb Hh w. unfold try_except. specialize (Hb w).
  destruct (body w) as [[a|e] w1]; cbn [snd] in *; [exact Hb|].
  destruct (handlers e) as [h|] eqn:E; [|exact Hb].
  now rewrite (Hh e h E).
Qed.

Lemma keeps_log_message {X} (f : World -> X) (message : string) (level : Z) :
  log_blind f -> keeps f (log_message message level).
Proof.
  intros Hf w. unfold log_message.
  destruct (log_level (window w) <=? level); [apply Hf | reflexivity].
Qed.

Lemma keeps_log {X} (f : World -> X) (self : FlashUtility) (message : string) (level : Z) :
  log_blind f -> keeps f (Backend.log self message level).
Proof.
  intros Hf. unfold Backend.log. destruct (log_callback self) as [[]|].
  - now apply keeps_log_message.
  - intros w. apply Hf.
Qed.

Lemma keeps_subprocess_run {X} (f : World -> X) (env : Env) (command : string) :
  event_blind f -> keeps f (subprocess_run env command).
Proof.
  intros Hf w. unfold subprocess_run. destruct (env_shell env (now w) command); apply Hf.
Qed.

Lemma fs_log_blind : log_blind fs.
Proof. intros w line. split; reflexivity. Qed.

Lemma fs_event_blind : event_blind fs.
Proof. intros w e. reflexivity. Qed.

Lemma catalog_log_blind : log_blind PREDEFINED_OS.
Proof. intros w line. split; reflexivity. Qed.

Lemma catalog_event_blind : event_blind PREDEFINED_OS.
Proof. intros w e. reflexivity. Qed.

Lemma selection_log_blind : log_blind selection.
Proof. intros w line. split; reflexivity. Qed.

Lemma selection_event_blind : event_blind selection.
Proof. intros w e. reflexivity. Qed.

Lemma events_log_blind : log_blind events.
Proof. intros w line. split; reflexivity. Qed.

(** A logged command: the command is the one event, whatever its outcome. *)
Lemma logged_command_events (env : Env) (self : FlashUtility)
      (m1 m2 command : string) (l1 l2 : Z) (h : exn -> option (M unit)) (w : World) :
  (forall e, exists m l, h e = Some (Backend.log self m l)) ->
  events (snd (try_except
                 (Backend.log self m1 l1;; subprocess_run env command;;
                  Backend.log self m2 l2) h w))
  = (events w ++ [Shell command])%list.
Proof.
  intros Hh. unfold try_except. rewrite bind_run, log_run, bind_run.
  unfold subprocess_run.
  destruct (env_shell env _ _) as [|s|s]; cbv beta iota.
  - rewrite log_run. cbn [snd]. rewrite logged_events. cbn [events add_event].
    now rewrite logged_events.
  - destruct (Hh (Exn CalledProcessError s)) as (m & l & ->). rewrite log_run.
    cbn [snd]. rewrite logged_events. cbn [events add_event]. now rewrite logged_events.
  - destruct (Hh (Exn OSError s)) as (m & l & ->). rewrite log_run.
    cbn [snd]. rewrite logged_events. cbn [events add_event]. now rewrite logged_events.
Qed.

Lemma try_log_quiet (self : FlashUtility) (m : string) (l : Z)
      (h : exn -> option (M unit)) :
  quiet (try_except (Backend.log self m l) h).
Proof. intros w. unfold try_except. rewrite log_run. apply logged_events. Qed.

(** ** The backend's [reformat_usb] *)

Lemma reformat_usb_events
      (env : Env) (self : FlashUtility) (usb_device scheme : string) (w : World) :
  events (snd (Backend.reformat_usb env self usb_device scheme w))
  = (events w ++ if String.eqb (os_type self) "Linux"
                 then parted_commands usb_device scheme else [])%list.
Proof.
  unfold Backend.reformat_usb, parted_commands.
  assert (Hh : forall e, exists m l,
    (fun e => if is_CalledProcessError e
              then Some (Backend.log self ("Error during reformatting: " ++ str_e e) LOG_ERROR)
              else Some (Backend.log self ("Unexpected error: " ++ str_e e) LOG_ERROR)) e
    = Some (Backend.log self m l)).
  { intros e. destruct (is_CalledProcessError e); eauto. }
  destruct (String.eqb (os_type self) "Linux").
  - destruct (String.eqb (PyStr.lower scheme) "gpt");
      [now apply logged_command_events|].
    destruct (String.eqb (PyStr.lower scheme) "mbr");
      [now apply logged_command_events|].
    rewrite app_nil_r. apply try_log_quiet.
  - rewrite app_nil_r.
    destruct (String.eqb (os_type self) "Windows"); apply try_log_quiet.
Qed.

Lemma reformat_usb_keeps {X} (f : World -> X)
      (env : Env) (self : FlashUtility) (usb_device scheme : string) :
  log_blind f -> event_blind f ->
  keeps f (Backend.reformat_usb env self usb_device scheme).
Proof.
  intros Hl He. apply keeps_try.
  - destruct (String.eqb (os_type self) "Linux").
    + assert (Hrun : forall c, keeps f
                (Backend.log self ("Reformatting USB drive with command: " ++ c) LOG_INFO;;
                 subprocess_run env c;;
                 Backend.log self "USB drive reformatted successfully." LOG_INFO)).
      { intros c. apply keeps_bind; [now apply keeps_log|]. intros _.
        apply keeps_bind; [now apply keeps_subprocess_run|]. intros _.
        now apply keeps_log. }
      destruct (String.eqb (PyStr.lower scheme) "gpt"); [apply Hrun|].
      destruct (String.eqb (PyStr.lower scheme) "mbr"); [apply Hrun|].
      now apply keeps_log.
    + destruct (String.eqb (os_type self) "Windows"); now apply keeps_log.
  - intros e h. destruct (is_CalledProcessError e); intros [= <-]; now apply keeps_log.
Qed.

(** X1.  Whatever the outcome of the command, the backend's [reformat_usb]
    asks the shell for exactly what [parted_commands] lists when the host is
    Linux (one [parted ... mklabel] for the scheme [gpt] or [mbr], in any
    letter case, and nothing for any other scheme) and for nothing on any
    other host; the file system, the catalog and the selected image are as
    before. *)
Theorem reformat_usb_commands
        (env : Env) (self : FlashUtility) (usb_device scheme : string) (w : World) :
  let w' := snd (Backend.reformat_usb env self usb_device scheme w) in
  events w'
  = (events w ++ if String.eqb (os_type self) "Linux"
                 then parted_commands usb_device scheme else [])%list
  /\ fs w' = fs w
  /\ PREDEFINED_OS w' = PREDEFINED_OS w
  /\ selection w' = selection w.
Proof.
  cbn zeta. split; [apply reformat_usb_events|].
  split; [apply (reformat_usb_keeps fs); [apply fs_log_blind | apply fs_event_blind]|].
  split; [apply (reformat_usb_keeps PREDEFINED_OS);
          [apply catalog_log_blind | apply catalog_event_blind]|].
  apply (reformat_usb_keeps selection);
    [apply selection_log_blind | apply selection_event_blind].
Qed.

Example reformat_scheme_case :
  parted_commands "/dev/sdb" "GPT" = [Shell "sudo parted /dev/sdb mklabel gpt"]
  /\ parted_commands "/dev/sdb" "Mbr" = [Shell "sudo parted /dev/sdb mklabel msdos"]
  /\ parted_commands "/dev/sdb" "ext4" = [].
Proof. repeat split. Qed.

(** ** The slot [reformat_usb] *)

Lemma first_token_run (text : string) (w : World) :
  Gui.first_token text w
  = (match PyStr.split (PyStr.strip text) with
     | [] => Raise index_error
     | x :: _ => Ret x
     end, w).
Proof. unfold Gui.first_token. now destruct (PyStr.split (PyStr.strip text)). Qed.

Lemma split_head_nonempty (text x : string) (l : list string) :
  PyStr.split (PyStr.strip text) = x :: l -> String.eqb x EmptyString = false.
Proof.
  intros H. pose proof (split_aux_nonempty (PyStr.strip text) []) as HF.
  fold (PyStr.split (PyStr.strip text)) in HF. rewrite H in HF.
  apply String.eqb_neq. now inversion HF.
Qed.

(** X2.  The slot [reformat_usb] asks before it runs: with a device token
    in the combo box its first request is the confirmation dialog, and the
    [parted] command follows only when the answer is Yes and the host is
    Linux; without a token it asks for nothing at all. *)
Theorem reformat_asks_before_it_runs (env : Env) (w : World) :
  let self := window w in
  events (snd (Gui.reformat_usb env w))
  = (events w ++
     match PyStr.split (PyStr.strip (usb_device_combo self)) with
     | [] => []
     | usb_device :: _ =>
         Dialog "Warning: Reformat USB" ::
         (if env_reply env (now w) "Warning: Reformat USB"
             && String.eqb (os_type (flash_util self)) "Linux"
          then parted_commands usb_device (reformat_combo self)
          else [])
     end)%list.
Proof.
  cbn zeta. unfold Gui.reformat_usb. rewrite bind_run. cbn [get_world].
  rewrite bind_run, first_token_run.
  destruct (PyStr.split (PyStr.strip (usb_device_combo (window w)))) as [|x l] eqn:Hs.
  - cbn [snd]. now rewrite app_nil_r.
  - rewrite (split_head_nonempty _ _ _ Hs). rewrite bind_run. unfold message_box.
    destruct (env_reply env (now w) "Warning: Reformat USB"); cbn [andb].
    + rewrite reformat_usb_events. cbn [events add_event].
      rewrite <- app_assoc. reflexivity.
    + rewrite quiet_log_message. reflexivity.
Qed.

(** ** Exceptions that do not leave the backend *)

Lemma returns_ret {A} (a : A) : returns (mret a : M A).
Proof. intros w. now exists a. Qed.

Lemma returns_bind {A B} (m : M A) (k : A -> M B) :
  returns m -> (forall a, returns (k a)) -> returns (m ≫= k).
Proof.
  intros Hm Hk w. rewrite bind_run. destruct (Hm w) as [a Ha].
  destruct (m w) as [[a'|e] w1]; cbn [fst] in Ha; [|discriminate]. apply Hk.
Qed.

Lemma returns_try {A} (body : M A) (handlers : exn -> option (M A)) :
  (forall e, exists h, handlers e = Some h /\ returns h) ->
  returns (try_except body handlers).
Proof.
  intros Hh w. unfold try_except.
  destruct (body w) as [[a|e] w1]; [now exists a|].
  destruct (Hh e) as (h & -> & Hr). apply Hr.
Qed.

Lemma returns_log (self : FlashUtility) (m : string) (l : Z) :
  returns (Backend.log self m l).
Proof. intros w. exists tt. now rewrite log_run. Qed.

Lemma returns_log_message (m : string) (l : Z) : returns (log_message m l).
Proof. intros w. exists tt. now rewrite log_message_run. Qed.

Lemma returns_unit (m : M unit) : returns m -> forall w, fst (m w) = Ret tt.
Proof. intros H w. destruct (H w) as [[] Ha]. exact Ha. Qed.

Lemma returns_cleanup env self : returns (Backend.cleanup env self).
Proof.
  apply returns_try. intros e. eexists. split; [reflexivity|]. apply returns_log.
Qed.

Lemma returns_copy_iso_to_ventoy self a b : returns (Backend.copy_iso_to_ventoy self a b).
Proof.
  apply returns_try. intros e. eexists. split; [reflexivity|]. apply returns_log.
Qed.

Lemma returns_extract_archive env self a b : returns (Backend.extract_archive env self a b).
Proof.
  apply returns_bind; [apply returns_log|]. intros _.
  apply returns_try. intros e. eexists. split; [reflexivity|].
  apply returns_bind; [apply returns_log|]. intros _. apply returns_ret.
Qed.

Lemma returns_compute_sha256 self a : returns (Backend.compute_sha256 self a).
Proof.
  apply returns_try. intros e. eexists. split; [reflexivity|].
  apply returns_bind; [apply returns_log|]. intros _. apply returns_ret.
Qed.

Lemma returns_get_usb_details env self a : returns (Backend.get_usb_details env self a).
Proof.
  apply returns_try. intros e. eexists. split; [reflexivity|]. apply returns_ret.
Qed.

(** X3.  No exception leaves [cleanup], [copy_iso_to_ventoy],
    [extract_archive], [compute_sha256] or [get_usb_details]: in every world
    and environment each of them returns, a failure being logged or turned
    into the returned value. *)
Theorem backend_catches_what_it_raises
        (env : Env) (self : FlashUtility) (a b : string) (w : World) :
  fst (Backend.cleanup env self w) = Ret tt
  /\ fst (Backend.copy_iso_to_ventoy self a b w) = Ret tt
  /\ (exists ok, fst (Backend.extract_archive env self a b w) = Ret ok)
  /\ (exists digest, fst (Backend.compute_sha256 self a w) = Ret digest)
  /\ (exists details, fst (Backend.get_usb_details env self a w) = Ret details).
Proof.
  split; [apply returns_unit, returns_cleanup|].
  split; [apply returns_unit, returns_copy_iso_to_ventoy|].
  split; [apply returns_extract_archive|].
  split; [apply returns_compute_sha256 | apply returns_get_usb_details].
Qed.

(** ** The logging level *)

(** X4.  [set_log_level] stores the level first and logs its confirmation
    at INFO afterwards, so the confirmation is filtered by the new level: it
    is appended to the log pane exactly when the new level is at most INFO,
    and choosing WARNING or ERROR leaves no trace.  Nothing else changes. *)
Theorem set_log_level_confirmation (level : Z) (w : World) :
  exists w',
    Gui.set_log_level level w = (Ret tt, w')
    /\ log_level (window w') = level
    /\ log_output (window w')
       = (log_output (window w) ++
          if level <=? LOG_INFO
          then [log_line LOG_INFO ("Logging level set to " ++ level_name level ++ ".")]
          else [])%list
    /\ fs w' = fs w /\ events w' = events w /\ selection w' = selection w.
Proof.
  unfold Gui.set_log_level. rewrite bind_run. cbn [modify].
  rewrite log_message_run. eexists. split; [reflexivity|].
  unfold shown. cbn [window set_window log_level set_log_level_field].
  destruct (level <=? LOG_INFO); cbn; rewrite ?app_nil_r; repeat split.
Qed.

Example set_log_level_menu :
  log_output (window (snd (Gui.set_log_level LOG_DEBUG world_example)))
  = ["[INFO] Logging level set to DEBUG."]
  /\ log_output (window (snd (Gui.set_log_level LOG_WARNING world_example))) = []
  /\ log_output (window (snd (Gui.set_log_level LOG_ERROR world_example))) = [].
Proof. repeat split. Qed.

(** ** The device token *)

Lemma lstrip_app_blank (ws s : string) :
  blank ws = true -> PyStr.lstrip (ws ++ s) = PyStr.lstrip s.
Proof.
  unfold blank. induction ws as [|c r IH]; [reflexivity|].
  cbn [list_ascii_of_string forallb]. intros H.
  apply andb_true_iff in H as [Hc Hr].
  change (PyStr.lstrip (String c r ++ s))
    with (if PyStr.is_space c then PyStr.lstrip (r ++ s) else String c (r ++ s)).
  rewrite Hc. now apply IH.
Qed.

Lemma rstrip_cons (c : ascii) (r : string) :
  PyStr.is_space c = false -> PyStr.rstrip (String c r) = String c (PyStr.rstrip r).
Proof.
  intros Hc. cbn [PyStr.rstrip]. rewrite Hc. now destruct (PyStr.rstrip r).
Qed.

Lemma rstrip_app_spaceless (dev s : string) :
  spaceless dev = true -> PyStr.rstrip (dev ++ s) = dev ++ PyStr.rstrip s.
Proof.
  unfold spaceless. induction dev as [|c r IH]; [reflexivity|].
  cbn [list_ascii_of_string forallb]. intros H.
  apply andb_true_iff in H as [Hc Hr]. apply negb_true_iff in Hc.
  change (String c r ++ s) with (String c (r ++ s)).
  rewrite rstrip_cons by assumption. now rewrite IH.
Qed.

Lemma rstrip_breaks_word (s : string) :
  breaks_word s = true -> breaks_word (PyStr.rstrip s) = true.
Proof.
  destruct s as [|c r]; [reflexivity|]. cbn [breaks_word PyStr.rstrip]. intros Hc.
  rewrite Hc. now destruct (PyStr.rstrip r).
Qed.

Lemma split_aux_spaceless (dev s : string) (cur : list ascii) :
  spaceless dev = true ->
  PyStr.split_aux cur (dev ++ s)
  = PyStr.split_aux (rev (list_ascii_of_string dev) ++ cur)%list s.
Proof.
  unfold spaceless. revert cur. induction dev as [|c r IH]; intros cur; [reflexivity|].
  cbn [list_ascii_of_string forallb]. intros H.
  apply andb_true_iff in H as [Hc Hr]. apply negb_true_iff in Hc.
  change (PyStr.split_aux cur (String c r ++ s))
    with (if PyStr.is_space c
          then match cur with
               | [] => PyStr.split_aux [] (r ++ s)
               | _ => string_of_list_ascii (rev cur) :: PyStr.split_aux [] (r ++ s)
               end
          else PyStr.split_aux (c :: cur) (r ++ s)).
  rewrite Hc, IH by assumption. cbn [rev]. now rewrite <- app_assoc.
Qed.

Lemma split_aux_word (cur : list ascii) (s : string) :
  cur <> [] -> breaks_word s = true ->
  exists l, PyStr.split_aux cur s = string_of_list_ascii (rev cur) :: l.
Proof.
  intros Hne Hb. destruct s as [|c r]; cbn [PyStr.split_aux breaks_word] in *.
  - destruct cur; [congruence|]. eauto.
  - rewrite Hb. destruct cur; [congruence|]. eauto.
Qed.

Lemma lstrip_spaceless (dev s : string) :
  spaceless dev = true -> dev <> EmptyString -> PyStr.lstrip (dev ++ s) = dev ++ s.
Proof.
  unfold spaceless. destruct dev as [|c r]; [congruence|].
  cbn [list_ascii_of_string forallb]. intros H _.
  apply andb_true_iff in H as [Hc _]. apply negb_true_iff in Hc.
  change (PyStr.lstrip (String c r ++ s))
    with (if PyStr.is_space c then PyStr.lstrip (r ++ s) else String c (r ++ s)).
  now rewrite Hc.
Qed.

(** X5.  The device a slot works on is the first word of the combo box
    text: leading white space is skipped and the device ends at the first
    white space, so an entry such as [/dev/sdb - SanDisk (8G)] yields
    [/dev/sdb]. *)
Theorem first_token_is_the_leading_word (ws dev rest : string) (w : World) :
  blank ws = true ->
  spaceless dev = true ->
  dev <> EmptyString ->
  breaks_word rest = true ->
  Gui.first_token (ws ++ dev ++ rest) w = (Ret dev, w).
Proof.
  intros Hws Hdev Hne Hrest. rewrite first_token_run. unfold PyStr.strip, PyStr.split.
  rewrite lstrip_app_blank, lstrip_spaceless, rstrip_app_spaceless by assumption.
  rewrite split_aux_spaceless by assumption. rewrite app_nil_r.
  destruct (split_aux_word (rev (list_ascii_of_string dev)) (PyStr.rstrip rest))
    as [l Hl].
  - destruct dev; [congruence|]. cbn. now destruct (rev (list_ascii_of_string dev)).
  - now apply rstrip_breaks_word.
  - rewrite Hl, rev_involutive, string_of_list_ascii_of_string. reflexivity.
Qed.

Lemma first_token_is_the_leading_word_witness :
  blank "  " = true /\ spaceless "/dev/sdb" = true /\ "/dev/sdb" <> EmptyString
  /\ breaks_word " - SanDisk (8G)" = true
  /\ Gui.first_token ("  " ++ "/dev/sdb" ++ " - SanDisk (8G)") world_example
     = (Ret "/dev/sdb", world_example).
Proof.
  repeat (split; [reflexivity || discriminate|]).
  apply (first_token_is_the_leading_word "  " "/dev/sdb" " - SanDisk (8G)" world_example);
    reflexivity || discriminate.
Defined.

(** ** Exceptions that leave a slot *)

Lemma returns_try_logs (self : FlashUtility) (body : M unit) (h : exn -> option (M unit)) :
  (forall e, exists m l, h e = Some (Backend.log self m l)) ->
  returns (try_except body h).
Proof.
  intros Hh. apply returns_try. intros e. destruct (Hh e) as (m & l & ->).
  eexists. split; [reflexivity|]. apply returns_log.
Qed.

Lemma returns_run_dd_command env self iso dev : returns (Backend.run_dd_command env self iso dev).
Proof.
  apply (returns_try_logs self). intros e. destruct (is_CalledProcessError e); eauto.
Qed.

Lemma returns_reformat_usb env self dev scheme :
  returns (Backend.reformat_usb env self dev scheme).
Proof.
  apply (returns_try_logs self). intros e. destruct (is_CalledProcessError e); eauto.
Qed.

Lemma returns_install_ventoy env self dev : returns (Backend.install_ventoy env self dev).
Proof.
  apply (returns_try_logs self). intros e. destruct (is_CalledProcessError e); eauto.
Qed.

Lemma returns_validate_operation target : returns (Gui.validate_operation target).
Proof.
  apply returns_try. intros e. eexists. split; [reflexivity|]. apply returns_log_message.
Qed.

Lemma returns_get_world : returns get_world.
Proof. intros w. now exists w. Qed.

Lemma returns_modify (f : World -> World) : returns (modify f).
Proof. intros w. now exists tt. Qed.

Lemma returns_message_box env title : returns (message_box env title).
Proof. intros w. eexists. reflexivity. Qed.

Lemma returns_validate_against items iso computed :
  returns (Gui.validate_against items iso computed).
Proof.
  intros w. rewrite validate_against_run.
  destruct (compare_against items iso computed); eexists; reflexivity.
Qed.

Lemma returns_validate_iso : returns Gui.validate_iso.
Proof.
  unfold Gui.validate_iso. apply returns_bind; [apply returns_get_world|]. intros w.
  destruct (String.eqb _ _); [apply returns_log_message|].
  apply returns_bind; [apply returns_compute_sha256|]. intros [digest|];
    [|apply returns_log_message].
  destruct (String.eqb digest EmptyString); [apply returns_log_message|].
  apply returns_bind; [apply returns_get_world|]. intros w0.
  apply returns_bind; [apply returns_validate_against|]. intros found.
  destruct (negb found); [apply returns_log_message | apply returns_ret].
Qed.

Lemma returns_gui_install_ventoy env : returns (Gui.install_ventoy env).
Proof.
  unfold Gui.install_ventoy. apply returns_bind; [apply returns_get_world|]. intros w.
  destruct (dd_mode_radio (window w)); [apply returns_log_message|].
  destruct (String.eqb _ _); [apply returns_log_message|].
  apply returns_bind; [apply returns_log_message|]. intros _.
  apply returns_install_ventoy.
Qed.

Lemma returns_closeEvent env : returns (Gui.closeEvent env).
Proof.
  unfold Gui.closeEvent. apply returns_bind; [apply returns_message_box|].
  intros [|]; [|apply returns_ret].
  apply returns_bind; [apply returns_get_world|]. intros w.
  apply returns_bind; [apply returns_cleanup|]. intros _. apply returns_ret.
Qed.

Lemma returns_validate_os_links env : returns (Gui.validate_os_links env).
Proof.
  intros w. unfold Gui.validate_os_links. rewrite bind_run. cbn [get_world].
  rewrite bind_run.
  destruct (collect_unreachable_run env (PREDEFINED_OS w) [] w) as (w1 & Hrun & _).
  rewrite Hrun.
  destruct (remove_names_run (([] ++ unreachable_names env (now w) (PREDEFINED_OS w))%list) w1)
    as (w2 & Hrun2 & _).
  exists tt. now rewrite Hrun2.
Qed.

(** X6.  Which slots let an exception escape: [flash_usb] raises the
    [IndexError] of [split()[0]] exactly when an image is selected, dd mode
    is on and the combo box holds no token; [reformat_usb] and
    [get_usb_details] raise it exactly when the combo box holds no token;
    [validate_iso], [install_ventoy], [validate_os_links] and [closeEvent]
    always return. *)
Theorem slots_raise_only_without_a_device (env : Env) (w : World) :
  let self := window w in
  fst (Gui.flash_usb env w)
  = (if negb (String.eqb (selected_iso_path self) EmptyString)
        && dd_mode_radio self && no_token w
     then Raise index_error else Ret tt)
  /\ fst (Gui.reformat_usb env w) = (if no_token w then Raise index_error else Ret tt)
  /\ fst (Gui.get_usb_details env w) = (if no_token w then Raise index_error else Ret tt)
  /\ fst (Gui.validate_iso w) = Ret tt
  /\ fst (Gui.install_ventoy env w) = Ret tt
  /\ fst (Gui.validate_os_links env w) = Ret tt
  /\ (exists accepted, fst (Gui.closeEvent env w) = Ret accepted).
Proof.
  cbn zeta. unfold no_token.
  split; [|split; [|split; [|split; [|split; [|split]]]]].
  - unfold Gui.flash_usb. rewrite bind_run. cbn [get_world].
    destruct (String.eqb (selected_iso_path (window w)) EmptyString); cbn [negb andb];
      [apply returns_unit, returns_log_message|].
    destruct (dd_mode_radio (window w)); cbn [andb].
    + rewrite bind_run, first_token_run.
      destruct (PyStr.split (PyStr.strip (usb_device_combo (window w)))) as [|x l] eqn:Hs;
        [reflexivity|].
      rewrite (split_head_nonempty _ _ _ Hs).
      apply returns_unit.
      apply returns_bind; [apply returns_log_message|]. intros _.
      apply returns_bind; [apply returns_run_dd_command|]. intros _.
      apply returns_validate_operation.
    + destruct (ventoy_mode_radio (window w)); [|apply returns_unit, returns_log_message].
      destruct (String.eqb _ EmptyString); [apply returns_unit, returns_log_message|].
      apply returns_unit.
      apply returns_bind; [apply returns_log_message|]. intros _.
      apply returns_bind; [apply returns_copy_iso_to_ventoy|]. intros _.
      apply returns_validate_operation.
  - unfold Gui.reformat_usb. rewrite bind_run. cbn [get_world].
    rewrite bind_run, first_token_run.
    destruct (PyStr.split (PyStr.strip (usb_device_combo (window w)))) as [|x l] eqn:Hs;
      [reflexivity|].
    rewrite (split_head_nonempty _ _ _ Hs).
    apply returns_unit.
    apply returns_bind; [apply returns_message_box|]. intros [|];
      [apply returns_reformat_usb | apply returns_log_message].
  - unfold Gui.get_usb_details. rewrite bind_run. cbn [get_world].
    rewrite bind_run, first_token_run.
    destruct (PyStr.split (PyStr.strip (usb_device_combo (window w)))) as [|x l] eqn:Hs;
      [reflexivity|].
    rewrite (split_head_nonempty _ _ _ Hs).
    apply returns_unit.
    apply returns_bind; [apply returns_get_usb_details|]. intros details.
    apply returns_modify.
  - apply returns_unit, returns_validate_iso.
  - apply returns_unit, returns_gui_install_ventoy.
  - apply returns_unit, returns_validate_os_links.
  - apply returns_closeEvent.
Qed.

(** ** A device text is checked for blankness only (C2) *)







(** ** Downloads *)

(** The world after a download that arrived in full. *)
Lemma download_file_run
      (env : Env) (self : FlashUtility) (target dest_filename h : string)
      (c : Z) (r : list byte) (w : World) :
  let dest_path := PyStr.path_join (temp_dir self) dest_filename in
  env_get env (now w) target = GetResponse c h r None ->
  accepted_status c = true ->
  can_create (fs w) dest_path = true ->
  Backend.download_file env self target dest_filename w
  = (Ret (Some dest_path),
     logged self ("Download complete: " ++ dest_path) LOG_INFO
       (set_fs (<[dest_path := File r]> (fs w))
          (add_event (HttpGet target)
             (logged self ("Downloading from " ++ target ++ " to " ++ dest_path)
                     LOG_INFO w)))).
Proof.
  cbn zeta. intros Hg Hc Hcan. unfold accepted_status in Hc. apply negb_true_iff in Hc.
  unfold Backend.download_file.
  erewrite bind_ret_run by apply log_run.
  set (dest := PyStr.path_join (temp_dir self) dest_filename) in *.
  set (w1 := logged self _ LOG_INFO w).
  assert (Hn : now w1 = now w) by apply logged_now.
  assert (Hfs : fs w1 = fs w) by apply logged_fs.
  apply try_ret_run. rewrite bind_run. unfold requests_get. rewrite Hn, Hg.
  rewrite bind_run. unfold raise_for_status. cbn [status_code]. rewrite Hc.
  cbn [mret M_ret].
  erewrite bind_ret_run by (apply open_wb_run; cbn [fs add_event]; now rewrite Hfs).
  erewrite bind_ret_run.
  2:{ unfold copyfileobj. erewrite bind_ret_run by apply write_fresh_run.
      cbn [broken]. reflexivity. }
  erewrite bind_ret_run by apply log_run.
  cbn [mret M_ret fs add_event]. now rewrite Hfs.
Qed.

(** X7.  A download that arrives in full (a status [raise_for_status]
    accepts, an unbroken stream, a destination that can be created) returns
    the destination path below [temp_dir]; the file holds exactly the bytes
    received, one GET request has been made, and [compute_sha256] of the
    stored file is the SHA-256 of those bytes. *)
Theorem download_file_delivers
        (env : Env) (self : FlashUtility) (target dest_filename h : string)
        (c : Z) (r : list byte) (w : World) :
  let dest_path := PyStr.path_join (temp_dir self) dest_filename in
  env_get env (now w) target = GetResponse c h r None ->
  accepted_status c = true ->
  can_create (fs w) dest_path = true ->
  exists w',
    Backend.download_file env self target dest_filename w = (Ret (Some dest_path), w')
    /\ fs w' = <[dest_path := File r]> (fs w)
    /\ events w' = (events w ++ [HttpGet target])%list
    /\ Backend.compute_sha256 self dest_path w' = (Ret (Some (Sha256.sha256_hex r)), w').
Proof.
  cbn zeta. intros Hg Hc Hcan.
  rewrite (download_file_run env self target dest_filename h c r w Hg Hc Hcan).
  eexists. split; [reflexivity|].
  rewrite logged_fs, logged_events. cbn [fs set_fs events add_event].
  rewrite logged_events. split; [reflexivity|]. split; [reflexivity|].
  apply compute_sha256_run.
  rewrite logged_fs. cbn [fs set_fs]. unfold node_at.
  rewrite (can_create_not_root _ _ Hcan). apply lookup_insert_eq.
Qed.

Lemma download_file_delivers_witness :
  let env := with_get (GetResponse 200 "OK" (bytes_of_string "abc") None) env_offline in
  env_get env (now world_example) "https://example.org/x.iso"
  = GetResponse 200 "OK" (bytes_of_string "abc") None
  /\ accepted_status 200 = true
  /\ can_create (fs world_example) "/tmp/ventoy_k3x9/x.iso" = true
  /\ exists w',
       Backend.download_file env (util_on "Linux") "https://example.org/x.iso" "x.iso"
                             world_example
       = (Ret (Some "/tmp/ventoy_k3x9/x.iso"), w')
       /\ Backend.compute_sha256 (util_on "Linux") "/tmp/ventoy_k3x9/x.iso" w'
          = (Ret (Some "ba7816bf8f01cfea414140de5dae2223b00361a396177a9cb410ff61f20015ad"),
             w').
Proof.
  cbn zeta. split; [reflexivity|]. split; [reflexivity|]. split; [reflexivity|].
  destruct (download_file_delivers
              (with_get (GetResponse 200 "OK" (bytes_of_string "abc") None) env_offline)
              (util_on "Linux") "https://example.org/x.iso" "x.iso" "OK" 200
              (bytes_of_string "abc") world_example eq_refl eq_refl eq_refl)
    as (w' & Hrun & _ & _ & Hsha).
  exists w'. split; [exact Hrun|]. exact Hsha.
Defined.

(** X8.  When the response is accepted but the destination cannot be
    created (its directory is missing, or the path is a directory),
    [download_file] does not return [None]: the [OSError] of [open] is not a
    [RequestException] and leaves the function, after one GET request and
    with the file system unchanged. *)
Theorem download_file_cannot_store
        (env : Env) (self : FlashUtility) (target dest_filename h : string)
        (c : Z) (r : list byte) (b : option string) (w : World) :
  let dest_path := PyStr.path_join (temp_dir self) dest_filename in
  env_get env (now w) target = GetResponse c h r b ->
  accepted_status c = true ->
  can_create (fs w) dest_path = false ->
  exists e w',
    Backend.download_file env self target dest_filename w = (Raise e, w')
    /\ class_of e = OSError
    /\ fs w' = fs w
    /\ events w' = (events w ++ [HttpGet target])%list.
Proof.
  cbn zeta. intros Hg Hc Hcan. unfold accepted_status in Hc. apply negb_true_iff in Hc.
  unfold Backend.download_file.
  erewrite bind_ret_run by apply log_run.
  set (dest := PyStr.path_join (temp_dir self) dest_filename) in *.
  set (w1 := logged self _ LOG_INFO w).
  assert (Hn : now w1 = now w) by apply logged_now.
  assert (Hfs : fs w1 = fs w) by apply logged_fs.
  assert (Hev : events w1 = events w) by apply logged_events.
  destruct (open_wb_refused dest (add_event (HttpGet target) w1)) as (e & Ho & Hcl).
  { cbn [fs add_event]. now rewrite Hfs. }
  exists e, (add_event (HttpGet target) w1). split.
  - erewrite try_raise_run.
    + unfold is_RequestException. rewrite Hcl. reflexivity.
    + erewrite bind_ret_run by (unfold requests_get; rewrite Hn, Hg; reflexivity).
      erewrite bind_ret_run
        by (unfold raise_for_status; cbn [status_code]; rewrite Hc; reflexivity).
      erewrite bind_raise_run by exact Ho. reflexivity.
  - split; [exact Hcl|]. cbn [fs events add_event]. now rewrite Hfs, Hev.
Qed.

Lemma download_file_cannot_store_witness :
  let env := with_get (GetResponse 200 "OK" (bytes_of_string "abc") None) env_offline in
  let w := set_fs ∅ world_example in
  env_get env (now w) "https://example.org/x.iso"
  = GetResponse 200 "OK" (bytes_of_string "abc") None
  /\ accepted_status 200 = true
  /\ can_create (fs w) "/tmp/ventoy_k3x9/x.iso" = false
  /\ exists e w',
       Backend.download_file env (util_on "Linux") "https://example.org/x.iso" "x.iso" w
       = (Raise e, w')
       /\ class_of e = OSError
       /\ fs w' = ∅.
Proof.
  cbn zeta. split; [reflexivity|]. split; [reflexivity|].
  assert (Hcan : can_create (fs (set_fs ∅ world_example)) "/tmp/ventoy_k3x9/x.iso" = false)
    by (vm_compute; reflexivity).
  split; [exact Hcan|].
  destruct (download_file_cannot_store
              (with_get (GetResponse 200 "OK" (bytes_of_string "abc") None) env_offline)
              (util_on "Linux") "https://example.org/x.iso" "x.iso" "OK" 200
              (bytes_of_string "abc") None (set_fs ∅ world_example)
              eq_refl eq_refl Hcan)
    as (e & w' & Hrun & Hcl & Hfs & _).
  exists e, w'. split; [exact Hrun|]. split; [exact Hcl|]. exact Hfs.
Defined.

(** ** Choosing a distribution *)



Lemma blind_shown {X} (f : World -> X) (m : string) (l : Z) (w : World) :
  log_blind f -> f (set_window (shown m l (window w)) w) = f w.
Proof.
  intros Hf. pose proof (keeps_log_message f m l Hf w) as H.
  now rewrite log_message_run in H.
Qed.

Lemma blind_logged {X} (f : World -> X) (self : FlashUtility) (m : string) (l : Z)
      (w : World) :
  log_blind f -> f (logged self m l w) = f w.
Proof.
  intros Hf. pose proof (keeps_log f self m l Hf w) as H.
  now rewrite log_run in H.
Qed.

Lemma path_join_nonempty (a b : string) :
  b <> EmptyString -> PyStr.path_join a b <> EmptyString.
Proof.
  intros Hb. unfold PyStr.path_join.
  destruct (PyStr.startswith b "/"); [exact Hb|].
  destruct (String.eqb a EmptyString || PyStr.endswith a "/").
  - destruct a; [exact Hb | discriminate].
  - destruct a; discriminate.
Qed.

Lemma iso_name_nonempty (os_name : string) : os_name ++ ".iso" <> EmptyString.
Proof. destruct os_name; discriminate. Qed.

Lemma truthy_path (p : string) :
  p <> EmptyString -> (if Some p is Some EmptyString then None else Some p) = Some p.
Proof. now destruct p. Qed.

(** The world after a distribution has been downloaded in full. *)
Lemma select_distro_delivered
      (env : Env) (os_name h : string) (info : os_info) (c : Z) (bytes : list byte)
      (w : World) :
  let iso_path := PyStr.path_join (temp_dir (flash_util (window w))) (os_name ++ ".iso") in
  let r := Gui.select_distro env os_name w in
  Gui.dict_get os_name (PREDEFINED_OS w) = Some info ->
  env_get env (now w) (url info) = GetResponse c h bytes None ->
  accepted_status c = true ->
  can_create (fs w) iso_path = true ->
  fst r = Ret tt
  /\ selection (snd r) = iso_path
  /\ fs (snd r) = <[iso_path := File bytes]> (fs w)
  /\ events (snd r) = (events w ++ [HttpGet (url info)])%list
  /\ PREDEFINED_OS (snd r) = PREDEFINED_OS w.
Proof.
  cbn zeta. intros Hget Hg Hc Hcan.
  unfold Gui.select_distro. rewrite bind_run. cbn [get_world]. rewrite Hget.
  rewrite bind_run, log_message_run.
  set (w0 := set_window _ w).
  assert (Hn0 : now w0 = now w) by reflexivity.
  assert (Hf0 : fs w0 = fs w) by reflexivity.
  rewrite <- Hn0 in Hg. rewrite <- Hf0 in Hcan.
  rewrite bind_run,
    (download_file_run env (flash_util (window w)) (url info) (os_name ++ ".iso")
                       h c bytes w0 Hg Hc Hcan).
  rewrite truthy_path by (apply path_join_nonempty, iso_name_nonempty).
  rewrite bind_run. cbn [modify]. rewrite log_message_run. cbn [fst snd].
  split; [reflexivity|]. split; [|split; [|split]].
  - now rewrite (blind_shown selection) by apply selection_log_blind.
  - rewrite (blind_shown fs) by apply fs_log_blind. cbn [fs set_window].
    now rewrite logged_fs.
  - rewrite (blind_shown events) by apply events_log_blind. cbn [events set_window].
    rewrite logged_events. cbn [events set_fs add_event].
    now rewrite logged_events.
  - rewrite (blind_shown PREDEFINED_OS) by apply catalog_log_blind.
    cbn [PREDEFINED_OS set_window]. rewrite logged_PREDEFINED_OS.
    cbn [PREDEFINED_OS set_fs add_event]. now rewrite logged_PREDEFINED_OS.
Qed.

(** X9.  [select_distro] on a name that is not in the catalog does
    nothing at all.  On a catalog entry it makes exactly one request, the
    GET of the entry's URL, and what follows depends on the answer.  When
    [requests.get] raises a [requests.RequestException] or the status is one
    [raise_for_status] rejects (400 to 599), the slot returns and the
    selected image and the file system are as they were.  When the download
    arrives in full, the image is stored as [<temp_dir>/<os_name>.iso] and
    becomes the selected image.  When the stream breaks after an accepted
    response, the exception leaves the slot: the selected image is as it
    was, but the bytes received are in that file.  When the file cannot be
    created, or [requests.get] raises any other exception, the exception
    leaves the slot and nothing has changed. *)
Theorem select_distro_outcomes (env : Env) (os_name : string) (w : World) :
  let self := flash_util (window w) in
  let iso_path := PyStr.path_join (temp_dir self) (os_name ++ ".iso") in
  let r := Gui.select_distro env os_name w in
  match Gui.dict_get os_name (PREDEFINED_OS w) with
  | None => r = (Ret tt, w)
  | Some info =>
      events (snd r) = (events w ++ [HttpGet (url info)])%list
      /\ match env_get env (now w) (url info) with
         | GetRaised e =>
             fst r = (if is_RequestException e then Ret tt else Raise e)
             /\ selection (snd r) = selection w
             /\ fs (snd r) = fs w
         | GetResponse c h bytes b =>
             if (400 <=? c) && (c <? 600) then
               fst r = Ret tt
               /\ selection (snd r) = selection w
               /\ fs (snd r) = fs w
             else if can_create (fs w) iso_path then
               fs (snd r) = <[iso_path := File bytes]> (fs w)
               /\ match b with
                  | None => fst r = Ret tt /\ selection (snd r) = iso_path
                  | Some s =>
                      fst r = Raise (Exn TransportError s)
                      /\ selection (snd r) = selection w
                  end
             else
               (exists e, fst r = Raise e /\ class_of e = OSError)
               /\ selection (snd r) = selection w
               /\ fs (snd r) = fs w
         end
  end.
Proof.
  cbn zeta. unfold Gui.select_distro. rewrite bind_run. cbn [get_world].
  destruct (Gui.dict_get os_name (PREDEFINED_OS w)) as [info|] eqn:Hget; [|reflexivity].
  rewrite bind_run, log_message_run.
  set (w0 := set_window _ w).
  assert (Hs0 : selection w0 = selection w)
    by apply (blind_shown selection), selection_log_blind.
  destruct (download_file_cases env (flash_util (window w)) (url info)
              (os_name ++ ".iso") w0) as (w' & Hrun & Hw').
  cbn zeta in Hrun, Hw'.
  change (now w0) with (now w) in Hrun, Hw'. change (fs w0) with (fs w) in Hrun, Hw'.
  rewrite bind_run, Hrun. clear Hrun.
  set (iso_path := PyStr.path_join (temp_dir (flash_util (window w))) (os_name ++ ".iso"))
    in *.
  set (asked := add_event (HttpGet (url info)) (logged _ _ LOG_INFO w0)) in *.
  assert (Ha : events asked = (events w ++ [HttpGet (url info)])%list
               /\ selection asked = selection w /\ fs asked = fs w).
  { unfold asked. cbn [events fs add_event]. rewrite logged_events, logged_fs.
    rewrite selection_event_blind, (blind_logged selection) by apply selection_log_blind.
    auto. }
  destruct Ha as (Hea & Hsa & Hfa).
  assert (Hfail : forall (s m : string),
    let r := log_message m LOG_ERROR
               (logged (flash_util (window w)) ("Error downloading file: " ++ s)
                       LOG_ERROR asked) in
    fst r = Ret tt
    /\ events (snd r) = (events w ++ [HttpGet (url info)])%list
    /\ selection (snd r) = selection w
    /\ fs (snd r) = fs w).
  { intros s m. cbn zeta. rewrite log_message_run. cbn [fst snd].
    rewrite (blind_shown events) by apply events_log_blind.
    rewrite (blind_shown selection) by apply selection_log_blind.
    rewrite (blind_shown fs) by apply fs_log_blind.
    rewrite logged_events, logged_fs.
    rewrite (blind_logged selection) by apply selection_log_blind. auto. }
  unfold refused in Hw'.
  destruct (env_get env (now w) (url info)) as [e|c h bytes b].
  - destruct (is_RequestException e); subst w'.
    + destruct (Hfail (str_e e) ("Failed to download " ++ os_name ++ " ISO."))
        as (H1 & H2 & H3 & H4).
      cbn zeta in H1, H2, H3, H4. auto.
    + cbn [fst snd]. auto.
  - destruct ((400 <=? c) && (c <? 600)); subst w'.
    + destruct (Hfail h ("Failed to download " ++ os_name ++ " ISO."))
        as (H1 & H2 & H3 & H4).
      cbn zeta in H1, H2, H3, H4. auto.
    + destruct (can_create (fs w) iso_path).
      * destruct b as [s|].
        -- cbn [fst snd events fs set_fs]. rewrite Hea.
           split; [reflexivity|]. split; [reflexivity|]. split; [reflexivity|].
           exact Hsa.
        -- rewrite truthy_path by (apply path_join_nonempty, iso_name_nonempty).
           rewrite bind_run. cbn [modify]. rewrite log_message_run. cbn [fst snd].
           rewrite (blind_shown events) by apply events_log_blind.
           rewrite (blind_shown selection) by apply selection_log_blind.
           rewrite (blind_shown fs) by apply fs_log_blind.
           cbn [events fs set_window]. rewrite logged_events, logged_fs.
           cbn [events fs set_fs]. rewrite Hea.
           split; [reflexivity|]. split; [reflexivity|]. split; reflexivity.
      * cbn [fst snd]. split; [exact Hea|]. split; [|split; assumption].
        destruct (node_at (fs w) iso_path) as [[content|]|]; eexists; split; reflexivity.
Qed.

Lemma select_distro_outcomes_witness :
  let env := with_get (GetResponse 200 "OK" (bytes_of_string "abc") None) env_offline in
  selection (snd (Gui.select_distro env "Kali Linux 2022.4" world_example))
  = "/tmp/ventoy_k3x9/Kali Linux 2022.4.iso"
  /\ Gui.select_distro env "Gentoo" world_example = (Ret tt, world_example).
Proof.
  cbn zeta. split.
  - pose proof (select_distro_outcomes
                  (with_get (GetResponse 200 "OK" (bytes_of_string "abc") None) env_offline)
                  "Kali Linux 2022.4" world_example) as H.
    cbn zeta in H.
    change (Gui.dict_get "Kali Linux 2022.4" (PREDEFINED_OS world_example))
      with (Some (OsInfo
                    "https://cdimage.kali.org/kali-2022.4/kali-linux-2022.4-installer-amd64.iso"
                    "dummyhash_kali")) in H.
    destruct H as [_ H].
    change (env_get _ _ _) with (GetResponse 200 "OK" (bytes_of_string "abc") None) in H.
    change ((400 <=? 200) && (200 <? 600)) with false in H. cbv iota in H.
    assert (Hcan : can_create (fs world_example) "/tmp/ventoy_k3x9/Kali Linux 2022.4.iso"
                   = true) by (vm_compute; reflexivity).
    change (PyStr.path_join (temp_dir (flash_util (window world_example)))
                            ("Kali Linux 2022.4" ++ ".iso"))
      with "/tmp/ventoy_k3x9/Kali Linux 2022.4.iso" in H.
    rewrite Hcan in H. destruct H as (_ & _ & Hs). exact Hs.
  - exact (select_distro_outcomes
             (with_get (GetResponse 200 "OK" (bytes_of_string "abc") None) env_offline)
             "Gentoo" world_example).
Defined.

(** ** The digest *)

Section Digest.

Local Open Scope nat_scope.
Local Open Scope list_scope.

Lemma compress_length (h : list Z) (block : list byte) :
  length (Sha256.compress h block) = 8.
Proof. reflexivity. Qed.

Lemma absorb_length (n : nat) (h : list Z) (d : list byte) :
  length h = 8 -> length (fst (Sha256.absorb n h d)) = 8.
Proof.
  revert h d. induction n as [|n IH]; intros h d Hh; [exact Hh|].
  cbn [Sha256.absorb]. destruct (64 <=? length d); [|exact Hh].
  apply IH, compress_length.
Qed.

Lemma padding_length (r : list byte) (n : Z) :
  64 <= length (r ++ Sha256.padding r n).
Proof.
  unfold Sha256.padding. rewrite length_app. cbn [length].
  rewrite length_app, repeat_length, length_map, length_seq.
  pose proof (Z.mod_pos_bound (55 - Z.of_nat (length r)) 64 ltac:(lia)) as Hb.
  pose proof (Z.div_mod (55 - Z.of_nat (length r)) 64 ltac:(lia)) as Hd.
  lia.
Qed.

Lemma digest_words_length (s : Sha256.t) : length (Sha256.digest_words s) = 8.
Proof.
  unfold Sha256.digest_words.
  set (d := Sha256.pending s ++ Sha256.padding (Sha256.pending s) (Sha256.seen s)).
  fold (absorb_all (Sha256.chain s) d).
  rewrite absorb_all_block by apply padding_length.
  apply absorb_length, compress_length.
Qed.

Lemma hex_word_length (w : Z) : String.length (Sha256.hex_word w) = 8.
Proof. reflexivity. Qed.

Lemma hexdigest_length (s : Sha256.t) : String.length (Sha256.hexdigest s) = 64.
Proof.
  unfold Sha256.hexdigest. pose proof (digest_words_length s) as H.
  destruct (Sha256.digest_words s) as [|w0 [|w1 [|w2 [|w3 [|w4 [|w5 [|w6 [|w7 [|]]]]]]]]];
    try discriminate.
  reflexivity.
Qed.

Lemma hex_digit_is_hex (z : Z) : (0 <= z < 16)%Z -> is_hex (Sha256.hex_digit z) = true.
Proof.
  intros H.
  assert (Hz : (z = 0 \/ z = 1 \/ z = 2 \/ z = 3 \/ z = 4 \/ z = 5 \/ z = 6 \/ z = 7
               \/ z = 8 \/ z = 9 \/ z = 10 \/ z = 11 \/ z = 12 \/ z = 13 \/ z = 14
               \/ z = 15)%Z) by lia.
  repeat (destruct Hz as [Hz|Hz]; [subst z; reflexivity|]). subst z; reflexivity.
Qed.

Lemma all_hex_append (a b : string) : all_hex (a ++ b)%string = all_hex a && all_hex b.
Proof.
  unfold all_hex. induction a as [|c a IH]; [reflexivity|].
  cbn [String.append list_ascii_of_string forallb].
  change (list_ascii_of_string (String c a ++ b)) with (c :: list_ascii_of_string (a ++ b)%string).
  cbn [forallb]. now rewrite IH, andb_assoc.
Qed.

Lemma hex_word_all_hex (w : Z) : all_hex (Sha256.hex_word w) = true.
Proof.
  unfold Sha256.hex_word, all_hex. rewrite list_ascii_of_string_of_list_ascii.
  apply forallb_forall. intros c Hc. apply in_map_iff in Hc as (i & <- & _).
  apply hex_digit_is_hex.
  change 15%Z with (Z.ones 4). rewrite Z.land_ones by lia.
  apply Z.mod_pos_bound. lia.
Qed.

Lemma hexdigest_all_hex (s : Sha256.t) : all_hex (Sha256.hexdigest s) = true.
Proof.
  unfold Sha256.hexdigest. induction (Sha256.digest_words s) as [|w l IH]; [reflexivity|].
  cbn [fold_right]. now rewrite all_hex_append, hex_word_all_hex, IH.
Qed.

End Digest.

(** X10.  For a readable file [compute_sha256] returns a digest of 64
    lower-case hexadecimal digits and leaves the world as it found it; in
    particular the digest is never empty. *)
Theorem compute_sha256_digest_format
        (self : FlashUtility) (file_path : string) (content : list byte) (w : World) :
  node_at (fs w) file_path = Some (File content) ->
  exists digest,
    Backend.compute_sha256 self file_path w = (Ret (Some digest), w)
    /\ String.length digest = 64%nat
    /\ all_hex digest = true.
Proof.
  intros H. exists (Sha256.sha256_hex content).
  split; [now apply compute_sha256_run|].
  split; [apply hexdigest_length | apply hexdigest_all_hex].
Qed.

Lemma compute_sha256_digest_format_witness :
  node_at (fs world_example) "/tmp/ventoy_k3x9/Arch Linux.iso"
  = Some (File (bytes_of_string "abc")) /\
  exists digest,
    Backend.compute_sha256 (util_on "Linux") "/tmp/ventoy_k3x9/Arch Linux.iso" world_example
    = (Ret (Some digest), world_example)
    /\ String.length digest = 64%nat.
Proof.
  split; [reflexivity|].
  destruct (compute_sha256_digest_format (util_on "Linux") "/tmp/ventoy_k3x9/Arch Linux.iso"
              (bytes_of_string "abc") world_example eq_refl) as (d & Hr & Hl & _).
  exists d. split; assumption.
Defined.

(** ** Every verdict of the verification *)

Lemma compute_sha256_unreadable (self : FlashUtility) (file_path : string) (w : World) :
  match node_at (fs w) file_path with
  | Some (File _) => True
  | Some Dir =>
      Backend.compute_sha256 self file_path w
      = (Ret None, logged self ("Error computing hash: " ++ str_e (is_a_directory file_path))
                          LOG_ERROR w)
  | None =>
      Backend.compute_sha256 self file_path w
      = (Ret None, logged self ("Error computing hash: " ++ str_e (no_such_file file_path))
                          LOG_ERROR w)
  end.
Proof.
  unfold Backend.compute_sha256, try_except, except_Exception. rewrite bind_run.
  unfold open_rb.
  destruct (node_at (fs w) file_path) as [[bs|]|]; [exact I| |];
    rewrite bind_run, log_run; reflexivity.
Qed.

Lemma validate_iso_run (w : World) : Gui.validate_iso w = (Ret tt, validated w).
Proof.
  unfold Gui.validate_iso, validated, verification. rewrite bind_run. cbn [get_world].
  destruct (String.eqb (selected_iso_path (window w)) EmptyString);
    [apply log_message_noted|].
  pose proof (compute_sha256_unreadable (flash_util (window w))
                (selected_iso_path (window w)) w) as Hu.
  destruct (node_at (fs w) (selected_iso_path (window w))) as [[content|]|] eqn:Hn.
  - rewrite bind_run, (compute_sha256_run content) by assumption.
    destruct (String.eqb (Sha256.sha256_hex content) EmptyString);
      [apply log_message_noted|].
    rewrite bind_run. cbn [get_world]. rewrite bind_run, validate_against_run.
    pose proof (compare_against_verdict (PREDEFINED_OS w)
                  (PyStr.basename (selected_iso_path (window w)))
                  (Sha256.sha256_hex content)) as Hv.
    destruct (compare_against _ _ _); try contradiction; cbn [negb].
    + apply log_message_noted.
    + reflexivity.
    + reflexivity.
  - rewrite bind_run, Hu. apply log_message_noted.
  - rewrite bind_run, Hu. apply log_message_noted.
Qed.

Lemma blind_noted {X} (f : World -> X) (m : string) (l : Z) (w : World) :
  log_blind f -> f (noted m l w) = f w.
Proof. apply blind_shown. Qed.

Lemma validated_frame (w : World) :
  fs (validated w) = fs w
  /\ events (validated w) = events w
  /\ PREDEFINED_OS (validated w) = PREDEFINED_OS w
  /\ selection (validated w) = selection w.
Proof.
  assert (H : forall X (f : World -> X),
             log_blind f ->
             (forall a b c w0, f (mismatch_reported a b c w0) = f w0) ->
             f (validated w) = f w).
  { intros X f Hl Hm. unfold validated.
    destruct (verification w); rewrite ?Hm, ?blind_noted by assumption; try reflexivity.
    destruct (node_at _ _) as [[]|]; rewrite ?blind_logged by assumption; reflexivity. }
  assert (Hmis : forall X (f : VentoyFlasherGUI -> X) (g : World -> X),
             (forall w0, g w0 = f (window w0)) ->
             (forall line v, f (add_log_output line v) = f v) ->
             (forall line v, f (add_status_pane line v) = f v) ->
             forall a b c w0, g (mismatch_reported a b c w0) = g w0).
  { intros X f g Hg Hlog Hst a b c w0. rewrite !Hg. unfold mismatch_reported, shown.
    cbn [window set_window]. rewrite Hst.
    destruct (log_level _ <=? _); [apply Hlog | reflexivity]. }
  split; [apply H; [apply fs_log_blind | reflexivity]|].
  split; [apply H; [apply events_log_blind | reflexivity]|].
  split; [apply H; [apply catalog_log_blind | reflexivity]|].
  apply H; [apply selection_log_blind|].
  apply (Hmis _ selected_iso_path selection); reflexivity.
Qed.

(** X11.  [validate_iso] always returns and only reports: the world it
    leaves is the one [validated] describes for the verdict (one log line,
    after the backend's error line when no digest could be computed, plus
    the status line of a mismatch), and the file system, the requests made,
    the catalog and the selected image are unchanged.  No digest is
    computed exactly when an image is selected whose path is not a readable
    file. *)
Theorem validate_iso_only_reports (w : World) :
  Gui.validate_iso w = (Ret tt, validated w)
  /\ fs (validated w) = fs w
  /\ events (validated w) = events w
  /\ PREDEFINED_OS (validated w) = PREDEFINED_OS w
  /\ selection (validated w) = selection w
  /\ (verification w = Unreadable <->
      selection w <> EmptyString
      /\ forall content, node_at (fs w) (selection w) <> Some (File content)).
Proof.
  split; [apply validate_iso_run|].
  destruct (validated_frame w) as (Hf & He & Hc & Hs).
  repeat (split; [assumption|]).
  unfold verification, selection.
  destruct (String.eqb_spec (selected_iso_path (window w)) EmptyString) as [He0|Hne].
  - split; [discriminate|]. now intros [H _].
  - destruct (node_at (fs w) (selected_iso_path (window w))) as [[content|]|] eqn:Hn.
    + assert (Hd : String.eqb (Sha256.sha256_hex content) EmptyString = false).
      { apply String.eqb_neq. intros H0.
        pose proof (hexdigest_length (Sha256.update Sha256.new content)) as Hl.
        unfold Sha256.sha256_hex in H0. rewrite H0 in Hl. discriminate. }
      rewrite Hd.
      pose proof (compare_against_verdict (PREDEFINED_OS w)
                    (PyStr.basename (selected_iso_path (window w)))
                    (Sha256.sha256_hex content)) as Hv.
      split.
      * intros H0. now rewrite H0 in Hv.
      * intros [_ H0]. now destruct (H0 content).
    + split; [|reflexivity]. intros _. split; [exact Hne | discriminate].
    + split; [|reflexivity]. intros _. split; [exact Hne | discriminate].
Qed.

(** ** Placeholder hashes *)

Lemma compare_against_placeholders (items : list (string * os_info))
      (iso_name computed : string) :
  forallb placeholder items = true ->
  all_hex computed = true ->
  forall os_name, compare_against items iso_name computed <> Match os_name.
Proof.
  intros Hp Hc os_name. induction items as [|[n info] rest IH]; [discriminate|].
  cbn [forallb] in Hp. apply andb_true_iff in Hp as [Hp1 Hp2].
  cbn [compare_against]. destruct (PyStr.contains _ _); [|now apply IH].
  destruct (String.eqb_spec computed (hash info)) as [He|_]; [|discriminate].
  unfold placeholder in Hp1. cbn [snd] in Hp1. rewrite <- He, Hc in Hp1. discriminate.
Qed.

Lemma reachable_entries_placeholders (env : Env) (t : nat) (items : list (string * os_info)) :
  forallb placeholder items = true ->
  forallb placeholder (reachable_entries env t items) = true.
Proof.
  revert t. induction items as [|[n info] rest IH]; intros t Hp; [reflexivity|].
  cbn [forallb] in Hp. apply andb_true_iff in Hp as [Hp1 Hp2].
  cbn [reachable_entries]. destruct (url_check _); [|now apply IH].
  cbn [forallb]. now rewrite Hp1, IH.
Qed.

(** X12.  While every expected hash of the catalog holds a character
    that is not a lower-case hexadecimal digit, no image can pass the
    verification: the verdict is never [Match].  Revalidation keeps the
    catalog in that state, and the catalog the program starts with is in
    it. *)
Theorem placeholders_never_validate (w : World) :
  forallb placeholder (PREDEFINED_OS w) = true ->
  (forall os_name, verification w <> Match os_name)
  /\ (forall env t, forallb placeholder (reachable_entries env t (PREDEFINED_OS w)) = true)
  /\ forallb placeholder PREDEFINED_OS_initial = true.
Proof.
  intros Hp. split; [|split].
  - intros os_name. unfold verification.
    destruct (String.eqb _ EmptyString); [discriminate|].
    destruct (node_at _ _) as [[content|]|]; try discriminate.
    destruct (String.eqb _ EmptyString); [discriminate|].
    apply compare_against_placeholders; [exact Hp|]. apply hexdigest_all_hex.
  - intros env t. now apply reachable_entries_placeholders.
  - reflexivity.
Qed.

Lemma placeholders_never_validate_witness :
  forallb placeholder (PREDEFINED_OS world_example) = true /\
  forall os_name, verification world_example <> Match os_name.
Proof.
  split; [reflexivity|].
  apply (placeholders_never_validate world_example). reflexivity.
Defined.

(** ** A download whose stream breaks *)

(** X13.  When the stream breaks after an accepted response,
    [download_file] neither returns nor logs the failure: the transport's
    exception is not a [RequestException] and leaves the function, and the
    bytes received before the break stay in the destination file. *)
Theorem download_file_keeps_what_arrived
        (env : Env) (self : FlashUtility) (target dest_filename h s : string)
        (c : Z) (r : list byte) (w : World) :
  let dest_path := PyStr.path_join (temp_dir self) dest_filename in
  env_get env (now w) target = GetResponse c h r (Some s) ->
  accepted_status c = true ->
  can_create (fs w) dest_path = true ->
  exists w',
    Backend.download_file env self target dest_filename w
    = (Raise (Exn TransportError s), w')
    /\ fs w' = <[dest_path := File r]> (fs w)
    /\ events w' = (events w ++ [HttpGet target])%list.
Proof.
  cbn zeta. intros Hg Hc Hcan. unfold accepted_status in Hc. apply negb_true_iff in Hc.
  unfold Backend.download_file.
  erewrite bind_ret_run by apply log_run.
  set (dest := PyStr.path_join (temp_dir self) dest_filename) in *.
  set (w1 := logged self _ LOG_INFO w).
  assert (Hn : now w1 = now w) by apply logged_now.
  assert (Hfs : fs w1 = fs w) by apply logged_fs.
  assert (Hev : events w1 = events w) by apply logged_events.
  eexists. split.
  - unfold try_except.
    erewrite bind_ret_run by (unfold requests_get; rewrite Hn, Hg; reflexivity).
    erewrite bind_ret_run
      by (unfold raise_for_status; cbn [status_code]; rewrite Hc; reflexivity).
    erewrite bind_ret_run by (apply open_wb_run; cbn [fs add_event]; now rewrite Hfs).
    erewrite bind_raise_run.
    2:{ unfold copyfileobj. erewrite bind_ret_run by apply write_fresh_run.
        cbn [broken]. reflexivity. }
    cbn [is_RequestException class_of]. reflexivity.
  - cbn [fs events set_fs add_event]. now rewrite Hfs, Hev.
Qed.

Lemma download_file_keeps_what_arrived_witness :
  let env := with_get (GetResponse 200 "OK" (bytes_of_string "abc")
                                   (Some "Connection broken: IncompleteRead"))
                      env_offline in
  env_get env (now world_example) "https://example.org/x.iso"
  = GetResponse 200 "OK" (bytes_of_string "abc") (Some "Connection broken: IncompleteRead")
  /\ accepted_status 200 = true
  /\ can_create (fs world_example) "/tmp/ventoy_k3x9/x.iso" = true
  /\ exists w',
       Backend.download_file env (util_on "Linux") "https://example.org/x.iso" "x.iso"
                             world_example
       = (Raise (Exn TransportError "Connection broken: IncompleteRead"), w')
       /\ fs w' !! "/tmp/ventoy_k3x9/x.iso" = Some (File (bytes_of_string "abc")).
Proof.
  cbn zeta. split; [reflexivity|]. split; [reflexivity|]. split; [reflexivity|].
  destruct (download_file_keeps_what_arrived
              (with_get (GetResponse 200 "OK" (bytes_of_string "abc")
                                     (Some "Connection broken: IncompleteRead"))
                        env_offline)
              (util_on "Linux") "https://example.org/x.iso" "x.iso" "OK"
              "Connection broken: IncompleteRead" 200
              (bytes_of_string "abc") world_example eq_refl eq_refl eq_refl)
    as (w' & Hrun & Hfs & _).
  exists w'. split; [exact Hrun|]. rewrite Hfs. apply lookup_insert_eq.
Defined.

(** ** What a download asks for and touches *)

Lemma keeps_modify {X} (f : World -> X) (g : World -> World) :
  (forall w, f (g w) = f w) -> keeps f (modify g).
Proof. intros H w. apply H. Qed.

Lemma keeps_open_wb {X} (f : World -> X) (p : string) :
  (forall w, f (set_fs (<[p := File []]> (fs w)) w) = f w) -> keeps f (open_wb p).
Proof.
  intros H w. unfold open_wb.
  destruct (node_at (fs w) p) as [[]|]; destruct (parent_ok (fs w) p);
    try reflexivity; apply H.
Qed.

Lemma keeps_write {X} (f : World -> X) (p : string) (bs : list byte) :
  (forall w n, f (set_fs (<[p := n]> (fs w)) w) = f w) -> keeps f (write p bs).
Proof.
  intros H w. unfold write, modify. cbn [snd].
  destruct (fs w !! p) as [[]|]; apply H.
Qed.

Lemma keeps_requests_get {X} (f : World -> X) (env : Env) (target : string) :
  event_blind f -> keeps f (requests_get env target).
Proof.
  intros H w. unfold requests_get. destruct (env_get env (now w) target); apply H.
Qed.

Lemma keeps_raise_for_status {X} (f : World -> X) (r : Response) :
  keeps f (raise_for_status r).
Proof. intros w. unfold raise_for_status. now destruct (_ && _). Qed.

Lemma keeps_copyfileobj {X} (f : World -> X) (r : Response) (p : string) :
  (forall w n, f (set_fs (<[p := n]> (fs w)) w) = f w) -> keeps f (copyfileobj r p).
Proof.
  intros H. unfold copyfileobj. apply keeps_bind; [now apply keeps_write|].
  intros _. destruct (broken r); [apply keeps_raise | apply keeps_ret].
Qed.

(** A component that the file at [p] does not enter is kept by a download
    to [p]. *)
Lemma download_file_keeps {X} (f : World -> X)
      (env : Env) (self : FlashUtility) (target dest_filename : string) :
  log_blind f -> event_blind f ->
  (forall w n, f (set_fs (<[PyStr.path_join (temp_dir self) dest_filename := n]> (fs w)) w)
               = f w) ->
  keeps f (Backend.download_file env self target dest_filename).
Proof.
  intros Hl He Hf. unfold Backend.download_file.
  apply keeps_bind; [now apply keeps_log|]. intros _.
  apply keeps_try.
  - apply keeps_bind; [now apply keeps_requests_get|]. intros r.
    apply keeps_bind; [apply keeps_raise_for_status|]. intros _.
    apply keeps_bind; [apply keeps_open_wb; intros w0; apply Hf|]. intros _.
    apply keeps_bind; [now apply keeps_copyfileobj|]. intros _.
    apply keeps_bind; [now apply keeps_log|]. intros _. apply keeps_ret.
  - intros e h. destruct (is_RequestException e); [|discriminate]. intros [= <-].
    apply keeps_bind; [now apply keeps_log|]. intros _. apply keeps_ret.
Qed.

Lemma quiet_keeps {A} (m : M A) : quiet m <-> keeps events m.
Proof. reflexivity. Qed.

Lemma try_bind_ret_run {A B} (m : M A) (k : A -> M B) (h : exn -> option (M B))
      (w w' : World) (a : A) :
  m w = (Ret a, w') -> try_except (m ≫= k) h w = try_except (k a) h w'.
Proof. intros H. unfold try_except. now rewrite bind_run, H. Qed.

Lemma download_file_events
      (env : Env) (self : FlashUtility) (target dest_filename : string) (w : World) :
  events (snd (Backend.download_file env self target dest_filename w))
  = (events w ++ [HttpGet target])%list.
Proof.
  unfold Backend.download_file. rewrite bind_run, log_run.
  set (w1 := logged self _ LOG_INFO w).
  assert (Hev : events w1 = events w) by apply logged_events.
  set (dest := PyStr.path_join (temp_dir self) dest_filename).
  match goal with |- context [try_except _ ?h] => set (handlers := h) end.
  assert (Hh : forall e hh, handlers e = Some hh -> quiet hh).
  { intros e hh. unfold handlers. destruct (is_RequestException e); [|discriminate].
    intros [= <-]. apply quiet_bind; [apply quiet_log|]. intros _. apply quiet_ret. }
  unfold requests_get.
  destruct (env_get env (now w1) target) as [e|c h r b] eqn:Hg.
  - erewrite try_raise_run.
    2:{ rewrite bind_run. unfold requests_get. rewrite Hg. reflexivity. }
    destruct (handlers e) as [hh|] eqn:E.
    + rewrite (Hh e hh E). cbn [events add_event]. now rewrite Hev.
    + cbn [snd events add_event]. now rewrite Hev.
  - erewrite try_bind_ret_run by (unfold requests_get; rewrite Hg; reflexivity).
    rewrite (quiet_try _ handlers).
    + cbn [events add_event]. now rewrite Hev.
    + apply quiet_keeps.
      apply keeps_bind; [apply keeps_raise_for_status|]. intros _.
      apply keeps_bind; [apply keeps_open_wb; reflexivity|]. intros _.
      apply keeps_bind; [apply keeps_copyfileobj; reflexivity|]. intros _.
      apply keeps_bind; [apply keeps_log, events_log_blind|]. intros _. apply keeps_ret.
    + exact Hh.
Qed.

(** X14.  Whatever its outcome, [download_file] makes exactly one
    request, the GET of its URL, and touches no path other than its
    destination; the catalog and the selected image are unchanged. *)
Theorem download_file_one_request
        (env : Env) (self : FlashUtility) (target dest_filename : string) (w : World) :
  let dest_path := PyStr.path_join (temp_dir self) dest_filename in
  let w' := snd (Backend.download_file env self target dest_filename w) in
  events w' = (events w ++ [HttpGet target])%list
  /\ (forall p, p <> dest_path -> fs w' !! p = fs w !! p)
  /\ PREDEFINED_OS w' = PREDEFINED_OS w
  /\ selection w' = selection w.
Proof.
  cbn zeta. split; [apply download_file_events|]. split; [|split].
  - intros p Hp.
    apply (download_file_keeps (fun w0 => fs w0 !! p)).
    + intros w0 line. split; reflexivity.
    + intros w0 e. reflexivity.
    + intros w0 n. cbn [fs set_fs]. apply lookup_insert_ne. congruence.
  - apply (download_file_keeps PREDEFINED_OS);
      [apply catalog_log_blind | apply catalog_event_blind | reflexivity].
  - apply (download_file_keeps selection);
      [apply selection_log_blind | apply selection_event_blind | reflexivity].
Qed.

(** ** The result of an extraction *)

Lemma extract_with_run
      (dec : list byte -> Decoded) (self : FlashUtility)
      (archive_path extract_to : string) (w : World) :
  let r := try_except
             (bs ← open_rb archive_path;
              extractall (dec bs) extract_to;;
              Backend.log self "Extraction complete." LOG_INFO;;
              mret true)
             (except_Exception (fun ex =>
                Backend.log self ("Extraction error: " ++ str_e ex) LOG_ERROR;;
                mret false)) w in
  fst r = Ret match node_at (fs w) archive_path with
              | Some (File bs) =>
                  match failure (dec bs) with None => true | Some _ => false end
              | _ => false
              end
  /\ events (snd r) = events w
  /\ fs (snd r) = match node_at (fs w) archive_path with
                  | Some (File bs) =>
                      fold_left (fun f m => <[PyStr.path_join extract_to m.1 := m.2]> f)
                                (members (dec bs)) (fs w)
                  | _ => fs w
                  end.
Proof.
  cbn zeta. unfold try_except, except_Exception. rewrite bind_run. unfold open_rb.
  destruct (node_at (fs w) archive_path) as [[bs|]|].
  - rewrite bind_run, extractall_run.
    destruct (failure (dec bs)) as [s|].
    + rewrite bind_run, log_run. cbn [fst snd mret M_ret].
      rewrite logged_events, logged_fs. repeat split.
    + rewrite bind_run, log_run. cbn [fst snd mret M_ret].
      rewrite logged_events, logged_fs. repeat split.
  - rewrite bind_run, log_run. cbn [fst snd mret M_ret].
    rewrite logged_events, logged_fs. repeat split.
  - rewrite bind_run, log_run. cbn [fst snd mret M_ret].
    rewrite logged_events, logged_fs. repeat split.
Qed.

(** X15.  [extract_archive] returns [True] exactly when the suffix is
    recognized and the extraction meets no error, and [False] otherwise; it
    asks nothing of the environment, and the file system is changed by the
    members decoded (all of them on success, those before the error
    otherwise) and by nothing else. *)
Theorem extract_archive_result
        (env : Env) (self : FlashUtility) (archive_path extract_to : string) (w : World) :
  let r := Backend.extract_archive env self archive_path extract_to w in
  fst r = Ret (recognized archive_path
               && match extraction_error env w archive_path with
                  | None => true
                  | Some _ => false
                  end)
  /\ events (snd r) = events w
  /\ fs (snd r) = (if recognized archive_path
                   then fs (partly_extracted env archive_path extract_to w)
                   else fs w).
Proof.
  cbn zeta. unfold Backend.extract_archive. rewrite bind_run, log_run.
  set (w1 := logged self _ LOG_INFO w).
  assert (Hfs : fs w1 = fs w) by apply logged_fs.
  assert (Hev : events w1 = events w) by apply logged_events.
  unfold recognized, extraction_error, partly_extracted, decoder.
  destruct (PyStr.endswith archive_path ".tar.gz"); cbn [orb andb].
  - destruct (extract_with_run (env_targz env) self archive_path extract_to w1)
      as (H1 & H2 & H3).
    cbn zeta in H1, H2, H3. rewrite H1, H2, H3, Hfs, Hev.
    destruct (node_at (fs w) archive_path) as [[bs|]|]; repeat split.
  - destruct (PyStr.endswith archive_path ".zip"); cbn [andb].
    + destruct (extract_with_run (env_zip env) self archive_path extract_to w1)
        as (H1 & H2 & H3).
      cbn zeta in H1, H2, H3. rewrite H1, H2, H3, Hfs, Hev.
      destruct (node_at (fs w) archive_path) as [[bs|]|]; repeat split.
    + unfold try_except. rewrite bind_run, log_run. cbn [fst snd mret M_ret].
      rewrite logged_events, logged_fs. repeat split; assumption.
Qed.

(** ** The requests of a Ventoy installation *)









(** ** Copying the image to a Ventoy drive *)

Lemma copy2_run (src dst : string) (content : list byte) (w : World) :
  node_at (fs w) src = Some (File content) ->
  can_create (fs w) dst = true ->
  copy2 src dst w = (Ret tt, set_fs (<[dst := File content]> (fs w)) w).
Proof.
  intros Hsrc Hcan. unfold copy2.
  erewrite bind_ret_run by (unfold open_rb; rewrite Hsrc; reflexivity).
  rewrite bind_run. cbn [get_world].
  assert (Hdst : match node_at (fs w) dst with
                 | Some Dir => PyStr.path_join dst (PyStr.basename src)
                 | _ => dst
                 end = dst).
  { unfold can_create in Hcan. apply andb_true_iff in Hcan as [_ Hn].
    now destruct (node_at (fs w) dst) as [[]|]. }
  rewrite Hdst.
  erewrite bind_ret_run by (apply open_wb_run; exact Hcan).
  apply write_fresh_run.
Qed.

Lemma copy2_unreadable (src dst : string) (w : World) :
  (forall content, node_at (fs w) src <> Some (File content)) ->
  exists e, copy2 src dst w = (Raise e, w).
Proof.
  intros Hsrc. unfold copy2. rewrite bind_run. unfold open_rb.
  destruct (node_at (fs w) src) as [[content|]|]; [now destruct (Hsrc content)| |];
    eexists; reflexivity.
Qed.

Lemma copy_iso_to_ventoy_run
      (self : FlashUtility) (iso_path ventoy_mount_point : string)
      (content : list byte) (w : World) :
  let dest_path := PyStr.path_join ventoy_mount_point (PyStr.basename iso_path) in
  path_exists (fs w) ventoy_mount_point = true ->
  node_at (fs w) iso_path = Some (File content) ->
  can_create (fs w) dest_path = true ->
  Backend.copy_iso_to_ventoy self iso_path ventoy_mount_point w
  = (Ret tt,
     logged self "ISO file successfully copied to Ventoy drive." LOG_INFO
       (set_fs (<[dest_path := File content]> (fs w))
          (logged self ("Copying ISO from " ++ iso_path ++ " to " ++ dest_path)
                  LOG_INFO w))).
Proof.
  cbn zeta. intros Hm Hsrc Hcan.
  unfold Backend.copy_iso_to_ventoy. apply try_ret_run.
  rewrite bind_run. cbn [get_world]. rewrite Hm. cbn [negb].
  rewrite bind_run, log_run.
  set (w1 := logged self _ LOG_INFO w).
  assert (Hfs : fs w1 = fs w) by apply logged_fs.
  rewrite bind_run, (copy2_run _ _ content) by (rewrite Hfs; assumption).
  rewrite log_run, Hfs. reflexivity.
Qed.

(** X17.  [copy_iso_to_ventoy] always returns and asks nothing of the
    environment.  When the mount point does not exist, or the image is not a
    readable file, the file system is unchanged.  When the mount point
    exists, the image is readable and the destination (other than the
    source) can be created, the destination holds the bytes of the image
    and its SHA-256 is the image's. *)
Theorem copy_iso_to_ventoy_outcomes
        (self : FlashUtility) (iso_path ventoy_mount_point : string) (w : World) :
  let dest_path := PyStr.path_join ventoy_mount_point (PyStr.basename iso_path) in
  let r := Backend.copy_iso_to_ventoy self iso_path ventoy_mount_point w in
  fst r = Ret tt
  /\ events (snd r) = events w
  /\ (path_exists (fs w) ventoy_mount_point = false -> fs (snd r) = fs w)
  /\ ((forall content, node_at (fs w) iso_path <> Some (File content)) ->
      fs (snd r) = fs w)
  /\ (forall content,
        path_exists (fs w) ventoy_mount_point = true ->
        node_at (fs w) iso_path = Some (File content) ->
        can_create (fs w) dest_path = true ->
        dest_path <> iso_path ->
        fs (snd r) = <[dest_path := File content]> (fs w)
        /\ Backend.compute_sha256 self dest_path (snd r)
           = (Ret (Some (Sha256.sha256_hex content)), snd r)).
Proof.
  cbn zeta. split; [apply returns_unit, returns_copy_iso_to_ventoy|].
  split; [apply quiet_copy_iso_to_ventoy|].
  unfold Backend.copy_iso_to_ventoy, try_except, except_Exception.
  rewrite bind_run. cbn [get_world].
  split; [|split].
  - intros Hm. rewrite Hm. cbn [negb]. rewrite log_run. apply logged_fs.
  - intros Hsrc. destruct (path_exists (fs w) ventoy_mount_point); cbn [negb];
      [|rewrite log_run; apply logged_fs].
    rewrite bind_run, log_run.
    set (w1 := logged self _ LOG_INFO w).
    destruct (copy2_unreadable iso_path
                (PyStr.path_join ventoy_mount_point (PyStr.basename iso_path)) w1)
      as (e & He).
    { unfold w1. now rewrite logged_fs. }
    rewrite bind_run, He, log_run. cbn [snd]. rewrite logged_fs. apply logged_fs.
  - intros content Hm Hsrc Hcan _.
    pose proof (copy_iso_to_ventoy_run self iso_path ventoy_mount_point content w
                  Hm Hsrc Hcan) as Hrun.
    cbn zeta in Hrun. unfold Backend.copy_iso_to_ventoy, try_except, except_Exception in Hrun.
    rewrite bind_run in Hrun. cbn [get_world] in Hrun. rewrite Hrun. cbn [snd].
    rewrite logged_fs. cbn [fs set_fs].
    split; [reflexivity|].
    apply compute_sha256_run. rewrite logged_fs. cbn [fs set_fs]. unfold node_at.
    rewrite (can_create_not_root _ _ Hcan). apply lookup_insert_eq.
Qed.

Lemma copy_iso_to_ventoy_outcomes_witness :
  let w := set_fs (<["/mnt/ventoy" := Dir]> (<["/mnt" := Dir]> fs_example)) world_example in
  let r := Backend.copy_iso_to_ventoy (util_on "Linux")
             "/tmp/ventoy_k3x9/Arch Linux.iso" "/mnt/ventoy" w in
  fs (snd r) !! "/mnt/ventoy/Arch Linux.iso" = Some (File (bytes_of_string "abc"))
  /\ Backend.compute_sha256 (util_on "Linux") "/mnt/ventoy/Arch Linux.iso" (snd r)
     = (Ret (Some "ba7816bf8f01cfea414140de5dae2223b00361a396177a9cb410ff61f20015ad"),
        snd r).
Proof.
  cbn zeta.
  destruct (copy_iso_to_ventoy_outcomes (util_on "Linux")
              "/tmp/ventoy_k3x9/Arch Linux.iso" "/mnt/ventoy"
              (set_fs (<["/mnt/ventoy" := Dir]> (<["/mnt" := Dir]> fs_example))
                      world_example))
    as (_ & _ & _ & _ & H).
  destruct (H (bytes_of_string "abc")) as [Hfs Hsha].
  - vm_compute. reflexivity.
  - vm_compute. reflexivity.
  - vm_compute. reflexivity.
  - discriminate.
  - split; [|exact Hsha]. rewrite Hfs. apply lookup_insert_eq.
Defined.

(** ** The staging directory from creation to removal *)

Lemma vacant_lookup (f : gmap string node) (p k : string) :
  vacant f p = true -> under p k = true -> f !! k = None.
Proof.
  unfold vacant. intros Hv Hu. destruct (f !! k) as [n|] eqn:E; [|reflexivity].
  rewrite forallb_forall in Hv.
  assert (Hin : In (k, n) (map_to_list f)).
  { apply list_elem_of_In. now apply elem_of_map_to_list. }
  apply Hv in Hin. cbn in Hin. now rewrite Hu in Hin.
Qed.

Lemma under_refl (p : string) : under p p = true.
Proof. unfold under. now rewrite String.eqb_refl. Qed.

Lemma rmtree_of_fresh (f : gmap string node) (p : string) :
  vacant f p = true ->
  filter (fun kv => under p kv.1 = false) (<[p := Dir]> f) = f.
Proof.
  intros Hv. apply map_eq. intros k.
  destruct (f !! k) as [n|] eqn:E.
  - apply map_lookup_filter_Some. cbn [fst].
    assert (Hu : under p k = false).
    { destruct (under p k) eqn:Hu; [|reflexivity].
      rewrite (vacant_lookup f p k Hv Hu) in E. discriminate. }
    split; [|exact Hu].
    rewrite lookup_insert_ne; [exact E|].
    intros ->. now rewrite under_refl in Hu.
  - apply map_lookup_filter_None.
    destruct (String.eqb_spec k p) as [->|Hne].
    + right. intros x _. cbn [fst]. now rewrite under_refl.
    + left. rewrite lookup_insert_ne by congruence. exact E.
Qed.

Lemma node_at_inserted_dir (f : gmap string node) (p : string) :
  node_at (<[p := Dir]> f) p = Some Dir.
Proof. unfold node_at. destruct (is_root p); [reflexivity | apply lookup_insert_eq]. Qed.

(** X18.  From creation to removal: [__init__] creates the staging
    directory, and when nothing lay there before and the removal succeeds,
    [cleanup] leaves the file system exactly as it was before [__init__],
    after the one removal; a second [cleanup] (for a staging directory
    other than the root) finds nothing to do. *)
Theorem init_then_cleanup_restores
        (env : Env) (cb : option callback) (w : World) :
  vacant (fs w) (env_mkdtemp env) = true ->
  env_rmtree env (now w) (env_mkdtemp env) = None ->
  exists self w1 w2,
    Backend.init env cb w = (Ret self, w1)
    /\ temp_dir self = env_mkdtemp env
    /\ node_at (fs w1) (temp_dir self) = Some Dir
    /\ Backend.cleanup env self w1 = (Ret tt, w2)
    /\ fs w2 = fs w
    /\ events w2 = (events w ++ [Rmtree (temp_dir self)])%list
    /\ (is_root (temp_dir self) = false -> Backend.cleanup env self w2 = (Ret tt, w2)).
Proof.
  intros Hv Hrm. unfold Backend.init.
  set (self := {| os_type := env_platform env; log_callback := cb;
                  temp_dir := env_mkdtemp env |}).
  rewrite bind_run. cbn [modify]. rewrite bind_run, log_run. cbn [mret M_ret].
  set (w0 := set_fs (<[temp_dir self := Dir]> (fs w)) w).
  set (w1 := logged self _ LOG_DEBUG w0).
  assert (Hfs1 : fs w1 = <[env_mkdtemp env := Dir]> (fs w)) by apply logged_fs.
  assert (Hev1 : events w1 = events w) by (unfold w1; now rewrite logged_events).
  assert (Hn1 : now w1 = now w) by (unfold now; now rewrite Hev1).
  assert (Hdir : node_at (fs w1) (env_mkdtemp env) = Some Dir).
  { rewrite Hfs1. apply node_at_inserted_dir. }
  exists self, w1. eexists. split; [reflexivity|]. split; [reflexivity|].
  split; [exact Hdir|].
  assert (Hrun : Backend.cleanup env self w1
                 = (Ret tt,
                    logged self "Cleaned up temporary files." LOG_DEBUG
                      (set_fs (filter (fun kv => under (env_mkdtemp env) kv.1 = false) (fs w1))
                              (add_event (Rmtree (env_mkdtemp env)) w1)))).
  { unfold Backend.cleanup. apply try_ret_run. rewrite bind_run. cbn [get_world temp_dir self].
    rewrite (path_exists_dir _ _ Hdir).
    erewrite bind_ret_run by (apply rmtree_ok_run; [exact Hdir | now rewrite Hn1]).
    apply log_run. }
  split; [exact Hrun|].
  rewrite logged_fs, logged_events. cbn [fs events set_fs add_event temp_dir self].
  rewrite Hfs1, Hev1, (rmtree_of_fresh _ _ Hv).
  split; [reflexivity|]. split; [reflexivity|].
  intros Hroot. unfold Backend.cleanup. apply try_ret_run.
  rewrite bind_run. cbn [get_world temp_dir self].
  unfold path_exists, node_at. rewrite Hroot, logged_fs. cbn [fs set_fs].
  rewrite (vacant_lookup _ _ _ Hv (under_refl _)). reflexivity.
Qed.

Lemma init_then_cleanup_restores_witness :
  let w := set_fs (<["/tmp" := Dir]> ∅) world_example in
  vacant (fs w) (env_mkdtemp env_offline) = true
  /\ env_rmtree env_offline (now w) (env_mkdtemp env_offline) = None
  /\ exists self w1 w2,
       Backend.init env_offline (Some log_message_of_window) w = (Ret self, w1)
       /\ node_at (fs w1) "/tmp/ventoy_k3x9" = Some Dir
       /\ Backend.cleanup env_offline self w1 = (Ret tt, w2)
       /\ fs w2 = <["/tmp" := Dir]> ∅.
Proof.
  cbn zeta.
  assert (Hv : vacant (fs (set_fs (<["/tmp" := Dir]> ∅) world_example))
                      (env_mkdtemp env_offline) = true) by (vm_compute; reflexivity).
  split; [exact Hv|]. split; [reflexivity|].
  destruct (init_then_cleanup_restores env_offline (Some log_message_of_window)
              (set_fs (<["/tmp" := Dir]> ∅) world_example) Hv eq_refl)
    as (self & w1 & w2 & Hinit & Htd & Hdir & Hclean & Hfs & _).
  exists self, w1, w2. split; [exact Hinit|]. rewrite Htd in Hdir.
  split; [exact Hdir|]. split; [exact Hclean|]. exact Hfs.
Defined.

(** ** The list widget and the catalog *)

Section InStep.

Local Open Scope list_scope.

Variable env : Env.

Lemma take_item_dict_remove (k : string) (d : list (string * os_info)) :
  Gui.take_item k (map fst d) = map fst (Gui.dict_remove k d).
Proof.
  induction d as [|[k' v] d IH]; [reflexivity|].
  cbn [map fst Gui.take_item Gui.dict_remove].
  destruct (String.eqb k' k); [reflexivity|]. cbn [map fst]. now rewrite IH.
Qed.

Lemma collect_unreachable_cons
      (os_name : string) (info : os_info) (rest : list (string * os_info))
      (acc : list string) (w : World) :
  exists acc' w0,
    Gui.collect_unreachable env ((os_name, info) :: rest) acc w
    = Gui.collect_unreachable env rest acc' w0
    /\ events w0 = events w ++ [HttpHead (url info)]
    /\ distro_list (window w0) = distro_list (window w)
    /\ selection w0 = selection w.
Proof.
  cbn [Gui.collect_unreachable].
  rewrite bind_run. unfold try_except. rewrite bind_run, requests_head_run.
  set (w1 := add_event (HttpHead (url info)) w).
  assert (Hnoted : forall m l,
    events (noted m l w1) = events w ++ [HttpHead (url info)]
    /\ distro_list (window (noted m l w1)) = distro_list (window w)
    /\ selection (noted m l w1) = selection w).
  { intros m l. split; [reflexivity|]. split.
    - unfold noted. cbn [window set_window]. unfold shown.
      now destruct (log_level _ <=? _).
    - now rewrite (blind_noted selection) by apply selection_log_blind. }
  destruct (env_head env (now w) (url info)) as [e|c].
  - unfold except_Exception. rewrite bind_run, log_message_noted.
    cbn [mret M_ret]. eexists _, _. split; [reflexivity | apply Hnoted].
  - destruct (c =? 200)%Z; cbn [negb].
    + cbn [mret M_ret]. eexists _, _. split; [reflexivity|]. repeat split.
    + rewrite bind_run, log_message_noted. cbn [mret M_ret].
      eexists _, _. split; [reflexivity | apply Hnoted].
Qed.

Lemma collect_unreachable_frame
      (items : list (string * os_info)) (acc : list string) (w : World) :
  let w' := snd (Gui.collect_unreachable env items acc w) in
  events w' = events w ++ head_requests items
  /\ distro_list (window w') = distro_list (window w)
  /\ selection w' = selection w.
Proof.
  cbn zeta. revert acc w. induction items as [|[os_name info] rest IH]; intros acc w.
  - cbn. now rewrite app_nil_r.
  - destruct (collect_unreachable_cons os_name info rest acc w)
      as (acc' & w0 & Hrun & He & Hd & Hs).
    rewrite Hrun. destruct (IH acc' w0) as (He' & Hd' & Hs').
    rewrite He', Hd', Hs', He, Hd, Hs, <- app_assoc. auto.
Qed.

Lemma remove_names_in_step (names : list string) (w : World) :
  distro_list (window w) = map fst (PREDEFINED_OS w) ->
  let w' := snd (Gui.for_each
                   (fun os_name => Gui.pop_default os_name;;
                                   Gui.remove_from_distro_list os_name) names w) in
  distro_list (window w') = map fst (PREDEFINED_OS w')
  /\ selection w' = selection w.
Proof.
  cbn zeta. revert w. induction names as [|k names IH]; intros w Hd; [now split|].
  cbn [Gui.for_each]. rewrite bind_run, bind_run.
  cbn [Gui.pop_default Gui.remove_from_distro_list modify].
  match goal with |- context [Gui.for_each _ names ?w0] =>
    destruct (IH w0) as [Hd' Hs'] end.
  - cbn [window set_window distro_list set_distro_list PREDEFINED_OS set_PREDEFINED_OS].
    rewrite Hd. apply take_item_dict_remove.
  - split; [exact Hd' | now rewrite Hs'].
Qed.

Lemma update_iso_link_step (os_name : string) (info : os_info) (w : World) :
  Gui.dict_has os_name (PREDEFINED_OS w) = true ->
  distro_list (window w) = map fst (PREDEFINED_OS w) ->
  let w' := snd (Gui.update_iso_link env (os_name, info) w) in
  events w' = events w ++ [HttpHead (url info)]
  /\ distro_list (window w') = map fst (PREDEFINED_OS w')
  /\ selection w' = selection w.
Proof.
  intros Hhas Hd. cbn zeta. unfold Gui.update_iso_link. cbn [fst snd].
  unfold try_except. rewrite bind_run, requests_head_run.
  set (w1 := add_event (HttpHead (url info)) w).
  assert (Hlist : forall m l, distro_list (window (noted m l w1)) = distro_list (window w)).
  { intros m l. unfold noted. cbn [window set_window]. unfold shown.
    now destruct (log_level _ <=? _). }
  assert (Hpop : forall m l, exists w',
    (Gui.pop os_name;; Gui.remove_from_distro_list os_name) (noted m l w1) = (Ret tt, w')
    /\ events w' = events w ++ [HttpHead (url info)]
    /\ distro_list (window w') = map fst (PREDEFINED_OS w')
    /\ selection w' = selection w).
  { intros m l. rewrite bind_run. unfold Gui.pop.
    replace (PREDEFINED_OS (noted m l w1)) with (PREDEFINED_OS w) by reflexivity.
    rewrite Hhas. cbn [Gui.remove_from_distro_list modify].
    eexists. split; [reflexivity|].
    cbn [window set_window distro_list set_distro_list PREDEFINED_OS set_PREDEFINED_OS
         events].
    split; [reflexivity|]. split.
    - rewrite Hlist, Hd. apply take_item_dict_remove.
    - unfold selection. cbn [window set_window selected_iso_path set_distro_list].
      change (selected_iso_path (window (noted m l w1))) with (selection (noted m l w1)).
      now rewrite (blind_noted selection) by apply selection_log_blind. }
  destruct (env_head env (now w) (url info)) as [e|c].
  - unfold except_Exception. rewrite bind_run, log_message_noted.
    destruct (Hpop ("Error validating link for " ++ os_name ++ ": " ++ str_e e
                    ++ ". Removing option.")%string LOG_ERROR) as (w' & Hrun & H).
    rewrite Hrun. exact H.
  - destruct (c =? 200)%Z; cbn [negb].
    + cbn [mret M_ret snd]. repeat split. exact Hd.
    + rewrite bind_run, log_message_noted.
      destruct (Hpop ("Link for " ++ os_name ++ " returned status " ++ Gui.str_int c
                      ++ ". Removing option.")%string LOG_WARNING) as (w' & Hrun & H).
      rewrite Hrun. exact H.
Qed.

Lemma update_iso_links_loop_in_step (rest kept : list (string * os_info)) (w : World) :
  PREDEFINED_OS w = kept ++ rest ->
  NoDup (map fst (kept ++ rest)) ->
  distro_list (window w) = map fst (PREDEFINED_OS w) ->
  let w' := snd (Gui.for_each (Gui.update_iso_link env) rest w) in
  distro_list (window w') = map fst (PREDEFINED_OS w')
  /\ events w' = events w ++ head_requests rest
  /\ selection w' = selection w.
Proof.
  cbn zeta. revert kept w. induction rest as [|[os_name info] rest IH];
    intros kept w Hcat Hnd Hd.
  - cbn. now rewrite app_nil_r.
  - cbn [Gui.for_each head_requests map snd]. rewrite bind_run.
    assert (Hhas : Gui.dict_has os_name (PREDEFINED_OS w) = true).
    { rewrite Hcat. apply dict_has_middle. }
    destruct (update_iso_link_run env os_name info w Hhas) as (w1 & Hrun & Hd1 & _ & _).
    destruct (update_iso_link_step os_name info w Hhas Hd) as (He1 & Hl1 & Hs1).
    cbn zeta in He1, Hl1, Hs1. rewrite Hrun in *. cbn [snd] in He1, Hl1, Hs1.
    rewrite Hcat in Hd1.
    assert (Hgo : forall kept',
      PREDEFINED_OS w1 = kept' ++ rest -> NoDup (map fst (kept' ++ rest)) ->
      let w' := snd (Gui.for_each (Gui.update_iso_link env) rest w1) in
      distro_list (window w') = map fst (PREDEFINED_OS w')
      /\ events w' = events w ++ HttpHead (url info) :: map (fun kv => HttpHead (url kv.2)) rest
      /\ selection w' = selection w).
    { intros kept' Hc' Hn'. cbn zeta.
      destruct (IH kept' w1 Hc' Hn' Hl1) as (Hl' & He' & Hs').
      rewrite He', He1, Hs', Hs1, <- app_assoc. auto. }
    destruct (url_check (env_head env (now w) (url info))).
    + apply (Hgo (kept ++ [(os_name, info)])); rewrite <- app_assoc; assumption.
    + pose proof Hnd as Hnd'. rewrite map_app in Hnd'. cbn [map fst] in Hnd'.
      apply NoDup_middle in Hnd' as [Hnd' Hin].
      rewrite dict_remove_middle in Hd1 by exact Hin.
      apply (Hgo kept); [exact Hd1 | now rewrite map_app].
Qed.

End InStep.

(** X19.  Both revalidation passes keep the list widget in step with the
    catalog: if the widget shows the catalog's names before the pass, it
    shows the names of the remaining entries after it.  Either pass makes
    exactly one HEAD request per entry, in catalog order, and leaves the
    selected image alone. *)
Theorem revalidation_keeps_the_list_in_step (env : Env) (w : World) :
  NoDup (map fst (PREDEFINED_OS w)) ->
  distro_list (window w) = map fst (PREDEFINED_OS w) ->
  let w1 := snd (Gui.validate_os_links env w) in
  let w2 := snd (Gui.update_iso_links env w) in
  distro_list (window w1) = map fst (PREDEFINED_OS w1)
  /\ distro_list (window w2) = map fst (PREDEFINED_OS w2)
  /\ events w1 = (events w ++ head_requests (PREDEFINED_OS w))%list
  /\ events w2 = (events w ++ head_requests (PREDEFINED_OS w))%list
  /\ selection w1 = selection w
  /\ selection w2 = selection w.
Proof.
  intros Hnd Hd. cbn zeta.
  assert (H1 : let w1 := snd (Gui.validate_os_links env w) in
               distro_list (window w1) = map fst (PREDEFINED_OS w1)
               /\ events w1 = (events w ++ head_requests (PREDEFINED_OS w))%list
               /\ selection w1 = selection w).
  { cbn zeta. unfold Gui.validate_os_links. rewrite bind_run. cbn [get_world].
    rewrite bind_run.
    destruct (collect_unreachable_frame env (PREDEFINED_OS w) [] w) as (He & Hl & Hs).
    destruct (collect_unreachable_run env (PREDEFINED_OS w) [] w) as (wa & Hrun & Hc & _).
    cbn zeta in He, Hl, Hs. rewrite Hrun in *. cbn [snd] in He, Hl, Hs.
    destruct (remove_names_in_step
                (([] ++ unreachable_names env (now w) (PREDEFINED_OS w))%list) wa)
      as (Hl' & Hs').
    { now rewrite Hl, Hc. }
    destruct (remove_names_run
                (([] ++ unreachable_names env (now w) (PREDEFINED_OS w))%list) wa)
      as (wb & Hrun' & _ & _ & He').
    cbn zeta in Hl', Hs'. rewrite Hrun' in *. cbn [snd] in *.
    rewrite He', He, Hs', Hs. auto. }
  assert (H2 : let w2 := snd (Gui.update_iso_links env w) in
               distro_list (window w2) = map fst (PREDEFINED_OS w2)
               /\ events w2 = (events w ++ head_requests (PREDEFINED_OS w))%list
               /\ selection w2 = selection w).
  { cbn zeta. unfold Gui.update_iso_links.
    rewrite bind_run, log_message_noted, bind_run. cbn [get_world].
    set (w0 := noted "Updating ISO links..." LOG_INFO w).
    assert (Hl0 : distro_list (window w0) = distro_list (window w)).
    { unfold w0, noted. cbn [window set_window]. unfold shown.
      now destruct (log_level _ <=? _). }
    assert (Hs0 : selection w0 = selection w)
      by apply (blind_noted selection), selection_log_blind.
    replace (PREDEFINED_OS w0) with (PREDEFINED_OS w) by reflexivity.
    destruct (update_iso_links_loop_in_step env (PREDEFINED_OS w) [] w0)
      as (Hl & He & Hs); [reflexivity | exact Hnd | now rewrite Hl0 |].
    destruct (update_iso_links_loop env (PREDEFINED_OS w) [] w0)
      as (wa & Hrun & _); [reflexivity | exact Hnd |].
    cbn zeta in Hl, He, Hs. rewrite Hrun in *. cbn [snd] in Hl, He, Hs.
    rewrite bind_run, Hrun, log_message_noted. cbn [snd].
    split; [|split].
    - unfold noted. cbn [window set_window PREDEFINED_OS]. unfold shown.
      destruct (log_level _ <=? _); exact Hl.
    - exact He.
    - rewrite (blind_noted selection) by apply selection_log_blind.
      now rewrite Hs. }
  cbn zeta in H1, H2. tauto.
Qed.

Lemma revalidation_keeps_the_list_in_step_witness :
  NoDup (map fst (PREDEFINED_OS world_example))
  /\ distro_list (window world_example) = map fst (PREDEFINED_OS world_example)
  /\ distro_list (window (snd (Gui.validate_os_links env_only_arch world_example)))
     = map fst (PREDEFINED_OS (snd (Gui.validate_os_links env_only_arch world_example)))
  /\ length (events (snd (Gui.update_iso_links env_only_arch world_example))) = 18%nat.
Proof.
  assert (Hnd : NoDup (map fst (PREDEFINED_OS world_example)))
    by (apply (bool_decide_unpack _); vm_compute; exact I).
  split; [exact Hnd|]. split; [reflexivity|].
  destruct (revalidation_keeps_the_list_in_step env_only_arch world_example Hnd eq_refl)
    as (H1 & _ & _ & H4 & _).
  split; [exact H1|]. rewrite H4. reflexivity.
Defined.

(** ** The name of a downloaded image *)

Lemma string_app_assoc (a b c : string) : (a ++ b) ++ c = a ++ b ++ c.
Proof.
  induction a as [|x a IH]; [reflexivity|].
  change (String x ((a ++ b) ++ c) = String x (a ++ b ++ c)). now rewrite IH.
Qed.

Lemma contains_slash_app (a b : string) : PyStr.contains "/" (a ++ "/" ++ b) = true.
Proof.
  induction a as [|c a IH].
  - destruct b; reflexivity.
  - change ((String c a) ++ "/" ++ b) with (String c (a ++ "/" ++ b)).
    cbn [PyStr.contains]. rewrite IH. apply orb_true_r.
Qed.

Lemma basename_app_slash (a b : string) :
  PyStr.contains "/" b = false -> PyStr.basename (a ++ "/" ++ b) = b.
Proof.
  intros Hb. induction a as [|c a IH].
  - change ("" ++ "/" ++ b) with (String "/" b). cbn [PyStr.basename]. now rewrite Hb.
  - change ((String c a) ++ "/" ++ b) with (String c (a ++ "/" ++ b)).
    cbn [PyStr.basename]. now rewrite contains_slash_app.
Qed.

Lemma basename_no_slash (b : string) :
  PyStr.contains "/" b = false -> PyStr.basename b = b.
Proof.
  destruct b as [|c b]; [reflexivity|]. intros H. cbn [PyStr.basename].
  cbn [PyStr.contains] in H. apply orb_false_iff in H as [Hs Hc]. rewrite Hc.
  cbn [PyStr.startswith] in Hs.
  destruct (Ascii.eqb c "/") eqn:E; [|reflexivity].
  rewrite Ascii.eqb_sym, E in Hs. now destruct b.
Qed.

Lemma endswith_slash (a : string) :
  PyStr.endswith a "/" = true -> exists a', a = a' ++ "/".
Proof.
  induction a as [|c a IH]; [discriminate|].
  cbn [PyStr.endswith]. intros H. apply orb_true_iff in H as [H|H].
  - apply String.eqb_eq in H. exists EmptyString. exact H.
  - destruct (IH H) as [a' ->]. now exists (String c a').
Qed.

Lemma startswith_slash (b : string) :
  PyStr.contains "/" b = false -> PyStr.startswith b "/" = false.
Proof.
  destruct b as [|c b]; [reflexivity|]. cbn [PyStr.contains].
  intros H. now apply orb_false_iff in H as [Hs _].
Qed.

Lemma basename_path_join (a b : string) :
  PyStr.contains "/" b = false -> PyStr.basename (PyStr.path_join a b) = b.
Proof.
  intros Hb. unfold PyStr.path_join. rewrite (startswith_slash b Hb).
  destruct (String.eqb_spec a EmptyString) as [->|_]; cbn [orb].
  - now apply basename_no_slash.
  - destruct (PyStr.endswith a "/") eqn:E.
    + destruct (endswith_slash a E) as [a' ->].
      rewrite string_app_assoc. now apply basename_app_slash.
    + now apply basename_app_slash.
Qed.

(** In the catalog the program ships, the file name a download is stored
    under leads the verification back to the entry it was downloaded for. *)
Lemma shipped_entry_found_by_its_file_name (os_name computed : string) (info : os_info) :
  Gui.dict_get os_name PREDEFINED_OS_initial = Some info ->
  PyStr.contains "/" (os_name ++ ".iso") = false
  /\ compare_against PREDEFINED_OS_initial (os_name ++ ".iso") computed
     = (if String.eqb computed (hash info) then Match os_name
        else Mismatch os_name (hash info) computed).
Proof.
  unfold PREDEFINED_OS_initial. cbn [Gui.dict_get].
  repeat (match goal with
          | |- (if String.eqb ?k os_name then _ else _) = _ -> _ =>
              destruct (String.eqb_spec k os_name) as [<-|_];
              [intros [= <-]; split; vm_compute; reflexivity|]
          end).
  discriminate.
Qed.

Lemma placeholder_entry (os_name : string) (info : os_info) (d : list (string * os_info)) :
  forallb placeholder d = true -> Gui.dict_get os_name d = Some info ->
  all_hex (hash info) = false.
Proof.
  induction d as [|[k v] d IH]; [discriminate|].
  cbn [forallb Gui.dict_get]. intros H. apply andb_true_iff in H as [H1 H2].
  destruct (String.eqb k os_name); [|now apply IH].
  intros [= <-]. unfold placeholder in H1. cbn [snd] in H1. now apply negb_true_iff in H1.
Qed.

(** X20.  With the catalog the program ships, whatever bytes a mirror
    delivers for an entry, the verification of the downloaded image finds
    that same entry by the file name [<os_name>.iso] and reports a mismatch
    against its expected hash: no downloaded image can pass. *)
Theorem shipped_download_is_reported_as_mismatch
        (env : Env) (os_name h : string) (info : os_info) (c : Z) (bytes : list byte)
        (w : World) :
  let iso_path := PyStr.path_join (temp_dir (flash_util (window w))) (os_name ++ ".iso") in
  PREDEFINED_OS w = PREDEFINED_OS_initial ->
  Gui.dict_get os_name (PREDEFINED_OS w) = Some info ->
  env_get env (now w) (url info) = GetResponse c h bytes None ->
  accepted_status c = true ->
  can_create (fs w) iso_path = true ->
  let w' := snd (Gui.select_distro env os_name w) in
  selection w' = iso_path
  /\ verification w' = Mismatch os_name (hash info) (Sha256.sha256_hex bytes).
Proof.
  cbn zeta. intros Hcat Hget Hg Hc Hcan.
  destruct (select_distro_delivered env os_name h info c bytes w Hget Hg Hc Hcan)
    as (_ & Hsel & Hfs & _ & Hcat').
  cbn zeta in Hsel, Hfs, Hcat'. split; [exact Hsel|].
  set (iso_path := PyStr.path_join _ _) in *.
  unfold verification. unfold selection in Hsel. rewrite Hsel, Hfs, Hcat', Hcat.
  rewrite Hcat in Hget.
  assert (Hne : String.eqb iso_path EmptyString = false).
  { apply String.eqb_neq. apply path_join_nonempty, iso_name_nonempty. }
  rewrite Hne. unfold node_at. rewrite (can_create_not_root _ _ Hcan), lookup_insert_eq.
  assert (Hd : String.eqb (Sha256.sha256_hex bytes) EmptyString = false).
  { apply String.eqb_neq. intros H0.
    pose proof (hexdigest_length (Sha256.update Sha256.new bytes)) as Hl.
    unfold Sha256.sha256_hex in H0. rewrite H0 in Hl. discriminate. }
  rewrite Hd.
  destruct (shipped_entry_found_by_its_file_name os_name (Sha256.sha256_hex bytes) info Hget)
    as [Hslash Hcmp].
  unfold iso_path. rewrite (basename_path_join _ _ Hslash), Hcmp.
  destruct (String.eqb_spec (Sha256.sha256_hex bytes) (hash info)) as [He|_];
    [|reflexivity].
  pose proof (placeholder_entry os_name info PREDEFINED_OS_initial eq_refl Hget) as Hp.
  pose proof (hexdigest_all_hex (Sha256.update Sha256.new bytes)) as Hx.
  unfold Sha256.sha256_hex in He. rewrite He, Hp in Hx. discriminate.
Qed.

Lemma shipped_download_is_reported_as_mismatch_witness :
  let env := with_get (GetResponse 200 "OK" (bytes_of_string "abc") None) env_offline in
  let info := OsInfo "https://cdimage.kali.org/kali-2022.4/kali-linux-2022.4-installer-amd64.iso"
                     "dummyhash_kali" in
  PREDEFINED_OS world_example = PREDEFINED_OS_initial
  /\ Gui.dict_get "Kali Linux 2022.4" (PREDEFINED_OS world_example) = Some info
  /\ env_get env (now world_example) (url info)
     = GetResponse 200 "OK" (bytes_of_string "abc") None
  /\ accepted_status 200 = true
  /\ can_create (fs world_example) "/tmp/ventoy_k3x9/Kali Linux 2022.4.iso" = true
  /\ verification (snd (Gui.select_distro env "Kali Linux 2022.4" world_example))
     = Mismatch "Kali Linux 2022.4" "dummyhash_kali"
                "ba7816bf8f01cfea414140de5dae2223b00361a396177a9cb410ff61f20015ad".
Proof.
  cbn zeta. split; [reflexivity|]. split; [reflexivity|]. split; [reflexivity|].
  split; [reflexivity|]. split; [reflexivity|].
  destruct (shipped_download_is_reported_as_mismatch
              (with_get (GetResponse 200 "OK" (bytes_of_string "abc") None) env_offline)
              "Kali Linux 2022.4" "OK"
              (OsInfo "https://cdimage.kali.org/kali-2022.4/kali-linux-2022.4-installer-amd64.iso"
                      "dummyhash_kali")
              200 (bytes_of_string "abc") world_example
              eq_refl eq_refl eq_refl eq_refl eq_refl) as [_ H].
  rewrite H. reflexivity.
Defined.

(** ** A flash in Ventoy mode *)

(** X21.  A flash in Ventoy mode with an existing mount point and a
    readable image puts a copy of the image at
    [<mount>/<basename of the image>]: the copy holds the image's bytes and
    has its SHA-256; no command is run and no request is made, and the
    selected image stays selected. *)
Theorem flash_usb_in_ventoy_mode_copies_the_image (env : Env) (content : list byte) (w : World) :
  let self := window w in
  let ventoy_mount := PyStr.strip (ventoy_mount_input self) in
  let dest_path := PyStr.path_join ventoy_mount (PyStr.basename (selected_iso_path self)) in
  selected_iso_path self <> EmptyString ->
  dd_mode_radio self = false ->
  ventoy_mode_radio self = true ->
  ventoy_mount <> EmptyString ->
  path_exists (fs w) ventoy_mount = true ->
  node_at (fs w) (selected_iso_path self) = Some (File content) ->
  can_create (fs w) dest_path = true ->
  dest_path <> selected_iso_path self ->
  exists w',
    Gui.flash_usb env w = (Ret tt, w')
    /\ fs w' = <[dest_path := File content]> (fs w)
    /\ events w' = events w
    /\ selection w' = selection w
    /\ Backend.compute_sha256 (flash_util self) dest_path w'
       = (Ret (Some (Sha256.sha256_hex content)), w').
Proof.
  cbn zeta. intros Hsel Hdd Hvm Hmount Hexists Hsrc Hcan _.
  unfold Gui.flash_usb. rewrite bind_run. cbn [get_world].
  apply String.eqb_neq in Hsel. apply String.eqb_neq in Hmount.
  rewrite Hsel, Hdd, Hvm, Hmount.
  rewrite bind_run, log_message_run.
  set (w0 := set_window _ w).
  rewrite bind_run, (copy_iso_to_ventoy_run _ _ _ content) by assumption.
  unfold Gui.validate_operation. erewrite try_ret_run by apply log_message_run.
  eexists. split; [reflexivity|].
  rewrite (blind_shown fs) by apply fs_log_blind.
  rewrite (blind_shown events) by apply events_log_blind.
  rewrite (blind_shown selection) by apply selection_log_blind.
  rewrite logged_fs, logged_events. cbn [fs events set_fs]. rewrite logged_events.
  split; [reflexivity|]. split; [reflexivity|]. split.
  - rewrite (blind_logged selection) by apply selection_log_blind.
    unfold selection. cbn [window set_fs].
    change (selected_iso_path (window (logged ?s ?m ?l w0)))
      with (selection (logged s m l w0)).
    rewrite (blind_logged selection) by apply selection_log_blind.
    unfold w0. now rewrite (blind_shown selection) by apply selection_log_blind.
  - apply compute_sha256_run.
    rewrite (blind_shown fs) by apply fs_log_blind. rewrite logged_fs. cbn [fs set_fs].
    unfold node_at. rewrite (can_create_not_root _ _ Hcan). apply lookup_insert_eq.
Qed.

Lemma flash_usb_in_ventoy_mode_copies_the_image_witness :
  let g := {| log_level := LOG_INFO; flash_util := util_on "Linux"; log_output := [];
              status_pane := [];
              selected_iso_path := "/tmp/ventoy_k3x9/Arch Linux.iso";
              dd_mode_radio := false; ventoy_mode_radio := true;
              usb_device_combo := EmptyString; ventoy_mount_input := " /mnt/ventoy ";
              distro_list := []; reformat_combo := "GPT";
              usb_details_output := EmptyString |} in
  let w := set_window g
            (set_fs (<["/mnt/ventoy" := Dir]> (<["/mnt" := Dir]> fs_example))
                    world_example) in
  exists w',
    Gui.flash_usb env_offline w = (Ret tt, w')
    /\ fs w' !! "/mnt/ventoy/Arch Linux.iso" = Some (File (bytes_of_string "abc")).
Proof.
  cbn zeta.
  match goal with |- context [Gui.flash_usb env_offline ?w0] => set (w := w0) end.
  assert (H1 : path_exists (fs w) (PyStr.strip (ventoy_mount_input (window w))) = true)
    by (vm_compute; reflexivity).
  assert (H2 : node_at (fs w) (selected_iso_path (window w))
               = Some (File (bytes_of_string "abc"))) by (vm_compute; reflexivity).
  assert (H3 : can_create (fs w)
                 (PyStr.path_join (PyStr.strip (ventoy_mount_input (window w)))
                                  (PyStr.basename (selected_iso_path (window w)))) = true)
    by (vm_compute; reflexivity).
  destruct (flash_usb_in_ventoy_mode_copies_the_image env_offline (bytes_of_string "abc") w)
    as (w' & Hrun & Hfs & _); try assumption; try reflexivity; try discriminate.
  exists w'. split; [exact Hrun|]. rewrite Hfs. apply lookup_insert_eq.
Defined.
